(** * PlottingFramework: the draw-command builder and the layout engine

    A shallow embedding of [src/PlottingTools.cxx] (GeneratePlot, GetDataClone,
    MakeLegend, MakeText, CutHistogram, CutGraph, DivideTSpline) and of the range
    accessors of [inc/Plot.h], followed by the properties proved about them.

    Conventions of the embedding:
    - a C++ [double] is a rational [Q] and its arithmetic is exact; an [int]
      or [unsigned] is a [Z]. A rational cannot stand for an infinity or a
      NaN: where the code divides by a value that its arguments can make zero
      (the number of columns of a legend, the value of a spline) the quotient
      is [Qdiv_finite], which has no result for the divisor 0; the other
      divisions are by the size and by the coordinate range of a pad;
    - a fault of the code (a call through a null pointer, an index outside a
      [std::vector], an integer division by zero, an exception that nothing
      catches) ends the run: the function is an [option] and the fault is
      [None];
    - [std::string] is [string]; [std::string::npos] is [None];
    - [std::vector] and ROOT's [TObjArray]/[TList] are lists, updated by index
      with stdpp's insert and delete;
    - the attributes which ROOT objects, pads and the global style expose
      through setters are named registers in a [gmap string Q];
    - the graphics backend (ROOT) is not part of the sources: the queries the
      code makes to it are the methods of the class [Backend]. *)

From Stdlib Require Import ZArith QArith Qround String List Lia.
From stdpp Require Import base option list gmap strings pretty.

Open Scope string_scope.
Open Scope Z_scope.

(** ** Numbers and strings *)

Definition Qltb (x y : Q) : bool := negb (Qle_bool y x).

(** [x / y] on doubles where [y] can be zero: the quotient by zero, an
    infinity or a NaN, is no rational number. *)
Definition Qdiv_finite (x y : Q) : option Q :=
  if Qeq_bool y 0 then None else Some (x / y)%Q.

(** [s.find(pat)]: position of the first occurrence, [None] for npos. *)
Definition find (s pat : string) : option nat := String.index 0 pat s.

Definition contains (s pat : string) : bool :=
  match find s pat with Some _ => true | None => false end.

(** [s.erase(pos, len)]. *)
Definition erase (s : string) (pos len : nat) : string :=
  String.substring 0 pos s ++
  String.substring (pos + len) (String.length s - (pos + len)) s.

(** [s.erase(s.find(tok), tok.length())], guarded by [s.find(tok) != npos]. *)
Definition erase_token (s tok : string) : string :=
  match find s tok with
  | Some pos => erase s pos (String.length tok)
  | None => s
  end.

(** [s.replace(s.find(tok), tok.size(), by)], guarded in the same way. *)
Definition replace_token (s tok by_ : string) : string :=
  match find s tok with
  | Some pos =>
      String.substring 0 pos s ++ by_ ++
      String.substring (pos + String.length tok)
                       (String.length s - (pos + String.length tok)) s
  | None => s
  end.

(** [s.substr(0, s.find(sep))]: everything when [sep] does not occur. *)
Definition substr_until (s sep : string) : string :=
  match find s sep with
  | Some pos => String.substring 0 pos s
  | None => s
  end.

Definition to_string (n : Z) : string := pretty n.

(** ** ROOT objects, as far as the code reads and writes them *)

Abbreviation regs := (gmap string Q).

Definition set_reg (k : string) (v : Q) (r : regs) : regs := <[k := v]> r.

(** The attributes that are strings (the titles of the axes), by name. *)
Abbreviation texts := (gmap string string).

Definition kBlack : Q := 1%Q.

Record TAxis := mkTAxis {
  fNbins : Z;
  fXmin : Q;
  fXmax : Q }.

(** A histogram: cell 0 is the underflow, cells 1..fNbins the bins, cell
    fNbins+1 the overflow. *)
Record TH1 := mkTH1 {
  h_name : string;
  h_title : string;
  h_isTH2 : bool;            (* InheritsFrom("TH2") *)
  h_xaxis : TAxis;
  h_content : list Q;        (* GetBinContent *)
  h_error : list Q;          (* GetBinError *)
  h_att : regs;
  h_text : texts }.

Definition GetNbinsX (h : TH1) : Z := fNbins (h_xaxis h).

Definition h_with_content (c : list Q) (h : TH1) : TH1 :=
  mkTH1 (h_name h) (h_title h) (h_isTH2 h) (h_xaxis h) c (h_error h) (h_att h)
        (h_text h).

Definition h_with_error (e : list Q) (h : TH1) : TH1 :=
  mkTH1 (h_name h) (h_title h) (h_isTH2 h) (h_xaxis h) (h_content h) e (h_att h)
        (h_text h).

Definition h_with_att (a : regs) (h : TH1) : TH1 :=
  mkTH1 (h_name h) (h_title h) (h_isTH2 h) (h_xaxis h) (h_content h) (h_error h) a
        (h_text h).

Definition h_with_name (n : string) (h : TH1) : TH1 :=
  mkTH1 n (h_title h) (h_isTH2 h) (h_xaxis h) (h_content h) (h_error h) (h_att h)
        (h_text h).

Definition h_with_title (t : string) (h : TH1) : TH1 :=
  mkTH1 (h_name h) t (h_isTH2 h) (h_xaxis h) (h_content h) (h_error h) (h_att h)
        (h_text h).

Definition h_set (k : string) (v : Q) (h : TH1) : TH1 :=
  h_with_att (set_reg k v (h_att h)) h.

Definition h_set_text (k : string) (s : string) (h : TH1) : TH1 :=
  mkTH1 (h_name h) (h_title h) (h_isTH2 h) (h_xaxis h) (h_content h) (h_error h) (h_att h)
        (<[k := s]> (h_text h)).

(** [TH1::SetBinContent] and [TH1::SetBinError] on a histogram whose axes
    cannot be extended: a cell outside the array is left alone. *)
Definition SetBinContent (bin : Z) (c : Q) (h : TH1) : TH1 :=
  if bin <? 0 then h else h_with_content (<[Z.to_nat bin := c]> (h_content h)) h.

Definition SetBinError (bin : Z) (e : Q) (h : TH1) : TH1 :=
  if bin <? 0 then h else h_with_error (<[Z.to_nat bin := e]> (h_error h)) h.

(** A graph: its points in storage order, each an (x, y) pair. The
    attributes and texts hold those of the histogram with the axes of the
    graph as well, which [GetHistogram], [GetXaxis] and [GetYaxis] reach. *)
Record TGraph := mkTGraph {
  g_name : string;
  g_title : string;
  g_points : list (Q * Q);
  g_att : regs;
  g_text : texts }.

Definition GetN (g : TGraph) : Z := Z.of_nat (length (g_points g)).

Definition g_with_points (p : list (Q * Q)) (g : TGraph) : TGraph :=
  mkTGraph (g_name g) (g_title g) p (g_att g) (g_text g).

Definition g_set (k : string) (v : Q) (g : TGraph) : TGraph :=
  mkTGraph (g_name g) (g_title g) (g_points g) (set_reg k v (g_att g)) (g_text g).

Definition g_with_att (a : regs) (g : TGraph) : TGraph :=
  mkTGraph (g_name g) (g_title g) (g_points g) a (g_text g).

Definition g_set_text (k : string) (s : string) (g : TGraph) : TGraph :=
  mkTGraph (g_name g) (g_title g) (g_points g) (g_att g) (<[k := s]> (g_text g)).

(** [TGraph::RemovePoint]: an index outside the graph removes nothing. *)
Definition RemovePoint (ipoint : Z) (g : TGraph) : TGraph :=
  if ipoint <? 0 then g
  else if GetN g <=? ipoint then g
  else g_with_points (delete (Z.to_nat ipoint) (g_points g)) g.

Record TF1 := mkTF1 {
  f_name : string;
  f_formula : string;
  f_xmin : Q;
  f_xmax : Q;
  f_att : regs;
  f_text : texts }.

Definition f_set (k : string) (v : Q) (f : TF1) : TF1 :=
  mkTF1 (f_name f) (f_formula f) (f_xmin f) (f_xmax f) (set_reg k v (f_att f)) (f_text f).

Definition f_set_text (k : string) (s : string) (f : TF1) : TF1 :=
  mkTF1 (f_name f) (f_formula f) (f_xmin f) (f_xmax f) (f_att f) (<[k := s]> (f_text f)).

Record TBox := mkTBox { b_x1 : Q; b_y1 : Q; b_x2 : Q; b_y2 : Q }.

Record TExec := mkTExec { e_name : string; e_command : string }.

Record TLatex := mkTLatex { tl_x : Q; tl_y : Q; tl_text : string; tl_att : regs }.

(** A [TPaveText]: its corners (NDC), its lines, its attributes. *)
Record TPaveText := mkTPaveText {
  t_name : string;
  t_x1 : Q; t_y1 : Q; t_x2 : Q; t_y2 : Q;
  t_lines : list string;
  t_att : regs }.

(** A [TLegend] over objects of type [O]: corners (NDC), the header set by
    [SetHeader], the entries added by [AddEntry] as (object, label, draw
    style), and the attributes. *)
Record TLegendOf (O : Type) := mkTLegend {
  l_name : string;
  l_x1 : Q; l_y1 : Q; l_x2 : Q; l_y2 : Q;
  l_header : option string;
  l_entries : list (O * string * string);
  l_att : regs }.

Arguments mkTLegend {O}.
Arguments l_name {O}.
Arguments l_x1 {O}.
Arguments l_y1 {O}.
Arguments l_x2 {O}.
Arguments l_y2 {O}.
Arguments l_header {O}.
Arguments l_entries {O}.
Arguments l_att {O}.

(** The objects that are found among the available data and in the list of
    primitives of a pad; [ObjOther] is an object of a class the code has no
    use for, with the name of its class and its own name. *)
#[warnings="-register-all"]
Inductive TObject :=
| ObjTH1 (h : TH1)
| ObjTGraph (g : TGraph)
| ObjTF1 (f : TF1)
| ObjTBox (b : TBox)
| ObjTExec (e : TExec)
| ObjTLatex (t : TLatex)
| ObjTPaveText (t : TPaveText)
| ObjTLegend (l : TLegendOf TObject)
| ObjOther (className name : string).

Abbreviation TLegend := (TLegendOf TObject).

Definition l_with_name (n : string) (l : TLegend) : TLegend :=
  mkTLegend n (l_x1 l) (l_y1 l) (l_x2 l) (l_y2 l) (l_header l) (l_entries l) (l_att l).

Definition l_with_header (t : string) (l : TLegend) : TLegend :=
  mkTLegend (l_name l) (l_x1 l) (l_y1 l) (l_x2 l) (l_y2 l) (Some t) (l_entries l) (l_att l).

Definition AddEntry (o : TObject) (label style : string) (l : TLegend) : TLegend :=
  mkTLegend (l_name l) (l_x1 l) (l_y1 l) (l_x2 l) (l_y2 l) (l_header l)
            (l_entries l ++ [(o, label, style)]) (l_att l).

Definition l_set (k : string) (v : Q) (l : TLegend) : TLegend :=
  mkTLegend (l_name l) (l_x1 l) (l_y1 l) (l_x2 l) (l_y2 l) (l_header l)
            (l_entries l) (set_reg k v (l_att l)).

Definition t_with_name (n : string) (t : TPaveText) : TPaveText :=
  mkTPaveText n (t_x1 t) (t_y1 t) (t_x2 t) (t_y2 t) (t_lines t) (t_att t).

Definition t_with_lines (ls : list string) (t : TPaveText) : TPaveText :=
  mkTPaveText (t_name t) (t_x1 t) (t_y1 t) (t_x2 t) (t_y2 t) ls (t_att t).

Definition t_set (k : string) (v : Q) (t : TPaveText) : TPaveText :=
  mkTPaveText (t_name t) (t_x1 t) (t_y1 t) (t_x2 t) (t_y2 t) (t_lines t)
              (set_reg k v (t_att t)).

(** [TObject::InheritsFrom], [GetName], [GetTitle], [ClassName]. *)
Definition InheritsFrom (cls : string) (o : TObject) : bool :=
  match o with
  | ObjTH1 h => String.eqb cls "TH1" || (h_isTH2 h && String.eqb cls "TH2")
  | ObjTGraph _ => String.eqb cls "TGraph"
  | ObjTF1 _ => String.eqb cls "TF1"
  | ObjTBox _ => String.eqb cls "TBox"
  | ObjTExec _ => String.eqb cls "TExec"
  | ObjTLatex _ => String.eqb cls "TLatex"
  | ObjTPaveText _ => String.eqb cls "TPaveText"
  | ObjTLegend _ => String.eqb cls "TLegend"
  | ObjOther c _ => String.eqb cls c
  end.

Definition ObjName (o : TObject) : string :=
  match o with
  | ObjTH1 h => h_name h
  | ObjTGraph g => g_name g
  | ObjTF1 f => f_name f
  | ObjTExec e => e_name e
  | ObjTPaveText t => t_name t
  | ObjTLegend l => l_name l
  | ObjOther _ n => n
  | ObjTBox _ | ObjTLatex _ => ""
  end.

Definition ObjTitle (o : TObject) : string :=
  match o with
  | ObjTH1 h => h_title h
  | ObjTGraph g => g_title g
  | ObjTF1 f => f_formula f
  | ObjTExec e => e_command e
  | _ => ""
  end.

Definition ClassName (o : TObject) : string :=
  match o with
  | ObjTH1 h => if h_isTH2 h then "TH2" else "TH1"
  | ObjTGraph _ => "TGraph"
  | ObjTF1 _ => "TF1"
  | ObjTBox _ => "TBox"
  | ObjTExec _ => "TExec"
  | ObjTLatex _ => "TLatex"
  | ObjTPaveText _ => "TPaveText"
  | ObjTLegend _ => "TLegend"
  | ObjOther c _ => c
  end.

(** ** Pads *)

(** An entry of a pad's list of primitives: the object drawn, the option it
    was drawn with, and the identity (address) of the object, by which
    [TList::Remove] finds it. *)
Record Prim := mkPrim {
  p_addr : nat;
  p_obj : TObject;
  p_opt : string }.

(** The coordinate range of a pad ([GetX1] .. [GetY2]) and of its frame
    ([GetUxmin] .. [GetUymax]). *)
Record PadGeom := mkPadGeom {
  fX1 : Q; fY1 : Q; fX2 : Q; fY2 : Q;
  fUxmin : Q; fUymin : Q; fUxmax : Q; fUymax : Q }.

Record TPad := mkTPad {
  pad_name : string;
  pad_geom : PadGeom;
  pad_att : regs;
  pad_prims : list Prim }.

Definition GetX1 (p : TPad) := fX1 (pad_geom p).
Definition GetY1 (p : TPad) := fY1 (pad_geom p).
Definition GetX2 (p : TPad) := fX2 (pad_geom p).
Definition GetY2 (p : TPad) := fY2 (pad_geom p).
Definition GetUxmin (p : TPad) := fUxmin (pad_geom p).
Definition GetUymin (p : TPad) := fUymin (pad_geom p).
Definition GetUxmax (p : TPad) := fUxmax (pad_geom p).
Definition GetUymax (p : TPad) := fUymax (pad_geom p).

Definition get_reg (k : string) (r : regs) : Q := default 0%Q (r !! k).

Definition pad_set (k : string) (v : Q) (p : TPad) : TPad :=
  mkTPad (pad_name p) (pad_geom p) (set_reg k v (pad_att p)) (pad_prims p).

Definition pad_with_prims (l : list Prim) (p : TPad) : TPad :=
  mkTPad (pad_name p) (pad_geom p) (pad_att p) l.

(** The address given to a newly created object: one not in the list. *)
Definition fresh_addr (l : list Prim) : nat := S (list_max (map p_addr l)).

(** [obj->Draw(opt)] appends the object to the current pad's primitives; the
    position in the list is the z-order. *)
Definition Draw (o : TObject) (opt : string) (p : TPad) : TPad :=
  pad_with_prims (pad_prims p ++ [mkPrim (fresh_addr (pad_prims p)) o opt]) p.

(** [pad->GetListOfPrimitives()->Remove(&obj)]: the first entry holding the
    object at that address goes. *)
Fixpoint remove_addr (a : nat) (l : list Prim) : list Prim :=
  match l with
  | [] => []
  | x :: r => if Nat.eqb (p_addr x) a then r else x :: remove_addr a r
  end.

Definition Remove (a : nat) (p : TPad) : TPad :=
  pad_with_prims (remove_addr a (pad_prims p)) p.

(** [new TPad(name, "", xlow, ylow, xup, yup)]: the position in the canvas is
    kept in registers; the coordinate range starts as the unit square. *)
Definition new_TPad (name : string) (xlow ylow xup yup : Q) : TPad :=
  mkTPad name (mkPadGeom 0 0 1 1 0 0 1 1)%Q
         (set_reg "YupNDC" yup (set_reg "XupNDC" xup
           (set_reg "YlowNDC" ylow (set_reg "XlowNDC" xlow ∅))))
         [].

Record TCanvas := mkTCanvas {
  c_name : string;
  c_width : Z;
  c_height : Z;
  c_att : regs;
  c_pads : list TPad;
  c_prims : list TObject }.

(** The ambient state of a render: the global style registers [gStyle]
    (with [TGaxis::fgMaxDigits]), the console, and the date. *)
Record World := mkWorld {
  gStyle : regs;
  cout : list string;
  today : Z }.

Definition style_set (k : string) (v : Q) (w : World) : World :=
  mkWorld (set_reg k v (gStyle w)) (cout w) (today w).

Definition print (msg : string) (w : World) : World :=
  mkWorld (gStyle w) (cout w ++ [msg]) (today w).

Definition GetTickLength (axis : string) (w : World) : Q :=
  get_reg ("TickLength" ++ axis) (gStyle w).

(** ** What the code asks of the backend *)

Class Backend := {
  (** [TAxis::FindBin]: the cell holding a coordinate. *)
  FindBin : TAxis -> Q -> Z;
  (** [hist->Scale(1/hist->Integral(), "width")]: new contents and errors. *)
  ScaleToUnitIntegral : TH1 -> list Q * list Q;
  (** [ratio->Divide(denominator)]: new contents and errors. *)
  Divide : TH1 -> TH1 -> list Q * list Q;
  (** [UseCurrentStyle]: the attributes an object takes from [gStyle]. *)
  UseCurrentStyle : regs -> regs -> regs;
  (** [TLatex::GetBoundingBox] at font 43 and size 24: (width, height). *)
  GetBoundingBox : string -> N * N;
  (** [TText::GetBBox().fWidth] of a line of a [TPaveText]. *)
  TextBBoxWidth : string -> Q;
  (** [TPaveText::GetBBox().fX]. *)
  PaveBBoxX : TPaveText -> Q;
  XtoPixel : TPad -> Q -> Z;
  YtoPixel : TPad -> Q -> Z;
  (** [pad->Update()]. *)
  PadUpdate : World -> TPad -> TPad;
  (** [pad->PlaceBox(o, w, h, xl, yl)]: whether a free place was found, and
      the values left in [xl] and [yl]. *)
  PlaceBox : TPad -> Prim -> Q -> Q -> Q * Q -> bool * (Q * Q);
  (** [std::to_string] of [GetEntries], [Integral], [GetMean], [GetMaximum]
      and [GetMinimum] of a histogram, by token. *)
  HistStat : string -> TH1 -> string;
  (** [TLegend::GetNRows]. *)
  GetNRows : TLegend -> Z;
  (** [array[i]] of a [TObjArray] for an index past its last entry: what
      ROOT hands out there, an object or the null pointer ([None]). *)
  ObjArrayPastLast : list TObject -> Z -> option TObject;
  (** Whether [TGraph::GetHistogram] and [TF1::GetHistogram] hand out a
      histogram for the object (they make it at the first call) or null. *)
  HasHistogram : TObject -> bool;
  (** Whether the list of functions of a histogram holds the object named
      "palette", which painting with the option Z puts there. *)
  HasPalette : TH1 -> bool }.

(** ** The plot description read by PlottingTools.cxx

    PlottingTools.cxx reads the plot and its style through the accessors
    below. The declarations of the revision it was written against are not
    among the sources (inc/Plot.h is a later revision, PlotStyle.h is
    absent), so each accessor the code calls is a field here. *)

Module Data.
(** The class of a series, with what only that class carries: the cuts of
    [Plot::Histogram] and [Plot::Graph], the denominator of [Plot::Ratio].
    [GetType] is the tag the code dispatches on. *)
Inductive Kind :=
| Histogram (GetHistCutHigh GetHistCutLow : Q)
| Ratio (GetHistCutHigh GetHistCutLow : Q) (GetUniqueNameDenom : string)
| Graph (GetGraphCutHigh GetGraphCutLow : Q)
| Unknown (type : string).

Record t := mk {
  GetName : string;
  GetUniqueName : string;
  GetColor : Z;
  GetStyle : Z;
  GetDrawingOptions : string;
  GetLable : string;
  GetKind : Kind }.

Definition GetType (d : t) : string :=
  match GetKind d with
  | Histogram _ _ => "hist"
  | Ratio _ _ _ => "ratio"
  | Graph _ _ => "graph"
  | Unknown ty => ty
  end.
End Data.

(** [Plot::Pad::Box] of inc/Plot.h: the position and its accessors. *)
Module Box.
Record position_t := mkPos {
  x : option Q;
  y : option Q;
  isUserCoord : option bool }.

Record t := mk {
  mPos : position_t;
  GetBorderStyle : Z;
  GetBorderColor : Z;
  GetBorderSize : Z }.

Definition GetXPosition (b : t) : Q :=
  match x (mPos b) with Some v => v | None => 0%Q end.
Definition GetYPosition (b : t) : Q :=
  match y (mPos b) with Some v => v | None => 0%Q end.
Definition IsUserCoordinates (b : t) : bool :=
  match isUserCoord (mPos b) with Some v => v | None => false end.
Definition IsAutoPlacement (b : t) : bool :=
  negb (bool_decide (is_Some (x (mPos b)))) || negb (bool_decide (is_Some (y (mPos b)))).
End Box.

Module LegendBox.
Record t := mk {
  box : Box.t;
  GetTitle : string;
  GetNumColumns : Z }.
End LegendBox.

Module TextBox.
Record t := mk {
  box : Box.t;
  GetText : string }.
End TextBox.

(** An element of [plot.GetBoxes(padID)], by its [GetType]. *)
Inductive AnyBox :=
| BoxLegend (b : LegendBox.t)
| BoxText (b : TextBox.t)
| BoxOther (type : string).

Definition BoxType (b : AnyBox) : string :=
  match b with
  | BoxLegend _ => "legend"
  | BoxText _ => "text"
  | BoxOther ty => ty
  end.

Module PadStyle.
Record t := mk {
  GetXLow : Q; GetYLow : Q; GetXUp : Q; GetYUp : Q;
  GetTopMargin : Q; GetBottomMargin : Q; GetLeftMargin : Q; GetRightMargin : Q;
  GetTitleOffsetX : Q; GetTitleOffsetY : Q; GetTitleOffsetZ : Q;
  GetTitle : string }.
End PadStyle.

Module PlotStyle.
Record t := mk {
  GetName : string;
  GetNPads : Z;
  GetWidth : Z;
  GetHeight : Z;
  GetFillStyle : Z;
  GetPadStyles : list PadStyle.t;
  GetPallette : Z;
  GetTextFont : Z;
  GetLableFont : Z;
  GetTitleFont : Z;
  GetTextSize : Q;
  GetLableSize : Q;
  GetTitleSize : Q;
  GetMarkerSize : Q;
  GetLineWidthThick : Q;
  GetMarkerSizeThick : Q;
  GetDefault2DStyle : string;
  GetDefaultColor : Z -> Z;
  GetDefaultMarker : Z -> Z;
  IsDrawTimestamps : bool;
  GetTimestampPositon : Q * Q;
  (** [GetLinkedPads(axis, padID)]: the pads that share the axis. *)
  GetLinkedPads : string -> Z -> list Z }.
End PlotStyle.

(** What [plot.GetAxis(padID, axis)] points to. *)
Module Axis.
Record t := mk {
  IsRangeSet : bool;
  GetAxisRange : Q * Q;
  IsTitleSet : bool;
  GetTitle : string }.
End Axis.

Module Plot.
Record t := mk {
  GetUniqueName : string;
  GetNumRequiredPads : Z;
  GetControlString : Z -> string;
  GetData : Z -> list Data.t;
  GetBoxes : Z -> list AnyBox;
  IsAxisDefined : Z -> string -> bool;
  GetAxis : Z -> string -> Axis.t }.
End Plot.

(** Modelled from the spec: PlotStyle::GetDefaultColor and GetDefaultMarker
    are declared in PlotStyle.h, which is not among the sources; by the spec
    a cyclic default list of length L gives the entry [i mod L] at index
    [i]. Used to build concrete styles; the properties below hold for any
    [GetDefaultColor]. *)
Definition cyclic_default (l : list Z) (i : Z) : Z :=
  default 0 (l !! Z.to_nat (i mod Z.of_nat (length l))).

(** ** inc/Plot.h: the display ranges of a series and of a ratio *)

Module PlotH.
Record layout_t := mkLayout {
  color : option Z;
  style : option Z;
  scale : option Q }.

Record modify_t := mkModify {
  norm_mode : option Z;
  scale_factor : option Q }.

Record legend_t := mkLegend {
  lable : option string;
  identifier : option Z }.

Record dataRange_t := mkRange {
  min : option Q;
  max : option Q }.

Record Data := mkData {
  mDefinesFrame : bool;
  mType : string;
  mName : string;
  mInputIdentifier : string;
  mDrawingOptions : option string;
  mDrawingOptionAlias : option Z;
  mTextFormat : option string;
  mLegend : legend_t;
  mMarker : layout_t;
  mLine : layout_t;
  mFill : layout_t;
  mRangeX : dataRange_t;
  mRangeY : dataRange_t;
  mModify : modify_t }.

Record Ratio := mkRatio {
  base : Data;                 (* the Data sub-object *)
  mDenomName : string;
  mDenomInputIdentifier : string;
  mIsCorrelated : bool }.

Definition GetMinRangeX (d : Data) := min (mRangeX d).
Definition GetMaxRangeX (d : Data) := max (mRangeX d).
Definition GetMinRangeY (d : Data) := min (mRangeY d).
Definition GetMaxRangeY (d : Data) := max (mRangeY d).

Definition with_RangeX (r : dataRange_t) (d : Data) : Data :=
  mkData (mDefinesFrame d) (mType d) (mName d) (mInputIdentifier d)
         (mDrawingOptions d) (mDrawingOptionAlias d) (mTextFormat d)
         (mLegend d) (mMarker d) (mLine d) (mFill d) r (mRangeY d) (mModify d).

Definition with_RangeY (r : dataRange_t) (d : Data) : Data :=
  mkData (mDefinesFrame d) (mType d) (mName d) (mInputIdentifier d)
         (mDrawingOptions d) (mDrawingOptionAlias d) (mTextFormat d)
         (mLegend d) (mMarker d) (mLine d) (mFill d) (mRangeX d) r (mModify d).

(** Modelled from the spec: Data::UnsetRangeX and Data::UnsetRangeY are
    defined in Plot.cxx, which is not among the sources; inc/Plot.h only
    declares them. Each clears the two optional bounds of its own range
    (an unset field is an empty optional) and returns the object. *)
Definition Data_UnsetRangeX (d : Data) : Data := with_RangeX (mkRange None None) d.
Definition Data_UnsetRangeY (d : Data) : Data := with_RangeY (mkRange None None) d.

(** [Ratio& UnsetRangeX() { return static_cast<...>(Data::UnsetRangeY()); }]
    and [Ratio& UnsetRangeY() { return static_cast<...>(Data::UnsetRangeY()); }]:
    the call acts on the Data sub-object of the ratio. *)
Definition on_base (f : Data -> Data) (r : Ratio) : Ratio :=
  mkRatio (f (base r)) (mDenomName r) (mDenomInputIdentifier r) (mIsCorrelated r).

Definition Ratio_UnsetRangeX (r : Ratio) : Ratio := on_base Data_UnsetRangeY r.
Definition Ratio_UnsetRangeY (r : Ratio) : Ratio := on_base Data_UnsetRangeY r.
End PlotH.

(** ** PlottingTools.cxx *)

Section PlottingTools.
Context `{Backend}.

(** [gNameGroupSeparator], a constant of PlottingFramework.h (absent). *)
Variable gNameGroupSeparator : string.

(** *** CutHistogram *)

(** The body of both loops: [hist->SetBinContent(i, 0); hist->SetBinError(i, 0);]. *)
Definition ZeroBin (hist : TH1) (i : Z) : TH1 :=
  SetBinError i 0%Q (SetBinContent i 0%Q hist).

Definition CutHistogram (hist : TH1) (cutoff cutoffLow : Q) : TH1 :=
  if Qltb cutoff (-997) then hist
  else
    let cutoffBin := FindBin (h_xaxis hist) cutoff in
    (* for(int i = cutoffBin; i <= hist->GetNbinsX(); i++) *)
    let hist := fold_left ZeroBin (seqZ cutoffBin (GetNbinsX hist - cutoffBin + 1)) hist in
    if Qltb cutoffLow (-997) then hist
    else
      let cutoffBinLow := FindBin (h_xaxis hist) cutoffLow in
      (* for(int i = 1; i <= cutoffBinLow; i++) *)
      fold_left ZeroBin (seqZ 1 cutoffBinLow) hist.

(** *** CutGraph *)

(** The counting loop: one pass over the points, two counters
    (pointsToRemoveLow, pointsToRemoveHigh). *)
Definition count_step (cutLow cutHigh : bool) (cutoff cutoffLow : Q)
           (acc : Z * Z) (p : Q * Q) : Z * Z :=
  let '(pointsToRemoveLow, pointsToRemoveHigh) := acc in
  (if cutLow && Qltb (fst p) cutoffLow then pointsToRemoveLow + 1 else pointsToRemoveLow,
   if cutHigh && Qltb cutoff (fst p) then pointsToRemoveHigh + 1 else pointsToRemoveHigh).

Definition CutGraph (graph : TGraph) (cutoff cutoffLow : Q) : TGraph :=
  let cutHigh := negb (Qltb cutoff (-997)) in
  let cutLow := negb (Qltb cutoffLow (-997)) in
  let '(pointsToRemoveLow, pointsToRemoveHigh) :=
    fold_left (count_step cutLow cutHigh cutoff cutoffLow) (g_points graph) (0, 0) in
  let graph :=
    Nat.iter (Z.to_nat pointsToRemoveHigh) (fun g => RemovePoint (GetN g - 1) g) graph in
  Nat.iter (Z.to_nat pointsToRemoveLow) (fun g => RemovePoint 0 g) graph.

(** *** GetDataClone *)

(** [availableData->FindObject(name)]: the first object of that name. *)
Definition FindObject (name : string) (availableData : list TObject) : option TObject :=
  List.find (fun o => String.eqb (ObjName o) name) availableData.

(** [GetDataClone<T>]; [cls] is the class [T]. A null result is [None]. *)
Definition GetDataClone (cls : string) (dataName : string)
           (availableData : list TObject) (w : World) : option TObject * World :=
  match FindObject dataName availableData with
  | Some obj =>
      if negb (InheritsFrom cls obj)
      then (None, print ("ERROR: " ++ dataName ++ " is of type " ++ ClassName obj
                          ++ " instead of " ++ cls ++ ".") w)
      else (Some obj, w)
  | None => (None, print ("ERROR: " ++ dataName ++ " was not loaded.") w)
  end.

Definition GetDataClone_TH1 (dataName : string) (availableData : list TObject)
           (w : World) : option TH1 * World :=
  match GetDataClone "TH1" dataName availableData w with
  | (Some (ObjTH1 h), w) => (Some h, w)
  | (_, w) => (None, w)
  end.

Definition GetDataClone_TGraph (dataName : string) (availableData : list TObject)
           (w : World) : option TGraph * World :=
  match GetDataClone "TGraph" dataName availableData w with
  | (Some (ObjTGraph g), w) => (Some g, w)
  | (_, w) => (None, w)
  end.

(** *** MakeLegend *)

(** [legendEntries[i]]. The code reads the entry at [iLegend - 1] without a
    check of the index, which starts at 0 and only grows: within the
    entries it is the entry, past the last entry (as in the turn of the
    title, which comes after the labels) it is what ROOT hands out. *)
Definition EntryAt (legendEntries : list TObject) (i : Z) : option TObject :=
  match legendEntries !! Z.to_nat i with
  | Some entry => Some entry
  | None => ObjArrayPastLast legendEntries i
  end.

Definition stat_tokens : list string :=
  ["<entries>"; "<integral>"; "<mean>"; "<maximum>"; "<minimum>"].

(** Lines 504-533, for one of the five tokens: the entry is asked for its
    class whenever the token is found. *)
Definition substitute_stat (entry : option TObject) (legendTitle tok : string)
  : option string :=
  if contains legendTitle tok then
    e ← entry;
    match e with
    | ObjTH1 h => Some (replace_token legendTitle tok (HistStat tok h))
    | _ => Some legendTitle
    end
  else Some legendTitle.

(** Lines 492-533: the replacement of the tokens of one label (the first
    occurrence of each) from the entry read at [legendEntries[iLegend-1]].
    A token that is found makes the code call a method of the entry: with
    the null pointer for an entry ([None]) that is a fault. *)
Definition SubstituteTokens (entry : option TObject) (legendTitle : string)
  : option string :=
  legendTitle ←
    (if contains legendTitle "<name>"
     then e ← entry;
          Some (replace_token legendTitle "<name>"
                              (substr_until (ObjName e) gNameGroupSeparator))
     else Some legendTitle);
  legendTitle ←
    (if contains legendTitle "<title>"
     then e ← entry; Some (replace_token legendTitle "<title>" (ObjTitle e))
     else Some legendTitle);
  fold_left (fun legendTitle tok => legendTitle ← legendTitle;
                                    substitute_stat entry legendTitle tok)
            stat_tokens (Some legendTitle).

(** The variables of the measuring loop. *)
Record Measure := mkMeasure {
  m_titles : list string;        (* legendTitles, as rewritten so far *)
  iColumn : Z;
  iLegend : Z;
  legendHeightPixel : Q;
  titleWidthPixel : Q;
  legendWidthPixelPerColumn : list Z }.

(** Lines 535-550, for the label as rewritten; [size] is
    [legendTitles.size()], [hasTitle] is [!legendBox->GetTitle().empty()].
    The width of the column is read at [iColumn] without a check of the
    index, and [iColumn %= nColumns] divides integers: no column at that
    index and a number of columns of 0 are faults. *)
Definition measure_label (hasTitle : bool) (size nColumns : Z) (m : Measure)
           (legendTitle : string) : option Measure :=
  let '(width, height) := GetBoundingBox legendTitle in
  let width := Z.of_N width in
  let height := Z.of_N height in
  let legendHeightPixel :=
    if Qltb (legendHeightPixel m) (inject_Z height)
    then inject_Z height else legendHeightPixel m in
  if hasTitle && (iLegend m =? size)
  then Some (mkMeasure (m_titles m ++ [legendTitle]) (iColumn m) (iLegend m)
                       legendHeightPixel (inject_Z width) (legendWidthPixelPerColumn m))
  else
    if iColumn m <? 0 then None else
    widest ← legendWidthPixelPerColumn m !! Z.to_nat (iColumn m);
    let widths :=
      if widest <? width
      then <[Z.to_nat (iColumn m) := width]> (legendWidthPixelPerColumn m)
      else legendWidthPixelPerColumn m in
    if nColumns =? 0 then None
    else Some (mkMeasure (m_titles m ++ [legendTitle])
                         (Z.rem (iColumn m + 1) nColumns) (iLegend m + 1)
                         legendHeightPixel (titleWidthPixel m) widths).

(** One turn of [for(auto& legendTitle : legendTitles)]. *)
Definition measure_step (legendEntries : list TObject) (hasTitle : bool)
           (size nColumns : Z) (m : Measure) (legendTitle : string) : option Measure :=
  legendTitle ← SubstituteTokens (EntryAt legendEntries (iLegend m - 1)) legendTitle;
  measure_label hasTitle size nColumns m legendTitle.

(** The four rectangles drawn over the margins while a place is searched,
    in the order bottom, top, left, right. *)
Definition margin_boxes (pad : TPad) (w : World) : list TBox :=
  [ mkTBox (GetX1 pad) (GetY1 pad) (GetX2 pad)
           (GetUymin pad + GetTickLength "X" w * (GetUymax pad - GetUymin pad));
    mkTBox (GetX1 pad)
           (GetUymax pad - GetTickLength "X" w * (GetUymax pad - GetUymin pad))
           (GetX2 pad) (GetY2 pad);
    mkTBox (GetX1 pad) (GetY1 pad)
           (GetUxmin pad + GetTickLength "Y" w * (GetUxmax pad - GetUxmin pad))
           (GetY2 pad);
    mkTBox (GetUxmax pad - GetTickLength "Y" w * (GetUxmax pad - GetUxmin pad))
           (GetY1 pad) (GetX2 pad) (GetY2 pad) ]%Q.

(** [for(TObject* o : *pad->GetListOfPrimitives()) foundPosition = pad->PlaceBox(o, ...)]:
    every turn overwrites [foundPosition]; [lowerLeftX] and [lowerLeftY] are
    passed by reference. *)
Definition place_loop (pad : TPad) (width height : Q) : bool * (Q * Q) :=
  fold_left (fun acc o => PlaceBox pad o width height (snd acc))
            (pad_prims pad) (false, (0%Q, 0%Q)).

Definition fractionOfTickLenght : Q := 0.9.

(** The legend entries: [legend->AddEntry(entry, legendTitles[i], drawStyle)]. *)
Definition entry_drawStyle (entry : TObject) (errorStyle : string) : string :=
  if InheritsFrom "TF1" entry || String.eqb errorStyle "hist" then "l" else "ep".

Fixpoint add_entries (entries : list TObject) (legendTitles errorStyles : list string)
         (i : nat) (legend : TLegend) : TLegend :=
  match entries with
  | [] => legend
  | entry :: rest =>
      add_entries rest legendTitles errorStyles (S i)
        (AddEntry entry (default "" (legendTitles !! i))
                  (entry_drawStyle entry (default "" (errorStyles !! i))) legend)
  end.

(** What the measuring part of MakeLegend (up to line 570) computes. *)
Record LegendSize := mkLegendSize {
  sz_titles : list string;       (* legendTitles after the loop *)
  sz_nEntries : Z;
  legendHeightNDC : Q;
  markerWidthNDC : Q;
  totalHeightNDC : Q;
  totalWidthNDC : Q }.

(** Lines 472-570. The vector of the column widths is made with [nColumns]
    elements: a negative number is refused with an exception, which nothing
    catches. *)
Definition legend_size (legendBox : LegendBox.t) (pad : TPad)
           (legendEntries : list TObject) (legendTitles : list string)
  : option LegendSize :=
  let nColumns := LegendBox.GetNumColumns legendBox in
  let hasTitle := negb (String.eqb (LegendBox.GetTitle legendBox) "") in
  let nEntries := Z.of_nat (length legendEntries) in
  let nEntries := if hasTitle then nEntries + 1 else nEntries in
  let padWidthPixel := XtoPixel pad (GetX2 pad) in
  let padHeightPixel := YtoPixel pad (GetY1 pad) in
  if nColumns <? 0 then None else
  let legendTitles :=
    if hasTitle then (legendTitles ++ [LegendBox.GetTitle legendBox])%list else legendTitles in
  m ← fold_left
         (fun m legendTitle =>
            m ← m;
            measure_step legendEntries hasTitle (Z.of_nat (length legendTitles)) nColumns
                         m legendTitle)
         legendTitles
         (Some (mkMeasure [] 0 1 0%Q 0%Q (replicate (Z.to_nat nColumns) 0)));
  let legendWidthPixel :=
    fold_left (fun acc length => (acc + inject_Z length)%Q)
              (legendWidthPixelPerColumn m) 0%Q in
  let markerWidthPixel := Z.of_N (fst (GetBoundingBox "AAA")) in
  let legendWidthNDC := (legendWidthPixel / inject_Z padWidthPixel)%Q in
  let legendHeightNDC := (legendHeightPixel m / inject_Z padHeightPixel)%Q in
  let markerWidthNDC := (inject_Z markerWidthPixel / inject_Z padWidthPixel)%Q in
  let titleWidthNDC := (titleWidthPixel m / inject_Z padWidthPixel)%Q in
  totalHeightNDC ←
    Qdiv_finite ((inject_Z nEntries + 0.5 * inject_Z (nEntries + 1)) * legendHeightNDC)
                (inject_Z nColumns);
  let totalWidthNDC := ((inject_Z nColumns + 0.3333) * markerWidthNDC + legendWidthNDC)%Q in
  let totalWidthNDC :=
    if Qltb legendWidthPixel (titleWidthPixel m)
    then (0.3333 * markerWidthNDC + titleWidthNDC)%Q else totalWidthNDC in
  Some (mkLegendSize (m_titles m) nEntries legendHeightNDC markerWidthNDC
                     totalHeightNDC totalWidthNDC).

(** The distance kept from objects and ticks: 90% of the tick length. *)
Definition marginX (pad : TPad) (w : World) : Q :=
  (fractionOfTickLenght * GetTickLength "Y" w
   * (GetUxmax pad - GetUxmin pad) / (GetX2 pad - GetX1 pad))%Q.

Definition marginY (pad : TPad) (w : World) : Q :=
  (fractionOfTickLenght * GetTickLength "X" w
   * (GetUymax pad - GetUymin pad) / (GetY2 pad - GetY1 pad))%Q.

(** [marginsBottom.Draw("SAME"); ... marginsRight.Draw("SAME");] *)
Definition draw_margin_boxes (pad : TPad) (w : World) : TPad :=
  fold_left (fun pad b => Draw (ObjTBox b) "SAME" pad) (margin_boxes pad w) pad.

(** The search of lines 598-601, on the updated pad with the four
    rectangles drawn; it is the search that [legend_position] makes. *)
Definition search_place (pad : TPad) (w : World) (sz : LegendSize) : bool * (Q * Q) :=
  place_loop (draw_margin_boxes pad w)
             (totalWidthNDC sz + 2 * marginX pad w)%Q
             (totalHeightNDC sz + 2 * marginY pad w)%Q.

(** Lines 572-641: the upper left corner of the legend, the pad and the
    ambient state after the placement. *)
Definition legend_position (legendBox : LegendBox.t) (pad : TPad) (w : World)
           (sz : LegendSize) : Q * Q * TPad * World :=
  let upperLeftX := Box.GetXPosition (LegendBox.box legendBox) in
  let upperLeftY := Box.GetYPosition (LegendBox.box legendBox) in
  if Box.IsAutoPlacement (LegendBox.box legendBox) then
    let pad := PadUpdate w pad in
    let marginX := marginX pad w in
    let marginY := marginY pad w in
    (* the four rectangles are objects created here: their addresses *)
    let marginsBottom := fresh_addr (pad_prims pad) in
    let marginsTop := S marginsBottom in
    let marginsLeft := S marginsTop in
    let marginsRight := S marginsLeft in
    let boxed := draw_margin_boxes pad w in
    let '(foundPosition, (lowerLeftX, lowerLeftY)) :=
      place_loop boxed (totalWidthNDC sz + 2 * marginX)%Q
                 (totalHeightNDC sz + 2 * marginY)%Q in
    let '(upperLeftX, upperLeftY, w) :=
      if foundPosition
      then ((lowerLeftX + 2 * marginX)%Q,
            (lowerLeftY + totalHeightNDC sz + 2 * marginY)%Q, w)
      else (((GetUxmin pad - GetX1 pad) / (GetX2 pad - GetX1 pad)
             + (1 + 1 / fractionOfTickLenght) * marginX)%Q,
            ((GetUymax pad - GetY1 pad) / (GetY2 pad - GetY1 pad)
             - (1 + 1 / fractionOfTickLenght) * marginY)%Q,
            print "Warning: Could not find enough space to place legend properly." w) in
    let pad := Remove marginsBottom boxed in
    let pad := Remove marginsTop pad in
    let pad := Remove marginsLeft pad in
    let pad := Remove marginsRight pad in
    (upperLeftX, upperLeftY, pad, w)
  else if Box.IsUserCoordinates (LegendBox.box legendBox) then
    let pad := PadUpdate w pad in
    (((upperLeftX - GetX1 pad) / (GetX2 pad - GetX1 pad))%Q,
     ((upperLeftY - GetY1 pad) / (GetY2 pad - GetY1 pad))%Q, pad, w)
  else (upperLeftX, upperLeftY, pad, w).

Definition MakeLegend (legendBox : LegendBox.t) (pad : TPad)
           (legendEntries : list TObject) (legendTitles errorStyles : list string)
           (w : World) : option (TLegend * TPad * World) :=
  let textSizePixel : Q := 24%Q in
  let textFont : Q := 43%Q in
  let nColumns := LegendBox.GetNumColumns legendBox in
  let hasTitle := negb (String.eqb (LegendBox.GetTitle legendBox) "") in
  sz ← legend_size legendBox pad legendEntries legendTitles;
  let legendTitles := sz_titles sz in
  let '(upperLeftX, upperLeftY, pad, w) := legend_position legendBox pad w sz in
  let legend : TLegend :=
    mkTLegend "" upperLeftX (upperLeftY - totalHeightNDC sz)%Q
              (upperLeftX + totalWidthNDC sz)%Q upperLeftY None [] ∅ in
  let legend :=
    if hasTitle then l_with_header (LegendBox.GetTitle legendBox) legend else legend in
  let legend := add_entries legendEntries legendTitles errorStyles 0 legend in
  let legend := l_set "NColumns" (inject_Z nColumns) legend in
  let legend :=
    l_set "Margin" (markerWidthNDC sz * inject_Z nColumns / totalWidthNDC sz)%Q legend in
  let legend := l_set "TextFont" textFont legend in
  let legend := l_set "TextSize" textSizePixel legend in
  let legend := l_set "TextAlign" 11%Q legend in   (* kHAlignLeft + kVAlignBottom *)
  let legend :=
    l_set "EntrySeparation"
          (1 - 0.5 * legendHeightNDC sz
               / (0.5 * (totalHeightNDC sz / inject_Z (GetNRows legend))))%Q legend in
  let legend :=
    match l_header legend with
    | Some _ => l_set "Header.TextSize" textSizePixel (l_set "Header.TextFont" textFont legend)
    | None => legend
    end in
  let legend := l_set "LineStyle" (inject_Z (Box.GetBorderStyle (LegendBox.box legendBox))) legend in
  let legend := l_set "LineColor" (inject_Z (Box.GetBorderColor (LegendBox.box legendBox))) legend in
  let legend := l_set "LineWidth" (inject_Z (Box.GetBorderSize (LegendBox.box legendBox))) legend in
  let legend := l_set "FillStyle" 0%Q legend in
  Some (legend, pad, w).

(** *** MakeText *)

Definition delimiter : string := " // ".

(** The do-while loop that splits the text. Each turn but the last removes
    the token and the delimiter from the front of [text], so the length of
    the text bounds the number of turns; [fuel] is that bound. *)
Fixpoint split_loop (fuel : nat) (text : string) (nLetters : Z) (lines : list string)
  : Z * list string :=
  match fuel with
  | O => (nLetters, lines)
  | S fuel =>
      let pos := find text delimiter in
      let token := match pos with Some p => String.substring 0 p text | None => text end in
      let nLetters :=
        if nLetters <? Z.of_nat (String.length token)
        then Z.of_nat (String.length token) else nLetters in
      let lines := (lines ++ [token])%list in
      match pos with
      | Some p => split_loop fuel (erase text 0 (p + String.length delimiter)) nLetters lines
      | None => (nLetters, lines)
      end
  end.

Definition MakeText (textBox : TextBox.t) (gPad : TPad) (w : World) : TPaveText * TPad :=
  let textSizePixel : Q := 24%Q in
  let textFont : Q := 43%Q in
  let text := TextBox.GetText textBox in
  let '(nLetters, lines) := split_loop (S (String.length text)) text 0 [] in
  let nLines := Z.of_nat (length lines) in
  let textSizeNDC := (textSizePixel / inject_Z (YtoPixel gPad (GetY1 gPad)))%Q in
  let textSizeNDCx := (0.6 * textSizePixel / inject_Z (XtoPixel gPad (GetX2 gPad)))%Q in
  let margin := (0.5 * textSizePixel)%Q in
  let yWidth := ((1.0 * inject_Z nLines + 0.5 * inject_Z (nLines - 1)) * textSizeNDC)%Q in
  let xWidth := (inject_Z nLetters * textSizeNDCx)%Q in
  let upperLeftX := Box.GetXPosition (TextBox.box textBox) in
  let upperLeftY := Box.GetYPosition (TextBox.box textBox) in
  let '(upperLeftX, upperLeftY, gPad) :=
    if Box.IsUserCoordinates (TextBox.box textBox) then
      let gPad := PadUpdate w gPad in
      (((upperLeftX - GetX1 gPad) / (GetX2 gPad - GetX1 gPad))%Q,
       ((upperLeftY - GetY1 gPad) / (GetY2 gPad - GetY1 gPad))%Q, gPad)
    else (upperLeftX, upperLeftY, gPad) in
  let tPaveText :=
    mkTPaveText "" upperLeftX (upperLeftY - yWidth)%Q (upperLeftX + xWidth)%Q upperLeftY [] ∅ in
  (* for(auto &line : lines): AddText, font and size of the line, widest line *)
  let '(tPaveText, boxExtent) :=
    fold_left
      (fun acc line =>
         let '(tPaveText, boxExtent) := acc in
         let width := TextBBoxWidth line in
         (t_with_lines (t_lines tPaveText ++ [line]) tPaveText,
          if Qltb boxExtent width then width else boxExtent))
      lines (tPaveText, 0%Q) in
  let bboxX2 := (PaveBBoxX tPaveText + boxExtent + 2 * margin)%Q in
  let tPaveText := t_set "BBoxX2" bboxX2 tPaveText in
  let tPaveText := t_set "BorderSize" 1%Q tPaveText in
  let tPaveText := t_set "LineStyle" (inject_Z (Box.GetBorderStyle (TextBox.box textBox))) tPaveText in
  let tPaveText := t_set "LineColor" (inject_Z (Box.GetBorderColor (TextBox.box textBox))) tPaveText in
  let tPaveText := t_set "LineWidth" (inject_Z (Box.GetBorderSize (TextBox.box textBox))) tPaveText in
  let tPaveText :=
    t_set "Margin" (margin / (PaveBBoxX tPaveText + boxExtent + 2 * margin))%Q tPaveText in
  let tPaveText := t_set "TextAlign" 12%Q tPaveText in
  let tPaveText := t_set "TextFont" textFont tPaveText in
  let tPaveText := t_set "TextSize" textSizePixel tPaveText in
  let tPaveText := t_set "FillStyle" 0%Q tPaveText in
  (tPaveText, gPad).

(** *** GeneratePlot: the loop over the series of a pad *)

(** The variables that live across the turns of [for(auto data : plot.GetData(padID))]. *)
Record DataLoop := mkDataLoop {
  dl_pad : TPad;
  dl_world : World;
  drawingOptions : string;
  dataIndex : Z;
  lables : list string;
  legendEntries : list TObject;
  errorStyles : list string }.

(** Lines 93-97: colour and marker of the series, and the index after the
    statement [dataIndex += color]. *)
Definition ResolveStyle (plotStyle : PlotStyle.t) (data : Data.t) (dataIndex : Z)
  : Z * Z * Z :=
  let color :=
    if Data.GetColor data =? 0
    then PlotStyle.GetDefaultColor plotStyle dataIndex else Data.GetColor data in
  let style :=
    if Data.GetStyle data =? 0
    then PlotStyle.GetDefaultMarker plotStyle dataIndex else Data.GetStyle data in
  let '(dataIndex, color) :=
    if color <? 0
    then (dataIndex + color, PlotStyle.GetDefaultColor plotStyle (dataIndex + color))
    else (dataIndex, color) in
  let style :=
    if style <? 0 then PlotStyle.GetDefaultMarker plotStyle dataIndex else style in
  (color, style, dataIndex).

Definition errorBoxesOn : TObject :=
  ObjTExec (mkTExec "errorBoxesOn" "gStyle->SetErrorX(0.48)").
Definition errorBoxesOff : TObject :=
  ObjTExec (mkTExec "errorBoxesOff" "gStyle->SetErrorX(0)").

(** [pad->GetListOfPrimitives()->Last()]. *)
Definition Last (pad : TPad) : option TObject := p_obj <$> last (pad_prims pad).

(** Lines 260-267, reached by every series that was drawn. *)
Definition finish_series (data : Data.t) (s : DataLoop) (pad : TPad) (w : World)
           (dataIndex : Z) : DataLoop :=
  let dataIndex := dataIndex + 1 in
  let drawingOptions := "EP SAME" in
  if negb (String.eqb (Data.GetLable data) "") then
    mkDataLoop pad w drawingOptions dataIndex
               (lables s ++ [Data.GetLable data])
               (legendEntries s ++ option_list (Last pad))
               (errorStyles s ++ [Data.GetDrawingOptions data])
  else
    mkDataLoop pad w drawingOptions dataIndex (lables s) (legendEntries s) (errorStyles s).

(** The marker and line attributes given to every drawn object. *)
Definition h_style (style color : Z) (h : TH1) : TH1 :=
  h_set "LineColor" (inject_Z color)
    (h_set "MarkerColor" (inject_Z color) (h_set "MarkerStyle" (inject_Z style) h)).

Definition theLine (dummyHist : TH1) : TF1 :=
  f_set "LineWidth" 2%Q
    (f_set "LineColor" kBlack
       (mkTF1 "line" "1" (fXmin (h_xaxis dummyHist)) (fXmax (h_xaxis dummyHist)) ∅ ∅)).

(** The "boxes" option: the two TExec objects are drawn around the change
    of the fill style; [opts] is what becomes of the drawing options. *)
Definition boxes_option (drawingOptions opts : string) (pad : TPad) : string * TPad :=
  if contains drawingOptions "boxes"
  then (opts, Draw errorBoxesOff "" (Draw errorBoxesOn "" pad))
  else (drawingOptions, pad).

(** Lines 106-155: a histogram that was found is cut, styled and drawn. *)
Definition draw_hist (controlString : string) (plotStyle : PlotStyle.t) (data : Data.t)
           (s : DataLoop) (w : World) (color style dataIndex : Z)
           (drawingOptions : string) (cutHigh cutLow : Q) (histo : TH1) : DataLoop :=
  let pad := dl_pad s in
  let histo := CutHistogram histo cutHigh cutLow in
  let histo :=
    if contains controlString "normalize"
    then let '(c, e) := ScaleToUnitIntegral histo in
         h_with_error e (h_with_content c histo)
    else histo in
  let histo :=
    if contains controlString "thick"
    then h_set "MarkerSize" (PlotStyle.GetMarkerSizeThick plotStyle)
               (h_set "LineWidth" (PlotStyle.GetLineWidthThick plotStyle) histo)
    else histo in
  let histo := h_with_att (UseCurrentStyle (gStyle w) (h_att histo)) histo in
  let histo := h_style style color histo in
  let '(drawingOptions, w) :=
    if h_isTH2 histo
    then (drawingOptions ++ " " ++ PlotStyle.GetDefault2DStyle plotStyle,
          if String.eqb (PlotStyle.GetDefault2DStyle plotStyle) "COLZ"
          then style_set "NumberContours" 256%Q w else w)
    else (drawingOptions, w) in
  let '(drawingOptions, histo) :=
    if contains drawingOptions "none"
    then (erase_token drawingOptions "none", h_set "LineWidth" 0%Q histo)
    else (drawingOptions, histo) in
  let '(drawingOptions, histo, pad) :=
    if contains drawingOptions "hist"
    then (drawingOptions ++ " HIST", histo, pad)
    else if contains drawingOptions "band"
    then (erase_token drawingOptions "band" ++ " E5",
          h_set "FillStyle" 1%Q
            (h_set "FillColor" (inject_Z color) (h_set "MarkerSize" 0%Q histo)),
          pad)
    else if contains drawingOptions "boxes"
    then let '(drawingOptions, pad) :=
           boxes_option drawingOptions (erase_token drawingOptions "boxes" ++ " E2") pad in
         (drawingOptions, h_set "FillStyle" 0%Q histo, pad)
    else (drawingOptions, histo, pad) in
  let pad := Draw (ObjTH1 histo) drawingOptions pad in
  finish_series data s pad w dataIndex.

(** Lines 185-203: before the first series of a pad the frame and the line
    at 1 are drawn, the index moves on and the style is resolved again. *)
Definition reference_line (plotStyle : PlotStyle.t) (data : Data.t) (ratio : TH1)
           (pad : TPad) (drawingOptions : string) (dataIndex color style : Z)
  : string * TPad * Z * Z * Z :=
  if dataIndex =? 0 then
    let dummyHist := h_with_name "dummy" ratio in
    let dummyHist := h_set "Xaxis.TickLength" 0.06%Q dummyHist in
    let dummyHist := h_set "Yaxis.Ndivisions" 305%Q dummyHist in
    let dummyHist := h_set "LineColor" 0%Q dummyHist in
    let pad := Draw (ObjTH1 dummyHist) "AXIS" pad in
    let pad := Draw (ObjTF1 (theLine dummyHist)) "SAME" pad in
    let drawingOptions := drawingOptions ++ " SAME" in
    let dataIndex := dataIndex + 1 in
    let color :=
      if Data.GetColor data =? 0
      then PlotStyle.GetDefaultColor plotStyle dataIndex else Data.GetColor data in
    let style :=
      if Data.GetStyle data =? 0
      then PlotStyle.GetDefaultMarker plotStyle dataIndex else Data.GetStyle data in
    (drawingOptions, pad, dataIndex, color, style)
  else (drawingOptions, pad, dataIndex, color, style).

(** The view of a pad that shows a two-dimensional ratio:
    [TView::CreateView(1)], [view->SetRange(...)], [SetTheta], [SetPhi]. *)
Definition set_view (pad : TPad) : TPad :=
  let pad := pad_set "View" 1%Q pad in
  let pad := pad_set "View.xmin" (-0.5)%Q pad in
  let pad := pad_set "View.ymin" (-1)%Q pad in
  let pad := pad_set "View.zmin" (-3.610432)%Q pad in
  let pad := pad_set "View.xmax" 100.5%Q pad in
  let pad := pad_set "View.ymax" 1.778151%Q pad in
  let pad := pad_set "View.zmax" 0.1470754%Q pad in
  let pad := pad_set "Theta" 49.5%Q pad in
  pad_set "Phi" 230%Q pad.

(** Lines 163-218: numerator and denominator were found. *)
Definition draw_ratio (plotStyle : PlotStyle.t) (data : Data.t)
           (s : DataLoop) (w : World) (color style dataIndex : Z)
           (drawingOptions : string) (cutHigh cutLow : Q) (ratio temp : TH1) : DataLoop :=
  let pad := dl_pad s in
  let ratio :=
    let '(c, e) := Divide ratio temp in h_with_error e (h_with_content c ratio) in
  let ratio := CutHistogram ratio cutHigh cutLow in
  let ratio := h_with_title "" ratio in
  let ratio := h_with_att (UseCurrentStyle (gStyle w) (h_att ratio)) ratio in
  let '(drawingOptions, ratio, pad, dataIndex, color, style) :=
    if h_isTH2 ratio then
      (drawingOptions ++ " " ++ PlotStyle.GetDefault2DStyle plotStyle,
       ratio, set_view pad, dataIndex, color, style)
    else
      let ratio := h_set "Yaxis.CenterTitle" 1%Q ratio in
      let ratio := h_set "Xaxis.TickLength" 0.06%Q ratio in
      let ratio := h_set "Yaxis.Ndivisions" 305%Q ratio in
      let '(drawingOptions, pad, dataIndex, color, style) :=
        reference_line plotStyle data ratio pad drawingOptions dataIndex color style in
      (drawingOptions, ratio, pad, dataIndex, color, style) in
  let '(drawingOptions', pad) :=
    boxes_option drawingOptions (erase_token drawingOptions "boxes" ++ " E2") pad in
  let ratio :=
    if contains drawingOptions "boxes" then h_set "FillStyle" 0%Q ratio else ratio in
  let ratio := h_style style color ratio in
  let pad := Draw (ObjTH1 ratio) drawingOptions' pad in
  finish_series data s pad w dataIndex.

(** Lines 226-253: a graph that was found. *)
Definition draw_graph (padID : Z) (data : Data.t)
           (s : DataLoop) (w : World) (color style dataIndex : Z)
           (drawingOptions : string) (cutHigh cutLow : Q) (graph : TGraph) : DataLoop :=
  let pad := dl_pad s in
  let graph := CutGraph graph cutHigh cutLow in
  let graph := g_with_att (UseCurrentStyle (gStyle w) (g_att graph)) graph in
  let graph :=
    g_set "LineColor" (inject_Z color)
      (g_set "MarkerColor" (inject_Z color)
         (g_set "MarkerStyle" (inject_Z style) graph)) in
  let graph :=
    if padID =? 2
    then g_set "Yaxis.Ndivisions" 305%Q
           (g_set "Xaxis.TickLength" 0.06%Q (g_set "Yaxis.CenterTitle" 1%Q graph))
    else graph in
  let '(drawingOptions', pad) := boxes_option drawingOptions "E2 SAME" pad in
  let graph :=
    if contains drawingOptions "boxes" then g_set "FillStyle" 0%Q graph else graph in
  let drawingOptions :=
    if dataIndex =? 0 then drawingOptions' ++ " AP" else drawingOptions' in
  let pad := Draw (ObjTGraph graph) drawingOptions pad in
  finish_series data s pad w dataIndex.

(** One turn of the loop. A [continue] keeps what the turn has already
    written to [dataIndex], [drawingOptions] and the console. *)
Definition data_step (controlString : string) (plotStyle : PlotStyle.t)
           (availableData : list TObject) (padID : Z)
           (s : DataLoop) (data : Data.t) : DataLoop :=
  let '(color, style, dataIndex) := ResolveStyle plotStyle data (dataIndex s) in
  let drawingOptions := drawingOptions s ++ Data.GetDrawingOptions data in
  let continue w :=
    mkDataLoop (dl_pad s) w drawingOptions dataIndex
               (lables s) (legendEntries s) (errorStyles s) in
  match Data.GetKind data with
  | Data.Histogram cutHigh cutLow =>
      match GetDataClone_TH1 (Data.GetUniqueName data) availableData (dl_world s) with
      | (None, w) => continue w
      | (Some histo, w) =>
          draw_hist controlString plotStyle data s w color style dataIndex
                    drawingOptions cutHigh cutLow histo
      end
  | Data.Ratio cutHigh cutLow uniqueNameDenom =>
      let '(ratio, w) := GetDataClone_TH1 (Data.GetUniqueName data) availableData (dl_world s) in
      let '(temp, w) := GetDataClone_TH1 uniqueNameDenom availableData w in
      match ratio, temp with
      | Some ratio, Some temp =>
          draw_ratio plotStyle data s w color style dataIndex
                     drawingOptions cutHigh cutLow ratio temp
      | _, _ => continue w
      end
  | Data.Graph cutHigh cutLow =>
      match GetDataClone_TGraph (Data.GetUniqueName data) availableData (dl_world s) with
      | (None, w) => continue w
      | (Some graph, w) =>
          draw_graph padID data s w color style dataIndex
                     drawingOptions cutHigh cutLow graph
      end
  | Data.Unknown _ =>
      continue (print ("ERROR: no matching representation found for " ++ Data.GetName data)
                      (dl_world s))
  end.

Definition data_loop (controlString : string) (plotStyle : PlotStyle.t)
           (availableData : list TObject) (padID : Z)
           (datas : list Data.t) (s : DataLoop) : DataLoop :=
  fold_left (data_step controlString plotStyle availableData padID) datas s.

(** *** GeneratePlot: the loop over the boxes of a pad *)

Record BoxLoop := mkBoxLoop {
  bl_pad : TPad;
  bl_world : World;
  legendIndex : Z;
  textIndex : Z }.

(** [for(auto box : plot.GetBoxes(padID))]; the [break] ends the loop. *)
Fixpoint box_loop (lables : list string) (legendEntries : list TObject)
         (errorStyles : list string) (boxes : list AnyBox) (s : BoxLoop)
  : option BoxLoop :=
  match boxes with
  | [] => Some s
  | box :: rest =>
      match box with
      | BoxLegend legendBox =>
          let legendName := "LegendBox_" ++ to_string (legendIndex s) in
          match lables with
          | [] => Some s
          | _ :: _ =>
              made ←
                MakeLegend legendBox (bl_pad s) legendEntries lables errorStyles (bl_world s);
              let '(legend, pad, w) := (made : TLegend * TPad * World) in
              let legend := l_with_name legendName legend in
              let pad := Draw (ObjTLegend legend) "SAME" pad in
              box_loop lables legendEntries errorStyles rest
                       (mkBoxLoop pad w (legendIndex s + 1) (textIndex s))
          end
      | BoxText textBox =>
          let textName := "TextBox_" ++ to_string (textIndex s) in
          let '(text, pad) := MakeText textBox (bl_pad s) (bl_world s) in
          let text := t_with_name textName text in
          let pad := Draw (ObjTPaveText text) "SAME" pad in
          box_loop lables legendEntries errorStyles rest
                   (mkBoxLoop pad (bl_world s) (legendIndex s) (textIndex s + 1))
      | BoxOther _ =>
          box_loop lables legendEntries errorStyles rest s
      end
  end.

(** *** GeneratePlot: the axes of a finished pad *)

(** Lines 335-343: an empty pad is left by [continue]; otherwise the first
    primitive that is a histogram, a graph or a function becomes
    [axisObject], which is null when there is none. *)
Inductive AxisObject :=
| PadSkipped                 (* the pad is empty: [continue] *)
| NullAxisObject             (* [axisObject] is null at line 345 *)
| AxisOf (o : TObject).

Definition holds_axes (o : TObject) : bool :=
  InheritsFrom "TH1" o || InheritsFrom "TGraph" o || InheritsFrom "TF1" o.

Definition find_axis_object (pad : TPad) : AxisObject :=
  match pad_prims pad with
  | [] => PadSkipped
  | _ :: _ =>
      match List.find (fun p => holds_axes (p_obj p)) (pad_prims pad) with
      | Some p => AxisOf (p_obj p)
      | None => NullAxisObject
      end
  end.

(** The address of [axisObject], an object of the pad. *)
Definition axis_address (pad : TPad) : nat :=
  match List.find (fun p => holds_axes (p_obj p)) (pad_prims pad) with
  | Some p => p_addr p
  | None => 0%nat
  end.

(** A write through a pointer to an object of the pad: the primitive at
    that address is rewritten. *)
Definition update_prim (a : nat) (f : TObject -> TObject) (pad : TPad) : TPad :=
  pad_with_prims
    (map (fun p => if Nat.eqb (p_addr p) a then mkPrim (p_addr p) (f (p_obj p)) (p_opt p)
                   else p)
         (pad_prims pad))
    pad.

(** [typeid(axisObject).name()]: the name that the compiler gives to the
    type [TObject*]. *)
Definition typeid_name : string := "P7TObject".

(** Lines 344-348: whether [axisHist] is set, and the console. For a
    histogram [axisHist] is the object itself, for a graph or a function
    the histogram that [GetHistogram] hands out. *)
Definition find_axisHist (axisObject : TObject) (w : World) : bool * World :=
  if InheritsFrom "TH1" axisObject then (true, w)
  else if InheritsFrom "TGraph" axisObject then (HasHistogram axisObject, w)
  else if InheritsFrom "TF1" axisObject then (HasHistogram axisObject, w)
  else (false, print ("ERROR: Cannot handle type " ++ typeid_name) w).

(** The writes through [axisHist], on the object that holds it: a number,
    a title of an axis, the title of the histogram. *)
Definition axis_set (k : string) (v : Q) (o : TObject) : TObject :=
  match o with
  | ObjTH1 h => ObjTH1 (h_set k v h)
  | ObjTGraph g => ObjTGraph (g_set k v g)
  | ObjTF1 f => ObjTF1 (f_set k v f)
  | _ => o
  end.

Definition axis_set_text (k : string) (s : string) (o : TObject) : TObject :=
  match o with
  | ObjTH1 h => ObjTH1 (h_set_text k s h)
  | ObjTGraph g => ObjTGraph (g_set_text k s g)
  | ObjTF1 f => ObjTF1 (f_set_text k s f)
  | _ => o
  end.

Definition axisHist_SetTitle (title : string) (o : TObject) : TObject :=
  match o with
  | ObjTH1 h => ObjTH1 (h_with_title title h)
  | _ => axis_set_text "Histogram.Title" title o
  end.

(** [axisHist->Get?axis()->SetRangeUser(first, second)]. *)
Definition SetRangeUser (axis : string) (range : Q * Q) (o : TObject) : TObject :=
  axis_set (axis ++ "axis.RangeUser.second") (snd range)
           (axis_set (axis ++ "axis.RangeUser.first") (fst range) o).

(** Lines 358-375, for one axis: every linked pad that defines the axis
    with a range sets it, the last one last. *)
Definition set_axis_range (plot : Plot.t) (plotStyle : PlotStyle.t) (padID : Z)
           (axis : string) (axisHist : TObject) : TObject :=
  fold_left
    (fun axisHist padID =>
       if Plot.IsAxisDefined plot padID axis
          && Axis.IsRangeSet (Plot.GetAxis plot padID axis)
       then SetRangeUser axis (Axis.GetAxisRange (Plot.GetAxis plot padID axis)) axisHist
       else axisHist)
    (PlotStyle.GetLinkedPads plotStyle axis padID) axisHist.

(** Lines 377-388, for one axis. *)
Definition set_axis_title (plot : Plot.t) (padID : Z) (axis : string)
           (axisHist : TObject) : TObject :=
  if Plot.IsAxisDefined plot padID axis && Axis.IsTitleSet (Plot.GetAxis plot padID axis)
  then axis_set_text (axis ++ "axis.Title") (Axis.GetTitle (Plot.GetAxis plot padID axis))
                     axisHist
  else axisHist.

(** Lines 350-388: the settings of the axes, on the object with the axes. *)
Definition set_axes (plot : Plot.t) (plotStyle : PlotStyle.t) (padStyle : PadStyle.t)
           (padID : Z) (axisHist : TObject) : TObject :=
  let axisHist := axis_set "Xaxis.TitleOffset" (PadStyle.GetTitleOffsetX padStyle) axisHist in
  let axisHist := axis_set "Yaxis.TitleOffset" (PadStyle.GetTitleOffsetY padStyle) axisHist in
  let axisHist := axis_set "Zaxis.TitleOffset" (PadStyle.GetTitleOffsetZ padStyle) axisHist in
  let axisHist := axisHist_SetTitle (PadStyle.GetTitle padStyle) axisHist in
  let axisHist := set_axis_range plot plotStyle padID "X" axisHist in
  let axisHist := set_axis_range plot plotStyle padID "Y" axisHist in
  let axisHist := set_axis_range plot plotStyle padID "Z" axisHist in
  let axisHist := set_axis_title plot padID "X" axisHist in
  let axisHist := set_axis_title plot padID "Y" axisHist in
  set_axis_title plot padID "Z" axisHist.

(** [palette->SetX2NDC(0.865); palette->SetTitleOffset();] when the
    histogram has a palette; the offset is the default argument, 1. *)
Definition adjust_palette (o : TObject) : TObject :=
  match o with
  | ObjTH1 h =>
      if HasPalette h
      then ObjTH1 (h_set "palette.TitleOffset" 1%Q (h_set "palette.X2NDC" 0.865%Q h))
      else o
  | _ => o
  end.

(** Lines 390-408: the margins and offsets for a two-dimensional histogram. *)
Definition set_axes_TH2 (axisHist : nat) (pad : TPad) (w : World) : TPad :=
  let pad := pad_set "RightMargin" (0.12 + 0.06)%Q pad in
  let pad := pad_set "TopMargin" (0.12 - 0.05)%Q pad in
  let pad := pad_set "BottomMargin" (0.12 + 0.02)%Q pad in
  let pad := update_prim axisHist (axis_set "Xaxis.TitleOffset" 1.1%Q) pad in
  let pad := update_prim axisHist (axis_set "Yaxis.TitleOffset" 1.1%Q) pad in
  let pad := update_prim axisHist (axis_set "Zaxis.TitleOffset" 1.6%Q) pad in
  let pad := PadUpdate w pad in
  let pad := update_prim axisHist adjust_palette pad in
  PadUpdate w pad.

(** Lines 334-413: the pad and the ambient state they leave, and whether
    the end of the loop body was reached ([padID++]) or a [continue] was
    taken. With a pad that holds primitives but no histogram, graph or
    function, line 345 calls a method through the null pointer. *)
Definition FinalizeAxes (plot : Plot.t) (plotStyle : PlotStyle.t) (padStyle : PadStyle.t)
           (padID : Z) (pad : TPad) (w : World) : option (TPad * World * bool) :=
  match find_axis_object pad with
  | PadSkipped => Some (pad, w, false)
  | NullAxisObject => None
  | AxisOf axisObject =>
      let '(found, w) := find_axisHist axisObject w in
      if negb found then Some (pad, print "ERROR: unable to access axes!!" w, false)
      else
        let axisHist := axis_address pad in
        let pad := update_prim axisHist (set_axes plot plotStyle padStyle padID) pad in
        let pad :=
          if InheritsFrom "TH2" axisObject then set_axes_TH2 axisHist pad w else pad in
        let pad := pad_set "Modified" 1%Q pad in
        Some (PadUpdate w pad, w, true)
  end.

(** *** GeneratePlot *)

Definition style_set_axes (k : string) (axes : list string) (v : Q) (w : World) : World :=
  fold_left (fun w axis => style_set (k ++ axis) v w) axes w.

(** Lines 69-88: the global style registers set for every pad. *)
Definition set_pad_style (plotStyle : PlotStyle.t) (pad : TPad) (w : World) : World :=
  let w := style_set "TGaxis.MaxDigits" 3%Q w in
  let w := style_set "Palette" (inject_Z (PlotStyle.GetPallette plotStyle)) w in
  let w := style_set "TextFont" (inject_Z (PlotStyle.GetTextFont plotStyle)) w in
  let w := style_set_axes "LabelFont" ["X"; "Y"] (inject_Z (PlotStyle.GetLableFont plotStyle)) w in
  let w := style_set_axes "LabelFont" ["Z"] (inject_Z (PlotStyle.GetLableFont plotStyle)) w in
  let w := style_set_axes "TitleFont" ["X"; "Y"] (inject_Z (PlotStyle.GetTitleFont plotStyle)) w in
  let w := style_set_axes "TitleFont" ["Z"] (inject_Z (PlotStyle.GetTitleFont plotStyle)) w in
  let w := style_set "TextSize" (PlotStyle.GetTextSize plotStyle) w in
  let w := style_set_axes "LabelSize" ["X"; "Y"] (PlotStyle.GetLableSize plotStyle) w in
  let w := style_set_axes "LabelSize" ["Z"] (PlotStyle.GetLableSize plotStyle) w in
  let w := style_set_axes "TitleSize" ["X"; "Y"] (PlotStyle.GetTitleSize plotStyle) w in
  let w := style_set_axes "TitleSize" ["Z"] (PlotStyle.GetTitleSize plotStyle) w in
  let w := style_set_axes "TitleFont" ["X"] (inject_Z (PlotStyle.GetTextFont plotStyle)) w in
  let w :=
    style_set "TitleW"
              ((GetX2 pad - get_reg "RightMargin" (pad_att pad))
               - (GetX1 pad + get_reg "LeftMargin" (pad_att pad)))%Q w in
  let w := style_set "TitleH" (get_reg "TopMargin" (pad_att pad) * 0.8)%Q w in
  let w := style_set "TitleAlign" 23%Q w in    (* kHAlignCenter + kVAlignTop *)
  style_set "MarkerSize" (PlotStyle.GetMarkerSize plotStyle) w.

(** The pad flags read from the control string (lines 272-291). *)
Definition set_pad_flags (controlString : string) (pad : TPad) : TPad :=
  fold_left
    (fun pad '(word, flag) => if contains controlString word then pad_set flag 1%Q pad else pad)
    [("logX", "Logx"); ("logY", "Logy"); ("logZ", "Logz");
     ("gridX", "Gridx"); ("gridY", "Gridy")]
    pad.

(** The variables of the loop over the pad styles: the pads drawn into the
    canvas so far, [padID], and the ambient state. *)
Record PadLoop := mkPadLoop {
  pl_pads : list TPad;
  padID : Z;
  pl_world : World }.

(** One turn of [for(auto& padStyle : plotStyle.GetPadStyles())]. The pad
    is entered in the canvas when it is created and written to afterwards;
    the canvas therefore shows it as the turn leaves it. *)
Definition pad_step (plot : Plot.t) (plotStyle : PlotStyle.t)
           (availableData : list TObject) (s : PadLoop) (padStyle : PadStyle.t)
  : option PadLoop :=
  let padID := padID s in
  let controlString := Plot.GetControlString plot padID in
  let padName := "Pad_" ++ to_string padID in
  let pad :=
    new_TPad padName (PadStyle.GetXLow padStyle) (PadStyle.GetYLow padStyle)
             (PadStyle.GetXUp padStyle) (PadStyle.GetYUp padStyle) in
  let pad := pad_set "FillStyle" (inject_Z (PlotStyle.GetFillStyle plotStyle)) pad in
  let pad := pad_set "TopMargin" (PadStyle.GetTopMargin padStyle) pad in
  let pad := pad_set "BottomMargin" (PadStyle.GetBottomMargin padStyle) pad in
  let pad := pad_set "LeftMargin" (PadStyle.GetLeftMargin padStyle) pad in
  let pad := pad_set "RightMargin" (PadStyle.GetRightMargin padStyle) pad in
  let pad := pad_set "Number" (inject_Z padID) pad in
  let w := set_pad_style plotStyle pad (pl_world s) in
  let d :=
    data_loop controlString plotStyle availableData padID (Plot.GetData plot padID)
              (mkDataLoop pad w "" 0 [] [] []) in
  let pad := set_pad_flags controlString (dl_pad d) in
  b ← box_loop (lables d) (legendEntries d) (errorStyles d) (Plot.GetBoxes plot padID)
               (mkBoxLoop pad (dl_world d) 1 1);
  finalized ← FinalizeAxes plot plotStyle padStyle padID (bl_pad b) (bl_world b);
  let '(pad, w, completed) := (finalized : TPad * World * bool) in
  Some (mkPadLoop (pl_pads s ++ [pad])%list (if completed then padID + 1 else padID) w).

Definition pad_count_message (plot : Plot.t) (plotStyle : PlotStyle.t) : string :=
  "ERROR: Number of pads in style '" ++ PlotStyle.GetName plotStyle ++ "' ("
  ++ to_string (PlotStyle.GetNPads plotStyle)
  ++ ") does not match the number of pads needed for plotting '"
  ++ Plot.GetUniqueName plot ++ "' (" ++ to_string (Plot.GetNumRequiredPads plot) ++ ").".

(** The loop over the pad styles. *)
Definition pad_loop (plot : Plot.t) (plotStyle : PlotStyle.t)
           (availableData : list TObject) (padStyles : list PadStyle.t) (s : PadLoop)
  : option PadLoop :=
  fold_left (fun s padStyle => s ← s; pad_step plot plotStyle availableData s padStyle)
            padStyles (Some s).

(** [GeneratePlot]; the canvas returned is [Some canvas], the null pointer
    [None]. *)
Definition GeneratePlot (plot : Plot.t) (plotStyle : PlotStyle.t)
           (availableData : list TObject) (w : World) : option (option TCanvas * World) :=
  if PlotStyle.GetNPads plotStyle <? Plot.GetNumRequiredPads plot
  then Some (None, print (pad_count_message plot plotStyle) w)
  else
    let w := style_set "OptStat" 0%Q w in
    let canvasName := Plot.GetUniqueName plot in
    let canvas_att : regs :=
      set_reg "FillStyle" (inject_Z (PlotStyle.GetFillStyle plotStyle))
        (set_reg "RightMargin" 0%Q (set_reg "LeftMargin" 0%Q
           (set_reg "TopMargin" 0%Q (set_reg "BottomMargin" 0%Q ∅)))) in
    s ← pad_loop plot plotStyle availableData
                 (PlotStyle.GetPadStyles plotStyle) (mkPadLoop [] 1 w);
    let timeStamp :=
      if PlotStyle.IsDrawTimestamps plotStyle
      then [ObjTLatex
              (mkTLatex (fst (PlotStyle.GetTimestampPositon plotStyle))
                        (snd (PlotStyle.GetTimestampPositon plotStyle))
                        ("#color[16]{" ++ to_string (today (pl_world s)) ++ "}")
                        (set_reg "TextSizePixels" 10%Q (set_reg "TextFont" 63%Q
                           (set_reg "TextAlign" 22%Q (set_reg "NDC" 1%Q ∅)))))]
      else [] in
    Some (Some (mkTCanvas canvasName (PlotStyle.GetWidth plotStyle + 4)
                           (PlotStyle.GetHeight plotStyle + 28) canvas_att
                           (pl_pads s) timeStamp),
          pl_world s).
End PlottingTools.

(** ** What is read off a pad and off the available data in the statements *)

(** The draw directives of a pad, in z-order: object and option. *)
Definition drawn (pad : TPad) : list (TObject * string) :=
  map (fun p => (p_obj p, p_opt p)) (pad_prims pad).

Definition is_TExec (d : TObject * string) : bool :=
  match fst d with ObjTExec _ => true | _ => false end.

Definition is_TF1 (d : TObject * string) : bool :=
  match fst d with ObjTF1 _ => true | _ => false end.

(** The marker colour of each histogram or graph drawn in a pad. *)
Definition marker_colors (pad : TPad) : list (option Q) :=
  omap (fun d =>
          match fst d with
          | ObjTH1 h => Some (h_att h !! "MarkerColor")
          | ObjTGraph g => Some (g_att g !! "MarkerColor")
          | _ => None
          end) (drawn pad).

(** [GetDataClone<TH1>] finds a histogram of that name. *)
Definition found_TH1 (name : string) (availableData : list TObject) : option TH1 :=
  match FindObject name availableData with
  | Some (ObjTH1 h) => Some h
  | _ => None
  end.

(** The numerator of a ratio series whose numerator and denominator are
    both found. *)
Definition ratio_found (availableData : list TObject) (data : Data.t) : option TH1 :=
  match Data.GetKind data with
  | Data.Ratio _ _ uniqueNameDenom =>
      match found_TH1 (Data.GetUniqueName data) availableData,
            found_TH1 uniqueNameDenom availableData with
      | Some h, Some _ => Some h
      | _, _ => None
      end
  | _ => None
  end.

(** The series is such a ratio and its numerator is one-dimensional. *)
Definition ratio_1D_found (availableData : list TObject) (data : Data.t) : bool :=
  match ratio_found availableData data with
  | Some h => negb (h_isTH2 h)
  | None => false
  end.

(** The series is such a ratio and its numerator is two-dimensional. *)
Definition ratio_2D_found (availableData : list TObject) (data : Data.t) : bool :=
  match ratio_found availableData data with
  | Some h => h_isTH2 h
  | None => false
  end.

(** The colour and the marker which a series takes at index [i] when no
    value is negative: its own, or the default of that index. *)
Definition color_at (plotStyle : PlotStyle.t) (data : Data.t) (i : Z) : Z :=
  if Data.GetColor data =? 0
  then PlotStyle.GetDefaultColor plotStyle i else Data.GetColor data.

Definition marker_at (plotStyle : PlotStyle.t) (data : Data.t) (i : Z) : Z :=
  if Data.GetStyle data =? 0
  then PlotStyle.GetDefaultMarker plotStyle i else Data.GetStyle data.

(** The corners of a legend: x1, y1, x2, y2. *)
Definition corners (l : TLegend) : Q * Q * Q * Q := (l_x1 l, l_y1 l, l_x2 l, l_y2 l).

(** ** A backend and inputs on which the code is run below *)

(** ROOT's [TAxis::FindBin] for bins of equal width. *)
Definition FindFixBin (axis : TAxis) (x : Q) : Z :=
  if Qltb x (fXmin axis) then 0
  else if negb (Qltb x (fXmax axis)) then fNbins axis + 1
  else 1 + Qfloor (inject_Z (fNbins axis) * (x - fXmin axis) / (fXmax axis - fXmin axis)).

(** A backend whose box search never finds a place, whose text is 10 pixels
    wide per character and 20 pixels high, and whose pads are 400 pixels
    wide and 200 pixels high. *)
Definition test_backend : Backend := {|
  FindBin := FindFixBin;
  ScaleToUnitIntegral := fun h => (h_content h, h_error h);
  Divide := fun h _ => (h_content h, h_error h);
  UseCurrentStyle := fun _ att => att;
  GetBoundingBox := fun s => ((10 * N.of_nat (String.length s))%N, 20%N);
  TextBBoxWidth := fun s => inject_Z (10 * Z.of_nat (String.length s));
  PaveBBoxX := fun _ => 0%Q;
  XtoPixel := fun _ _ => 400;
  YtoPixel := fun _ _ => 200;
  PadUpdate := fun _ pad => pad;
  PlaceBox := fun _ _ _ _ xy => (false, xy);
  HistStat := fun _ _ => "0";
  GetNRows := fun l => Z.of_nat (length (l_entries l));
  ObjArrayPastLast := fun _ _ => None;
  HasHistogram := fun _ => true;
  HasPalette := fun _ => false |}.

(** A plot without axes of its own and a style without linked pads. *)
Definition no_axis : Axis.t := Axis.mk false (0%Q, 0%Q) false "".

Definition test_world : World := mkWorld (<["TickLengthX" := 0.03%Q]> (<["TickLengthY" := 0.03%Q]> ∅)) [] 20200101.

Definition test_pad : TPad := new_TPad "Pad_1" 0 0 1 1.

(** Four bins of width 1 on [0, 4], with contents 1, 2, 3, 4. *)
Definition test_hist (name : string) : TH1 :=
  mkTH1 name "" false (mkTAxis 4 0 4) [0; 1; 2; 3; 4; 0]%Q [0; 1; 1; 1; 1; 0]%Q ∅ ∅.

Definition test_hist2D (name : string) : TH1 :=
  mkTH1 name "" true (mkTAxis 4 0 4) [0; 1; 2; 3; 4; 0]%Q [0; 1; 1; 1; 1; 0]%Q ∅ ∅.

Definition test_data : list TObject :=
  [ObjTH1 (test_hist "A"); ObjTH1 (test_hist "B"); ObjTH1 (test_hist "C");
   ObjTH1 (test_hist "D"); ObjTH1 (test_hist2D "E")].

Definition test_padStyle : PadStyle.t :=
  PadStyle.mk 0 0 1 1 0.1 0.1 0.1 0.1 1 1 1 "".

(** A style with one pad and the default colours 2, 4, 3, 6 (red, blue,
    green, magenta) and markers 20, 21, 22, 23. *)
Definition test_style : PlotStyle.t :=
  PlotStyle.mk "style" 1 800 600 0 [test_padStyle] 1 43 43 43 24 24 24 1 2 2 "COLZ"
               (cyclic_default [2; 4; 3; 6]) (cyclic_default [20; 21; 22; 23])
               false (0%Q, 0%Q) (fun _ _ => []).

Definition hist_series (name : string) (color : Z) (options lable : string) : Data.t :=
  Data.mk name name color 0 options lable (Data.Histogram (-999) (-999)).

Definition ratio_series (name denom : string) (color : Z) (lable : string) : Data.t :=
  Data.mk name name color 0 "" lable (Data.Ratio (-999) (-999) denom).

Definition start_loop (pad : TPad) (w : World) : DataLoop := mkDataLoop pad w "" 0 [] [] [].

Definition five_points : TGraph :=
  mkTGraph "g" "" [(1, 10); (2, 20); (3, 30); (4, 40); (5, 50)]%Q ∅ ∅.

Definition two_pad_plot : Plot.t :=
  Plot.mk "plot_IN_group" 2 (fun _ => "") (fun _ => []) (fun _ => [])
          (fun _ _ => false) (fun _ _ => no_axis).

(** A legend box without position (placed automatically), without title,
    with one column. *)
Definition auto_legend : LegendBox.t :=
  LegendBox.mk (Box.mk (Box.mkPos None None None) 1 1 1) "" 1.



(** Three labelled histograms, as the legend receives them. *)
Definition three_entries : list TObject :=
  [ObjTH1 (test_hist "A"); ObjTH1 (test_hist "B"); ObjTH1 (test_hist "C")].

(** ** Further observations on the series of a pad *)

(** [GetDataClone<TGraph>] finds a graph of that name. *)
Definition found_TGraph (name : string) (availableData : list TObject) : option TGraph :=
  match FindObject name availableData with
  | Some (ObjTGraph g) => Some g
  | _ => None
  end.

(** The data that a series needs are found with the class it needs: the
    series is drawn. A series of unknown type never is. *)
Definition series_found (availableData : list TObject) (data : Data.t) : bool :=
  match Data.GetKind data with
  | Data.Histogram _ _ =>
      bool_decide (is_Some (found_TH1 (Data.GetUniqueName data) availableData))
  | Data.Ratio _ _ uniqueNameDenom =>
      bool_decide (is_Some (found_TH1 (Data.GetUniqueName data) availableData))
      && bool_decide (is_Some (found_TH1 uniqueNameDenom availableData))
  | Data.Graph _ _ =>
      bool_decide (is_Some (found_TGraph (Data.GetUniqueName data) availableData))
  | Data.Unknown _ => false
  end.

(** The registers of a histogram or a graph. *)
Definition obj_att (o : TObject) : regs :=
  match o with
  | ObjTH1 h => h_att h
  | ObjTGraph g => g_att g
  | _ => ∅
  end.

(** The marker colour and the marker style in a set of registers. *)
Definition styled_with (color style : Z) (att : regs) : Prop :=
  att !! "MarkerColor" = Some (inject_Z color)
  /\ att !! "MarkerStyle" = Some (inject_Z style).

(** The number of series before position [j] whose data are found. *)
Definition drawn_before (availableData : list TObject) (datas : list Data.t) (j : nat)
  : Z :=
  Z.of_nat (length (List.filter (series_found availableData) (take j datas))).

(** The objects given as [ObjOther] are of classes other than the
    histograms and graphs, which have constructors of their own. *)
Definition known_classes (availableData : list TObject) : bool :=
  forallb (fun o =>
             match o with
             | ObjOther c _ => negb (String.eqb "TH1" c) && negb (String.eqb "TGraph" c)
             | _ => true
             end) availableData.

(** The series is a histogram or a graph. *)
Definition hist_or_graph (data : Data.t) : bool :=
  match Data.GetKind data with
  | Data.Histogram _ _ | Data.Graph _ _ => true
  | _ => false
  end.

(** The series is recorded for the legend: it is drawn and has a label. *)
Definition labelled_found (availableData : list TObject) (data : Data.t) : bool :=
  series_found availableData data && negb (String.eqb (Data.GetLable data) "").

Definition graph_series (name : string) (color : Z) (options lable : string) : Data.t :=
  Data.mk name name color 0 options lable (Data.Graph (-999) (-999)).


Definition two_lines : TextBox.t :=
  TextBox.mk (Box.mk (Box.mkPos (Some 0.2%Q) (Some 0.9%Q) None) 1 1 1) "pp // 5 TeV".

(** ** The boxes of a pad *)

(** The names given to the legends and texts of a list of boxes, counted
    from [nLegend] and [nText]; a box of another type has none. *)
Fixpoint box_names (nLegend nText : Z) (boxes : list AnyBox) : list string :=
  match boxes with
  | [] => []
  | BoxLegend _ :: rest =>
      ("LegendBox_" ++ to_string nLegend) :: box_names (nLegend + 1) nText rest
  | BoxText _ :: rest =>
      ("TextBox_" ++ to_string nText) :: box_names nLegend (nText + 1) rest
  | BoxOther _ :: rest => box_names nLegend nText rest
  end.

(** The boxes up to the first legend box. *)
Fixpoint before_legend (boxes : list AnyBox) : list AnyBox :=
  match boxes with
  | [] => []
  | BoxLegend _ :: _ => []
  | box :: rest => box :: before_legend rest
  end.

(** ** Graphs whose points are ordered *)

(** The points are in the order of their x values (equal values allowed). *)
Fixpoint x_sorted (pts : list (Q * Q)) : bool :=
  match pts with
  | [] => true
  | p :: rest => forallb (fun q => Qle_bool (fst p) (fst q)) rest && x_sorted rest
  end.

(** The point is within the bounds that are enabled. *)
Definition within_cuts (cutoff cutoffLow : Q) (p : Q * Q) : bool :=
  negb (negb (Qltb cutoff (-997)) && Qltb cutoff (fst p))
  && negb (negb (Qltb cutoffLow (-997)) && Qltb (fst p) cutoffLow).

(** ** DivideTSpline

    The two helper functions at the end of PlottingTools.cxx. The spline
    through the denominator and its evaluation ([TGraph::Eval] with a
    [TSpline3]) and [TH1::GetBinCenter] are ROOT's; they are parameters. *)

(** A graph as DivideTSpline reads it: the arrays behind [GetX], [GetY] and
    [GetEY]. [GetEY] is null for a graph that carries no errors. *)
Record TGraphArrays := mkTGraphArrays {
  ga_name : string;
  ga_x : list Q;
  ga_y : list Q;
  ga_ey : option (list Q) }.

(** [TH1::GetBinContent]. *)
Definition GetBinContent (h : TH1) (bin : Z) : Q :=
  default 0%Q (h_content h !! Z.to_nat bin).

(** [TH1::Reset]: contents and errors are set to 0. *)
Definition Reset (h : TH1) : TH1 :=
  h_with_error (map (fun _ => 0%Q) (h_error h))
               (h_with_content (map (fun _ => 0%Q) (h_content h)) h).

Section DivideTSpline.
(** [denominatorGraph.Eval(x, &denominatorSpline)], by the denominator. *)
Variable SplineEval : TH1 -> Q -> Q.
Variable GetBinCenter : TAxis -> Z -> Q.
(** [denominator->Eval(x, denSpline)], by the denominator graph. *)
Variable GraphSplineEval : TGraph -> Q -> Q.

(** The body of the loop over the bins. *)
Definition divide_bin (numerator denominator : TH1) (ratio : TH1) (i : Z) : TH1 :=
  let numeratorValue := GetBinContent numerator i in
  let x := GetBinCenter (h_xaxis numerator) i in
  let denomValue := SplineEval denominator x in
  if negb (Qeq_bool denomValue 0)
  then SetBinContent i (numeratorValue / denomValue)%Q ratio
  else ratio.

(** [DivideTSpline] for two histograms. *)
Definition DivideTSpline_TH1 (numerator denominator : TH1) : TH1 :=
  let ratio := Reset (h_with_name "dummyRatio" numerator) in
  (* for(int i = 1; i <= numerator->GetNbinsX(); i++) *)
  fold_left (divide_bin numerator denominator) (seqZ 1 (GetNbinsX numerator)) ratio.

(** The body of the loop over the points; a read or a write through a null
    pointer or outside an array has no result, and neither has the
    division by a value of the spline that is 0, which the code does not
    test. *)
Definition divide_point (denominator : TGraph) (result : option TGraphArrays) (i : nat)
  : option TGraphArrays :=
  result ← result;
  x ← ga_x result !! i;
  y ← ga_y result !! i;
  errors ← ga_ey result;
  ey ← errors !! i;
  let deonomValiue := GraphSplineEval denominator x in
  quotient ← Qdiv_finite y deonomValiue;
  Some (mkTGraphArrays (ga_name result) (ga_x result)
                       (<[i := quotient]> (ga_y result))
                       (Some (<[i := (ey * deonomValiue)%Q]> errors))).

(** [DivideTSpline] for two graphs; [nPoints] is the length of the arrays
    of the numerator. *)
Definition DivideTSpline_TGraph (numerator : TGraphArrays) (denominator : TGraph)
  : option TGraphArrays :=
  let result :=
    mkTGraphArrays "ratio" (ga_x numerator) (ga_y numerator) (ga_ey numerator) in
  let nPoints := length (ga_x result) in
  fold_left (divide_point denominator) (seq 0 nPoints) (Some result).
End DivideTSpline.

(** A numerator graph of two points with errors, and a denominator. *)
Definition two_points : TGraphArrays :=
  mkTGraphArrays "num" [1; 2]%Q [10; 30]%Q (Some [1; 3]%Q).

(** ** Labels without tokens *)

(** The label contains none of the tokens that MakeLegend replaces. *)
Definition plain_label (label : string) : bool :=
  forallb (fun tok => negb (contains label tok)) ("<name>" :: "<title>" :: stat_tokens).

(** The labels that MakeLegend measures: those of the series and, last,
    the title of the legend box when it has one. *)
Definition measured_titles (legendBox : LegendBox.t) (legendTitles : list string)
  : list string :=
  if negb (String.eqb (LegendBox.GetTitle legendBox) "")
  then (legendTitles ++ [LegendBox.GetTitle legendBox])%list else legendTitles.

(** The label at index [j] as the measuring loop rewrites it, from the
    entry read at that index. *)
Definition rewritten `{Backend} (gNameGroupSeparator : string)
           (legendEntries : list TObject) (j : nat) (title : string) : option string :=
  SubstituteTokens gNameGroupSeparator (EntryAt legendEntries (Z.of_nat j)) title.


(** The draw style of the legend entry of a series, by its drawing options. *)
Definition style_of_options (data : Data.t) : string :=
  if String.eqb (Data.GetDrawingOptions data) "hist" then "l" else "ep".

(** ** The effect of the loop over the series on the ambient state *)

(** From [w] to [w']: the date stays, the console only grows, and the
    global style changes at most in the number of contours, which is then
    256. *)
Definition series_effect (w w' : World) : Prop :=
  today w' = today w
  /\ (exists msgs, cout w' = (cout w ++ msgs)%list)
  /\ (forall k, k <> "NumberContours" -> gStyle w' !! k = gStyle w !! k)
  /\ (gStyle w' !! "NumberContours" = gStyle w !! "NumberContours"
      \/ gStyle w' !! "NumberContours" = Some 256%Q).

(** ** The unique names of inc/Plot.h *)

(** [Data::GetUniqueName] and [Ratio::GetUniqueNameDenom]; the separator is
    the constant [gNameGroupSeparator]. *)
Definition Data_GetUniqueName (gNameGroupSeparator : string) (d : PlotH.Data) : string :=
  PlotH.mName d ++ gNameGroupSeparator ++ PlotH.mInputIdentifier d.

Definition Ratio_GetUniqueNameDenom (gNameGroupSeparator : string) (r : PlotH.Ratio)
  : string :=
  PlotH.mDenomName r ++ gNameGroupSeparator ++ PlotH.mDenomInputIdentifier r.

(** Data named [name] from the input [input]. *)
Definition named_data (name input : string) : PlotH.Data :=
  PlotH.mkData false "data" name input None None None (PlotH.mkLegend None None)
               (PlotH.mkLayout None None None) (PlotH.mkLayout None None None)
               (PlotH.mkLayout None None None) (PlotH.mkRange None None)
               (PlotH.mkRange None None) (PlotH.mkModify None None).

(** ** Pads without data *)

Definition is_text_box (box : AnyBox) : bool :=
  match box with BoxText _ => true | _ => false end.

(** A legend box has at least one column and a title without tokens; a box
    of another kind has no such condition. *)
Definition legend_box_ok (box : AnyBox) : bool :=
  match box with
  | BoxLegend legendBox =>
      (0 <? LegendBox.GetNumColumns legendBox)
      && plain_label (LegendBox.GetTitle legendBox)
  | _ => true
  end.

(** A plot of one pad with one series without data and one with data, and
    a text box. *)
Definition plot_with_data : Plot.t :=
  Plot.mk "plot_IN_group" 1 (fun _ => "")
          (fun _ => [hist_series "Z" 0 "" "z"; hist_series "A" 0 "" "a"])
          (fun _ => [BoxText two_lines; BoxLegend auto_legend])
          (fun _ _ => false) (fun _ _ => no_axis).

(** A plot of one pad whose only series has no data, with a text box. *)
Definition plot_without_data : Plot.t :=
  Plot.mk "plot_IN_group" 1 (fun _ => "") (fun _ => [hist_series "Z" 0 "" "z"])
          (fun _ => [BoxText two_lines]) (fun _ _ => false) (fun _ _ => no_axis).

(** * Properties *)

(** ** Comparisons of coordinates *)

Lemma Qltb_lt (x y : Q) : Qltb x y = true <-> (x < y)%Q.
Proof.
  unfold Qltb. rewrite negb_true_iff. split.
  - intros Hb. apply Qnot_le_lt. intros Hle.
    apply Qle_bool_iff in Hle. congruence.
  - intros Hlt. destruct (Qle_bool y x) eqn:Hb; [|reflexivity].
    apply Qle_bool_iff in Hb. exfalso. exact (Qlt_not_le _ _ Hlt Hb).
Qed.

Lemma Qltb_ge (x y : Q) : Qltb x y = false <-> (y <= x)%Q.
Proof.
  unfold Qltb. rewrite negb_false_iff. apply Qle_bool_iff.
Qed.

(** ** CutGraph *)

Section CutGraphFacts.
Implicit Types (g : TGraph) (pts : list (Q * Q)).

(** Removing the last point [n] times keeps a prefix. *)
Lemma remove_last_iter n g :
  g_points (Nat.iter n (fun g => RemovePoint (GetN g - 1) g) g)
  = take (length (g_points g) - n) (g_points g).
Proof.
  induction n as [|n IH]; simpl.
  - rewrite Nat.sub_0_r. symmetry. apply firstn_all.
  - set (g' := Nat.iter n _ g) in *.
    unfold RemovePoint, GetN. rewrite IH.
    assert (Hlen : length (take (length (g_points g) - n) (g_points g))
                   = (length (g_points g) - n)%nat)
      by (rewrite length_take; lia).
    rewrite Hlen.
    destruct (Z.ltb_spec (Z.of_nat (length (g_points g) - n) - 1) 0) as [Hneg|Hpos].
    + rewrite IH. replace (length (g_points g) - S n)%nat with 0%nat by lia.
      replace (length (g_points g) - n)%nat with 0%nat by lia. reflexivity.
    + destruct (Z.leb_spec (Z.of_nat (length (g_points g) - n))
                           (Z.of_nat (length (g_points g) - n) - 1)) as [Habs|_];
        [lia|].
      simpl. rewrite delete_take_drop.
      replace (Z.to_nat (Z.of_nat (length (g_points g) - n) - 1))
        with (length (g_points g) - S n)%nat by lia.
      rewrite take_take.
      rewrite (drop_ge (take _ _)) by (rewrite Hlen; lia).
      rewrite app_nil_r. f_equal. lia.
Qed.

(** Removing the first point [n] times drops a prefix. *)
Lemma remove_first_iter n g :
  g_points (Nat.iter n (fun g => RemovePoint 0 g) g) = drop n (g_points g).
Proof.
  induction n as [|n IH]; simpl; [reflexivity|].
  set (g' := Nat.iter n _ g) in *.
  unfold RemovePoint, GetN. simpl. rewrite IH.
  destruct (drop n (g_points g)) as [|p rest] eqn:Hd; simpl.
  - rewrite IH. symmetry. apply drop_ge.
    apply (f_equal length) in Hd. rewrite length_drop in Hd. simpl in Hd. lia.
  - replace (S n) with (n + 1)%nat by lia. rewrite <- drop_drop, Hd. reflexivity.
Qed.

(** The counting loop counts the points below the low cut and the points
    beyond the high cut. *)
Lemma count_loop cutLow cutHigh cutoff cutoffLow pts a b :
  fold_left (count_step cutLow cutHigh cutoff cutoffLow) pts (a, b)
  = (a + Z.of_nat (length (List.filter (fun p => cutLow && Qltb (fst p) cutoffLow) pts)),
     b + Z.of_nat (length (List.filter (fun p => cutHigh && Qltb cutoff (fst p)) pts))).
Proof.
  revert a b. induction pts as [|p pts IH]; intros a b; simpl.
  - f_equal; lia.
  - rewrite IH.
    destruct (cutLow && Qltb (fst p) cutoffLow), (cutHigh && Qltb cutoff (fst p));
      simpl; f_equal; lia.
Qed.

Lemma exclusive_counts {A} (f h : A -> bool) (l : list A) :
  (forall x, f x = true -> h x = true -> False) ->
  (length (List.filter f l) + length (List.filter h l) <= length l)%nat.
Proof.
  intros Hex. induction l as [|x l IH]; simpl; [lia|].
  destruct (f x) eqn:Hf, (h x) eqn:Hh; simpl; try lia.
  exfalso. eauto.
Qed.

Lemma filter_length_le {A} (f : A -> bool) (l : list A) :
  (length (List.filter f l) <= length l)%nat.
Proof.
  induction l as [|x l IH]; simpl; [lia|]. destruct (f x); simpl; lia.
Qed.

(** What CutGraph leaves: the points after the first [L] and before the
    last [H], where [L] and [H] are the two counts. *)
Lemma CutGraph_points g cutoff cutoffLow :
  let H := length (List.filter
                     (fun p => negb (Qltb cutoff (-997)) && Qltb cutoff (fst p))
                     (g_points g)) in
  let L := length (List.filter
                     (fun p => negb (Qltb cutoffLow (-997)) && Qltb (fst p) cutoffLow)
                     (g_points g)) in
  g_points (CutGraph g cutoff cutoffLow)
  = drop L (take (length (g_points g) - H) (g_points g)).
Proof.
  intros H L. unfold CutGraph. rewrite count_loop.
  rewrite !Z.add_0_l, !Nat2Z.id. rewrite remove_first_iter, remove_last_iter. reflexivity.
Qed.
End CutGraphFacts.

(** C3 (as amended): for a graph and two enabled bounds with low <= high,
    the number of points after CutGraph is the original number minus the
    number of points with x beyond the high bound minus the number of points
    with x below the low bound, and the surviving points are a contiguous
    run of the original points, in their original order: the first points
    (as many as were counted below) and the last points (as many as were
    counted beyond) are gone. *)
Theorem CutGraph_count_and_order (g : TGraph) (cutoff cutoffLow : Q) :
  (-997 <= cutoff)%Q -> (-997 <= cutoffLow)%Q -> (cutoffLow <= cutoff)%Q ->
  let beyond := length (List.filter (fun p => Qltb cutoff (fst p)) (g_points g)) in
  let below := length (List.filter (fun p => Qltb (fst p) cutoffLow) (g_points g)) in
  GetN (CutGraph g cutoff cutoffLow) = GetN g - Z.of_nat beyond - Z.of_nat below
  /\ exists front back,
       g_points g = (front ++ g_points (CutGraph g cutoff cutoffLow) ++ back)%list
       /\ length front = below /\ length back = beyond.
Proof.
  intros Hhigh Hlow Horder beyond below.
  pose proof (CutGraph_points g cutoff cutoffLow) as Hpts. simpl in Hpts.
  apply Qltb_ge in Hhigh, Hlow. rewrite Hhigh, Hlow in Hpts. simpl in Hpts.
  fold beyond below in Hpts.
  assert (Hsum : (below + beyond <= length (g_points g))%nat).
  { apply exclusive_counts. intros p Hb Ha.
    apply Qltb_lt in Hb, Ha.
    apply (Qlt_irrefl (fst p)).
    eapply Qlt_le_trans; [exact Hb|].
    eapply Qle_trans; [exact Horder|]. apply Qlt_le_weak. exact Ha. }
  split.
  - unfold GetN. rewrite Hpts, length_drop, length_take. lia.
  - exists (take below (take (length (g_points g) - beyond) (g_points g))),
           (drop (length (g_points g) - beyond) (g_points g)).
    rewrite Hpts. split; [|split].
    + rewrite app_assoc, take_drop, take_drop. reflexivity.
    + rewrite !length_take. lia.
    + rewrite length_drop. lia.
Qed.

Lemma CutGraph_count_and_order_witness :
  GetN (CutGraph five_points 3.5 1.5) = 2
  /\ g_points (CutGraph five_points 3.5 1.5) = [(2, 20); (3, 30)]%Q.
Proof.
  destruct (CutGraph_count_and_order five_points 3.5 1.5) as [Hn _];
    [vm_compute; discriminate ..|].
  split; [exact Hn | reflexivity].
Defined.

(** C3, as stated, fails when the bounds are crossed: the point at x = 5 is
    beyond the high bound 3 and below the low bound 7, it is counted twice
    and can be removed once. *)
Lemma CutGraph_crossed_bounds_counterexample :
  let g := mkTGraph "g" "" [(5, 1)]%Q ∅ ∅ in
  (-997 <= 3)%Q /\ (-997 <= 7)%Q /\
  GetN (CutGraph g 3 7)
  <> GetN g - Z.of_nat (length (List.filter (fun p => Qltb 3 (fst p)) (g_points g)))
            - Z.of_nat (length (List.filter (fun p => Qltb (fst p) 7) (g_points g))).
Proof.
  repeat split; vm_compute; discriminate.
Qed.

(** When the bounds are crossed the count stops at zero. *)
Lemma CutGraph_count_general (g : TGraph) (cutoff cutoffLow : Q) :
  (-997 <= cutoff)%Q -> (-997 <= cutoffLow)%Q ->
  GetN (CutGraph g cutoff cutoffLow)
  = Z.max 0 (GetN g
             - Z.of_nat (length (List.filter (fun p => Qltb cutoff (fst p)) (g_points g)))
             - Z.of_nat (length (List.filter (fun p => Qltb (fst p) cutoffLow) (g_points g)))).
Proof.
  intros Hhigh Hlow.
  pose proof (CutGraph_points g cutoff cutoffLow) as Hpts. simpl in Hpts.
  apply Qltb_ge in Hhigh, Hlow. rewrite Hhigh, Hlow in Hpts. simpl in Hpts.
  unfold GetN. rewrite Hpts, length_drop, length_take.
  pose proof (filter_length_le (fun p => Qltb cutoff (fst p)) (g_points g)).
  lia.
Qed.

(** ** CutHistogram *)

Section CutHistogramFacts.
Context `{Backend}.
Implicit Types (h : TH1) (l : list Z).

Lemma ZeroBin_xaxis h i : h_xaxis (ZeroBin h i) = h_xaxis h.
Proof. unfold ZeroBin, SetBinError, SetBinContent. by repeat case_match. Qed.

Lemma ZeroBin_content h i n :
  h_content (ZeroBin h i) !! n
  = if decide (i = Z.of_nat n) then (fun _ => 0%Q) <$> h_content h !! n
    else h_content h !! n.
Proof.
  unfold ZeroBin, SetBinError, SetBinContent.
  destruct (Z.ltb_spec i 0) as [Hneg|Hpos]; simpl.
  - case_decide; [lia|reflexivity].
  - case_decide as Hi.
    + subst i. rewrite Nat2Z.id.
      destruct (h_content h !! n) eqn:Hn; simpl.
      * apply list_lookup_insert_eq. eapply lookup_lt_Some; eauto.
      * rewrite list_insert_ge; [done|]. by apply lookup_ge_None.
    + apply list_lookup_insert_ne. lia.
Qed.

Lemma ZeroBin_error h i n :
  h_error (ZeroBin h i) !! n
  = if decide (i = Z.of_nat n) then (fun _ => 0%Q) <$> h_error h !! n
    else h_error h !! n.
Proof.
  unfold ZeroBin, SetBinError, SetBinContent.
  destruct (Z.ltb_spec i 0) as [Hneg|Hpos]; simpl.
  - case_decide; [lia|reflexivity].
  - case_decide as Hi.
    + subst i. rewrite Nat2Z.id.
      destruct (h_error h !! n) eqn:Hn; simpl.
      * apply list_lookup_insert_eq. eapply lookup_lt_Some; eauto.
      * rewrite list_insert_ge; [done|]. by apply lookup_ge_None.
    + apply list_lookup_insert_ne. lia.
Qed.

Lemma zero_bins_xaxis l h : h_xaxis (fold_left ZeroBin l h) = h_xaxis h.
Proof.
  revert h. induction l as [|i l IH]; intros h; simpl; [done|].
  by rewrite IH, ZeroBin_xaxis.
Qed.

(** A cell is zeroed by the loop when its index is among those visited,
    and keeps its value otherwise. *)
Lemma zero_bins_content l h n :
  h_content (fold_left ZeroBin l h) !! n
  = if decide (Z.of_nat n ∈ l) then (fun _ => 0%Q) <$> h_content h !! n
    else h_content h !! n.
Proof.
  revert h. induction l as [|i l IH]; intros h; simpl.
  - reflexivity.
  - rewrite IH, ZeroBin_content.
    destruct (decide (Z.of_nat n ∈ l)) as [Hl|Hl], (decide (i = Z.of_nat n)) as [Hi|Hi],
      (decide (Z.of_nat n ∈ i :: l)) as [Hin|Hout];
      try (by destruct (h_content h !! n)); exfalso;
      try (apply Hout; apply elem_of_cons; auto; fail).
    apply elem_of_cons in Hin as [Heq|Hmem]; auto.
Qed.

Lemma zero_bins_error l h n :
  h_error (fold_left ZeroBin l h) !! n
  = if decide (Z.of_nat n ∈ l) then (fun _ => 0%Q) <$> h_error h !! n
    else h_error h !! n.
Proof.
  revert h. induction l as [|i l IH]; intros h; simpl.
  - reflexivity.
  - rewrite IH, ZeroBin_error.
    destruct (decide (Z.of_nat n ∈ l)) as [Hl|Hl], (decide (i = Z.of_nat n)) as [Hi|Hi],
      (decide (Z.of_nat n ∈ i :: l)) as [Hin|Hout];
      try (by destruct (h_error h !! n)); exfalso;
      try (apply Hout; apply elem_of_cons; auto; fail).
    apply elem_of_cons in Hin as [Heq|Hmem]; auto.
Qed.

(** With the high cut disabled the function returns at once. *)
Lemma CutHistogram_high_disabled h cutoff cutoffLow :
  (cutoff < -997)%Q -> CutHistogram h cutoff cutoffLow = h.
Proof.
  intros Hlt. unfold CutHistogram. apply Qltb_lt in Hlt. by rewrite Hlt.
Qed.

(** With the high cut enabled, the bins from the one holding the cut to
    the last one have content and error 0. *)
Lemma CutHistogram_high_side h cutoff cutoffLow n :
  (-997 <= cutoff)%Q ->
  FindBin (h_xaxis h) cutoff <= Z.of_nat n <= GetNbinsX h ->
  h_content (CutHistogram h cutoff cutoffLow) !! n = (fun _ => 0%Q) <$> h_content h !! n
  /\ h_error (CutHistogram h cutoff cutoffLow) !! n = (fun _ => 0%Q) <$> h_error h !! n.
Proof.
  intros Hhigh Hn. unfold CutHistogram. apply Qltb_ge in Hhigh. rewrite Hhigh.
  assert (Hin : Z.of_nat n ∈ seqZ (FindBin (h_xaxis h) cutoff)
                                  (GetNbinsX h - FindBin (h_xaxis h) cutoff + 1))
    by (apply elem_of_seqZ; lia).
  destruct (Qltb cutoffLow (-997)).
  - rewrite zero_bins_content, zero_bins_error. by rewrite !decide_True.
  - rewrite !zero_bins_content, !zero_bins_error. rewrite !(decide_True _ _ Hin).
    split; case_decide; try done.
    + by destruct (h_content h !! n).
    + by destruct (h_error h !! n).
Qed.

(** With both cuts enabled, the bins from the first one to the one holding
    the low cut have content and error 0. *)
Lemma CutHistogram_low_side h cutoff cutoffLow n :
  (-997 <= cutoff)%Q -> (-997 <= cutoffLow)%Q ->
  1 <= Z.of_nat n <= FindBin (h_xaxis h) cutoffLow ->
  h_content (CutHistogram h cutoff cutoffLow) !! n = (fun _ => 0%Q) <$> h_content h !! n
  /\ h_error (CutHistogram h cutoff cutoffLow) !! n = (fun _ => 0%Q) <$> h_error h !! n.
Proof.
  intros Hhigh Hlow Hn. unfold CutHistogram.
  apply Qltb_ge in Hhigh, Hlow. rewrite Hhigh, Hlow.
  rewrite !zero_bins_content, !zero_bins_error, zero_bins_xaxis.
  assert (Hin : Z.of_nat n ∈ seqZ 1 (FindBin (h_xaxis h) cutoffLow))
    by (apply elem_of_seqZ; lia).
  rewrite !(decide_True _ _ Hin).
  split; case_decide; try done.
  - by destruct (h_content h !! n).
  - by destruct (h_error h !! n).
Qed.

(** A cell outside the two runs of cells that the loops visit keeps its
    content and its error; in particular a disabled low cut leaves the low
    side as it is. *)
Lemma CutHistogram_elsewhere h cutoff cutoffLow n :
  (-997 <= cutoff)%Q ->
  ~ (FindBin (h_xaxis h) cutoff <= Z.of_nat n <= GetNbinsX h) ->
  (cutoffLow < -997)%Q \/ ~ (1 <= Z.of_nat n <= FindBin (h_xaxis h) cutoffLow) ->
  h_content (CutHistogram h cutoff cutoffLow) !! n = h_content h !! n
  /\ h_error (CutHistogram h cutoff cutoffLow) !! n = h_error h !! n.
Proof.
  intros Hhigh Hn Hlow. unfold CutHistogram. apply Qltb_ge in Hhigh. rewrite Hhigh.
  assert (Hout : Z.of_nat n ∉ seqZ (FindBin (h_xaxis h) cutoff)
                                   (GetNbinsX h - FindBin (h_xaxis h) cutoff + 1))
    by (rewrite elem_of_seqZ; lia).
  destruct (Qltb cutoffLow (-997)) eqn:Hdisabled.
  - rewrite zero_bins_content, zero_bins_error. by rewrite !decide_False.
  - destruct Hlow as [Hlt|Hlow]; [apply Qltb_lt in Hlt; congruence|].
    rewrite !zero_bins_content, !zero_bins_error, zero_bins_xaxis.
    assert (Hout' : Z.of_nat n ∉ seqZ 1 (FindBin (h_xaxis h) cutoffLow))
      by (rewrite elem_of_seqZ; lia).
    by rewrite !(decide_False _ _ Hout'), !(decide_False _ _ Hout).
Qed.
End CutHistogramFacts.

(** C2: run on a histogram of four bins with the high cut disabled (-999)
    and the low cut at 1.5. The low cut lies in bin 2, so bins 1 and 2 are to
    be zeroed; the function returns the histogram as it was, bin 1 still
    holds 1 and bin 2 still holds 2. *)
Theorem CutHistogram_low_cut_lost :
  let hist := test_hist "A" in
  (-999 < -997)%Q /\ (-997 <= 1.5)%Q
  /\ FindFixBin (h_xaxis hist) 1.5 = 2
  /\ @CutHistogram test_backend hist (-999) 1.5 = hist
  /\ h_content (@CutHistogram test_backend hist (-999) 1.5) !! 1%nat = Some 1%Q
  /\ h_content (@CutHistogram test_backend hist (-999) 1.5) !! 2%nat = Some 2%Q.
Proof.
  repeat split; vm_compute; try reflexivity; discriminate.
Qed.

(** ** The ranges of a ratio (inc/Plot.h) *)

(** C10: on a Ratio, UnsetRangeX leaves the minimum and the maximum of the
    X range as they are and clears the minimum and the maximum of the Y
    range; it changes the entity exactly as Ratio::UnsetRangeY does. *)
Theorem Ratio_UnsetRangeX_clears_RangeY (r : PlotH.Ratio) :
  PlotH.Ratio_UnsetRangeX r = PlotH.Ratio_UnsetRangeY r
  /\ PlotH.GetMinRangeX (PlotH.base (PlotH.Ratio_UnsetRangeX r))
     = PlotH.GetMinRangeX (PlotH.base r)
  /\ PlotH.GetMaxRangeX (PlotH.base (PlotH.Ratio_UnsetRangeX r))
     = PlotH.GetMaxRangeX (PlotH.base r)
  /\ PlotH.GetMinRangeY (PlotH.base (PlotH.Ratio_UnsetRangeX r)) = None
  /\ PlotH.GetMaxRangeY (PlotH.base (PlotH.Ratio_UnsetRangeX r)) = None.
Proof.
  destruct r as [d ? ? ?]. destruct d. repeat split.
Qed.

(** A ratio whose X range is set keeps it through UnsetRangeX. *)
Example Ratio_UnsetRangeX_example :
  let d := PlotH.mkData false "ratio" "num" "in"
             None None None (PlotH.mkLegend None None)
             (PlotH.mkLayout None None None) (PlotH.mkLayout None None None)
             (PlotH.mkLayout None None None)
             (PlotH.mkRange (Some 1%Q) (Some 2%Q)) (PlotH.mkRange (Some 3%Q) (Some 4%Q))
             (PlotH.mkModify None None) in
  let r := PlotH.mkRatio d "den" "in" false in
  PlotH.mRangeX (PlotH.base (PlotH.Ratio_UnsetRangeX r)) = PlotH.mkRange (Some 1%Q) (Some 2%Q)
  /\ PlotH.mRangeY (PlotH.base (PlotH.Ratio_UnsetRangeX r)) = PlotH.mkRange None None.
Proof. split; reflexivity. Qed.

(** ** GeneratePlot: the number of pads *)

Section GeneratePlotFacts.
Context `{Backend}.
Variable gNameGroupSeparator : string.

(** C6: when the plot needs more pads than the style provides, GeneratePlot
    returns the null pointer, whatever the rest of the function would do;
    the mismatch is written to the console once, and nothing else of the
    ambient state (the style registers) is changed: no canvas and no pad
    has been created. *)
Theorem GeneratePlot_too_few_pads plot plotStyle availableData w :
  PlotStyle.GetNPads plotStyle < Plot.GetNumRequiredPads plot ->
  exists w',
    GeneratePlot gNameGroupSeparator plot plotStyle availableData w = Some (None, w')
    /\ cout w' = (cout w ++ [pad_count_message plot plotStyle])%list
    /\ gStyle w' = gStyle w
    /\ today w' = today w.
Proof.
  intros Hlt. unfold GeneratePlot.
  destruct (Z.ltb_spec (PlotStyle.GetNPads plotStyle) (Plot.GetNumRequiredPads plot));
    [|lia].
  eexists. split; [reflexivity|]. repeat split.
Qed.

(** ** GeneratePlot: the boxes of a pad without labels *)

(** Without labels the loop over the boxes comes to its end, and no legend
    is drawn: the legend counter stays. *)
Lemma box_loop_no_labels_legendIndex legendEntries errorStyles boxes s :
  exists s',
    box_loop gNameGroupSeparator [] legendEntries errorStyles boxes s = Some s'
    /\ legendIndex s' = legendIndex s.
Proof.
  revert s. induction boxes as [|box rest IH]; intros s; simpl; [by eexists|].
  destruct box as [lb|tb|ty]; [by eexists| |apply IH].
  destruct (MakeText tb (bl_pad s) (bl_world s)) as [text pad].
  destruct (IH (mkBoxLoop (Draw (ObjTPaveText (t_with_name
                 ("TextBox_" ++ to_string (textIndex s)) text)) "SAME" pad)
                 (bl_world s) (legendIndex s) (textIndex s + 1))) as (s' & -> & Hs').
  by exists s'.
Qed.

(** C9: when no series gave a label, a legend box ends the loop over the
    boxes: the loop leaves the pad as if the list of boxes had ended just
    before that legend box, so neither the legend nor any box after it
    (text boxes included) is drawn. *)
Theorem box_loop_breaks_at_legend_without_labels
        legendEntries errorStyles before legendBox after s :
  box_loop gNameGroupSeparator [] legendEntries errorStyles
           (before ++ BoxLegend legendBox :: after) s
  = box_loop gNameGroupSeparator [] legendEntries errorStyles before s.
Proof.
  revert s. induction before as [|box rest IH]; intros s; simpl; [done|].
  destruct box as [lb|tb|ty]; [done| |by rewrite IH].
  destruct (MakeText tb (bl_pad s) (bl_world s)) as [text pad]. by rewrite IH.
Qed.
End GeneratePlotFacts.

Lemma GeneratePlot_too_few_pads_witness :
  exists w',
    @GeneratePlot test_backend "_IN_" two_pad_plot test_style test_data test_world
    = Some (None, w')
    /\ cout w' = [pad_count_message two_pad_plot test_style].
Proof.
  destruct (@GeneratePlot_too_few_pads test_backend "_IN_" two_pad_plot test_style
                                       test_data test_world)
    as (w' & Hresult & Hcout & _).
  { reflexivity. }
  exists w'. split; [exact Hresult|exact Hcout].
Defined.

(** ** GeneratePlot: the series of a pad *)

Section DataLoopFacts.
Context `{Backend}.

Lemma GetDataClone_TH1_found name availableData w h :
  found_TH1 name availableData = Some h ->
  GetDataClone_TH1 name availableData w = (Some h, w).
Proof.
  unfold found_TH1, GetDataClone_TH1, GetDataClone.
  destruct (FindObject name availableData) as [[]|]; try discriminate.
  intros [= ->]. reflexivity.
Qed.

Lemma finish_series_dataIndex data s pad w i :
  dataIndex (finish_series data s pad w i) = i + 1.
Proof. unfold finish_series. by case_match. Qed.

Lemma finish_series_pad data s pad w i :
  dl_pad (finish_series data s pad w i) = pad.
Proof. unfold finish_series. by case_match. Qed.

End DataLoopFacts.

(** C1, as stated, fails: of four histogram series A, B, C, D without
    explicit colour, but for C with colour -1, the last one, D, is at
    position 3 and takes the default colour of index 2. *)
Lemma negative_color_index_counterexample :
  let series := [hist_series "A" 0 "" ""; hist_series "B" 0 "" "";
                 hist_series "C" (-1) "" ""; hist_series "D" 0 "" ""] in
  let s := @data_loop test_backend "" test_style test_data 1 series
             (start_loop test_pad test_world) in
  marker_colors (dl_pad s) !! 3%nat
    = Some (Some (inject_Z (PlotStyle.GetDefaultColor test_style 2)))
  /\ marker_colors (dl_pad s) !! 3%nat
     <> Some (Some (inject_Z (PlotStyle.GetDefaultColor test_style 3)))
  /\ dataIndex s <> 4.
Proof.
  vm_compute. repeat split; discriminate.
Qed.

(** ** MakeLegend: the measuring loop *)

Section MeasureFacts.
Context `{Backend}.
Variable gNameGroupSeparator : string.

Lemma EntryAt_lookup legendEntries (j : nat) entry :
  legendEntries !! j = Some entry -> EntryAt legendEntries (Z.of_nat j) = Some entry.
Proof. intros Hj. unfold EntryAt. by rewrite Nat2Z.id, Hj. Qed.

(** A loop that has met a fault stays there. *)
Lemma fold_fault {A B} (f : A -> B -> option A) (l : list B) :
  fold_left (fun a b => a ← a; f a b) l None = None.
Proof. by induction l. Qed.

(** A list of results without a fault among them is a list of values. *)
Lemma imap_Some {A B} (l : list A) :
  forall f : nat -> A -> option B,
    (forall j x, l !! j = Some x -> is_Some (f j x)) ->
    exists new, imap f l = Some <$> new.
Proof.
  induction l as [|x l IH]; intros f Hall; [by exists []|].
  destruct (Hall 0%nat x eq_refl) as [y Hy].
  destruct (IH (f ∘ S)) as [new Hnew]; [intros j z Hz; by apply (Hall (S j))|].
  exists (y :: new). cbn [imap fmap list_fmap]. by rewrite Hy, Hnew.
Qed.

(** With an entry at hand every token can be replaced. *)
Lemma SubstituteTokens_entry e legendTitle :
  is_Some (SubstituteTokens gNameGroupSeparator (Some e) legendTitle).
Proof.
  unfold SubstituteTokens. cbn [mbind option_bind].
  set (t1 := if contains legendTitle "<name>" then _ else _).
  assert (H1 : is_Some t1) by (subst t1; by case_match).
  destruct H1 as [l1 ->]. cbn [mbind option_bind].
  set (t2 := if contains l1 "<title>" then _ else _).
  assert (H2 : is_Some t2) by (subst t2; by case_match).
  destruct H2 as [l2 ->]. cbn [mbind option_bind].
  generalize stat_tokens. intros toks. revert l2.
  induction toks as [|tok toks IH]; intros l2; [by eexists|].
  cbn [fold_left mbind option_bind].
  assert (Hs : is_Some (substitute_stat (Some e) l2 tok)).
  { unfold substitute_stat. cbn [mbind option_bind]. by repeat case_match. }
  destruct Hs as [l3 ->]. apply IH.
Qed.

(** A label without tokens stays as it is, and no entry is asked for. *)
Lemma SubstituteTokens_plain entry label :
  plain_label label = true ->
  SubstituteTokens gNameGroupSeparator entry label = Some label.
Proof.
  unfold plain_label, SubstituteTokens. cbn [forallb].
  intros Hplain. apply andb_true_iff in Hplain as [Hname Hplain].
  apply andb_true_iff in Hplain as [Htitle Hstat].
  apply negb_true_iff in Hname, Htitle. rewrite Hname. cbn [mbind option_bind].
  rewrite Htitle. cbn [mbind option_bind].
  revert Hstat. generalize stat_tokens. intros toks.
  induction toks as [|tok toks IH]; intros Hstat; [done|].
  cbn [forallb] in Hstat. apply andb_true_iff in Hstat as [Htok Hstat].
  apply negb_true_iff in Htok.
  cbn [fold_left mbind option_bind]. unfold substitute_stat at 2. rewrite Htok.
  by apply IH.
Qed.

(** One turn of the measuring loop that rewrites its label to [label], for
    a legend with at least one column. *)
Lemma measure_step_turn legendEntries hasTitle size nColumns m title label :
  0 < nColumns ->
  0 <= iColumn m < nColumns ->
  length (legendWidthPixelPerColumn m) = Z.to_nat nColumns ->
  SubstituteTokens gNameGroupSeparator (EntryAt legendEntries (iLegend m - 1)) title
  = Some label ->
  let width := Z.of_N (GetBoundingBox label).1 in
  let height := Z.of_N (GetBoundingBox label).2 in
  exists m',
    measure_step gNameGroupSeparator legendEntries hasTitle size nColumns m title = Some m'
    /\ m_titles m' = (m_titles m ++ [label])%list
    /\ legendHeightPixel m'
       = (if Qltb (legendHeightPixel m) (inject_Z height)
          then inject_Z height else legendHeightPixel m)
    /\ 0 <= iColumn m' < nColumns
    /\ length (legendWidthPixelPerColumn m') = Z.to_nat nColumns
    /\ (if hasTitle && (iLegend m =? size)
        then iLegend m' = iLegend m
             /\ titleWidthPixel m' = inject_Z width
             /\ legendWidthPixelPerColumn m' = legendWidthPixelPerColumn m
        else iLegend m' = iLegend m + 1
             /\ iColumn m' = Z.rem (iColumn m + 1) nColumns
             /\ titleWidthPixel m' = titleWidthPixel m
             /\ legendWidthPixelPerColumn m'
                = (if default 0 (legendWidthPixelPerColumn m !! Z.to_nat (iColumn m))
                      <? width
                   then <[Z.to_nat (iColumn m) := width]> (legendWidthPixelPerColumn m)
                   else legendWidthPixelPerColumn m)).
Proof.
  intros Hcolumns Hcolumn Hwidths Hlabel width height. subst width height.
  unfold measure_step. rewrite Hlabel. cbn [mbind option_bind].
  unfold measure_label. destruct (GetBoundingBox label) as [width height]. cbn [fst snd].
  destruct (hasTitle && (iLegend m =? size)).
  - eexists. split; [reflexivity|]. cbn. done.
  - destruct (Z.ltb_spec (iColumn m) 0) as [|_]; [lia|].
    destruct (lookup_lt_is_Some_2 (legendWidthPixelPerColumn m) (Z.to_nat (iColumn m)))
      as [widest Hwidest]; [lia|].
    rewrite Hwidest. cbn [mbind option_bind default].
    destruct (Z.eqb_spec nColumns 0) as [|_]; [lia|].
    eexists. split; [reflexivity|]. cbn.
    split; [done|]. split; [done|].
    split; [apply Z.rem_bound_pos; lia|].
    split; [by case_match; rewrite ?length_insert|]. done.
Qed.

(** The loop over the labels (and the title) of a legend with at least one
    column comes to its end when every label is rewritten without fault;
    the labels are then the rewritten ones, in order, and the row height
    is the greatest of their heights. *)
Lemma measure_loop_titles legendEntries hasTitle size nColumns legendTitles :
  0 < nColumns ->
  forall (new : list string) m k,
    iLegend m = Z.of_nat k + 1 ->
    Z.of_nat (k + length legendTitles) <= size ->
    0 <= iColumn m < nColumns ->
    length (legendWidthPixelPerColumn m) = Z.to_nat nColumns ->
    imap (fun j => rewritten gNameGroupSeparator legendEntries (k + j)) legendTitles
    = Some <$> new ->
    exists m',
      fold_left (fun m title =>
                   m ← m;
                   measure_step gNameGroupSeparator legendEntries hasTitle size nColumns
                                m title)
                legendTitles (Some m)
      = Some m'
      /\ m_titles m' = (m_titles m ++ new)%list
      /\ legendHeightPixel m'
         = fold_left (fun height label =>
                        if Qltb height (inject_Z (Z.of_N (GetBoundingBox label).2))
                        then inject_Z (Z.of_N (GetBoundingBox label).2) else height)
                     new (legendHeightPixel m)
      /\ 0 <= iColumn m' < nColumns
      /\ length (legendWidthPixelPerColumn m') = Z.to_nat nColumns.
Proof.
  intros Hcolumns.
  induction legendTitles as [|title rest IH]; intros new m k Hi Hsize Hcolumn Hwidths Hnew.
  - destruct new; [|done]. exists m. by rewrite app_nil_r.
  - destruct new as [|label new]; [done|].
    cbn [imap fmap list_fmap] in Hnew. injection Hnew as Hlabel Hnew.
    unfold rewritten in Hlabel. rewrite Nat.add_0_r in Hlabel.
    replace (Z.of_nat k) with (iLegend m - 1) in Hlabel by lia.
    destruct (measure_step_turn legendEntries hasTitle size nColumns m title label
                Hcolumns Hcolumn Hwidths Hlabel)
      as (m1 & Hstep & Htitles & Hheight & Hcolumn1 & Hwidths1 & Hturn).
    cbn [fold_left mbind option_bind]. rewrite Hstep.
    destruct (hasTitle && (iLegend m =? size)) eqn:Ht.
    + apply andb_true_iff in Ht as [_ Ht].
      assert (rest = []) as ->.
      { destruct rest; [done|]. cbn [length] in Hsize. lia. }
      destruct new; [|done].
      exists m1. cbn [fold_left]. by rewrite Htitles, Hheight.
    + destruct Hturn as (Hi1 & _).
      destruct (IH new m1 (S k)) as (m' & Hloop & Htitles' & Hheight' & Hinv);
        [lia| |done|done| |].
      { cbn [length] in Hsize. lia. }
      { rewrite <- Hnew. apply imap_ext. intros j t _. cbn. f_equal. lia. }
      exists m'. split; [exact Hloop|]. rewrite Htitles', Htitles, <- app_assoc.
      split; [done|]. split; [|done]. cbn [fold_left]. by rewrite Hheight', Hheight.
Qed.

(** Conversely, a loop that came to its end has rewritten every label. *)
Lemma measure_loop_inv legendEntries hasTitle size nColumns legendTitles :
  0 < nColumns ->
  forall m m' k,
    iLegend m = Z.of_nat k + 1 ->
    Z.of_nat (k + length legendTitles) <= size ->
    0 <= iColumn m < nColumns ->
    length (legendWidthPixelPerColumn m) = Z.to_nat nColumns ->
    fold_left (fun m title =>
                 m ← m;
                 measure_step gNameGroupSeparator legendEntries hasTitle size nColumns
                              m title)
              legendTitles (Some m)
    = Some m' ->
    exists new,
      imap (fun j => rewritten gNameGroupSeparator legendEntries (k + j)) legendTitles
      = Some <$> new.
Proof.
  intros Hcolumns.
  induction legendTitles as [|title rest IH]; intros m m' k Hi Hsize Hcolumn Hwidths Hloop.
  - by exists [].
  - cbn [fold_left mbind option_bind] in Hloop.
    destruct (SubstituteTokens gNameGroupSeparator
                (EntryAt legendEntries (iLegend m - 1)) title) as [label|] eqn:Hlabel.
    2:{ unfold measure_step in Hloop. rewrite Hlabel in Hloop.
        cbn [mbind option_bind] in Hloop. by rewrite fold_fault in Hloop. }
    destruct (measure_step_turn legendEntries hasTitle size nColumns m title label
                Hcolumns Hcolumn Hwidths Hlabel)
      as (m1 & Hstep & _ & _ & Hcolumn1 & Hwidths1 & Hturn).
    rewrite Hstep in Hloop.
    assert (Hhead : rewritten gNameGroupSeparator legendEntries (k + 0) title = Some label).
    { unfold rewritten. rewrite Nat.add_0_r.
      by replace (Z.of_nat k) with (iLegend m - 1) by lia. }
    destruct (hasTitle && (iLegend m =? size)) eqn:Ht.
    + apply andb_true_iff in Ht as [_ Ht].
      assert (rest = []) as ->.
      { destruct rest; [done|]. cbn [length] in Hsize. lia. }
      exists [label]. cbn [imap fmap list_fmap]. by rewrite Hhead.
    + destruct Hturn as (Hi1 & _).
      destruct (IH m1 m' (S k)) as (new & Hnew); [lia| |done|done|done|].
      { cbn [length] in Hsize. lia. }
      exists (label :: new). cbn [imap fmap list_fmap]. rewrite Hhead. f_equal.
      rewrite <- Hnew. apply imap_ext. intros j t _. cbn. f_equal. lia.
Qed.

(** The measuring part of MakeLegend comes to its end for a legend box
    with at least one column whose labels (and title) are rewritten without
    fault... *)
Lemma legend_size_measured legendBox pad legendEntries legendTitles new :
  0 < LegendBox.GetNumColumns legendBox ->
  imap (rewritten gNameGroupSeparator legendEntries)
       (measured_titles legendBox legendTitles)
  = Some <$> new ->
  exists sz,
    legend_size gNameGroupSeparator legendBox pad legendEntries legendTitles = Some sz
    /\ sz_titles sz = new.
Proof.
  intros Hcolumns Hnew. unfold legend_size.
  destruct (Z.ltb_spec (LegendBox.GetNumColumns legendBox) 0) as [|_]; [lia|].
  fold (measured_titles legendBox legendTitles).
  set (start := mkMeasure _ _ _ _ _ _).
  destruct (measure_loop_titles legendEntries
              (negb (String.eqb (LegendBox.GetTitle legendBox) ""))
              (Z.of_nat (length (measured_titles legendBox legendTitles)))
              (LegendBox.GetNumColumns legendBox)
              (measured_titles legendBox legendTitles) Hcolumns new start 0%nat)
    as (m & -> & Htitles & _).
  { reflexivity. }
  { rewrite Nat.add_0_l. lia. }
  { subst start. cbn [iColumn]. lia. }
  { subst start. cbn [legendWidthPixelPerColumn]. by rewrite length_replicate. }
  { exact Hnew. }
  cbn [mbind option_bind]. unfold Qdiv_finite.
  destruct (Qeq_bool (inject_Z (LegendBox.GetNumColumns legendBox)) 0) eqn:Hzero.
  { apply Qeq_bool_iff in Hzero. unfold Qeq in Hzero. cbn in Hzero. lia. }
  cbn [mbind option_bind]. eexists. split; [reflexivity|]. done.
Qed.

(** ... and only for such a box. *)
Lemma legend_size_inv legendBox pad legendEntries legendTitles sz :
  legend_size gNameGroupSeparator legendBox pad legendEntries legendTitles = Some sz ->
  0 < LegendBox.GetNumColumns legendBox
  /\ imap (rewritten gNameGroupSeparator legendEntries)
          (measured_titles legendBox legendTitles)
     = Some <$> sz_titles sz.
Proof.
  intros Hsz.
  assert (Hcolumns : 0 < LegendBox.GetNumColumns legendBox).
  { unfold legend_size in Hsz.
    destruct (Z.ltb_spec (LegendBox.GetNumColumns legendBox) 0) as [|Hge]; [done|].
    destruct (fold_left _ _ _) as [m|]; [|done]. cbn [mbind option_bind] in Hsz.
    unfold Qdiv_finite in Hsz.
    destruct (Qeq_bool (inject_Z (LegendBox.GetNumColumns legendBox)) 0) eqn:Hzero; [done|].
    destruct (Z.eq_dec (LegendBox.GetNumColumns legendBox) 0) as [Heq|]; [|lia].
    by rewrite Heq in Hzero. }
  split; [exact Hcolumns|].
  pose proof Hsz as Hsz'. unfold legend_size in Hsz'.
  destruct (Z.ltb_spec (LegendBox.GetNumColumns legendBox) 0) as [|_]; [lia|].
  fold (measured_titles legendBox legendTitles) in Hsz'.
  destruct (fold_left _ _ _) as [m|] eqn:Hloop; [|done].
  apply (measure_loop_inv _ _ _ _ _ Hcolumns _ _ 0%nat) in Hloop as (new & Hnew);
    [|reflexivity|rewrite Nat.add_0_l; lia|cbn [iColumn]; lia
     |cbn [legendWidthPixelPerColumn]; by rewrite length_replicate].
  destruct (legend_size_measured legendBox pad legendEntries legendTitles new Hcolumns Hnew)
    as (sz' & Hsz'' & <-).
  rewrite Hsz in Hsz''. by injection Hsz'' as <-.
Qed.
End MeasureFacts.

(** ** MakeLegend: the legend that is returned *)

Section LegendEntryFacts.
Context `{Backend}.
Variable gNameGroupSeparator : string.

Lemma add_entries_entries entries legendTitles errorStyles i (legend : TLegend) :
  l_entries (add_entries entries legendTitles errorStyles i legend)
  = (l_entries legend
     ++ imap (fun j entry =>
                (entry, default "" (legendTitles !! (i + j)%nat),
                 entry_drawStyle entry (default "" (errorStyles !! (i + j)%nat))))
             entries)%list.
Proof.
  revert i legend. induction entries as [|entry rest IH]; intros i legend; simpl.
  - by rewrite app_nil_r.
  - rewrite IH. simpl. rewrite <- app_assoc. simpl.
    rewrite Nat.add_0_r. do 2 f_equal.
    apply imap_ext. intros j e _. simpl.
    by replace (i + S j)%nat with (S (i + j)) by lia.
Qed.

Lemma corners_l_set k v (l : TLegend) : corners (l_set k v l) = corners l.
Proof. reflexivity. Qed.

Lemma corners_add_entries entries titles styles i (l : TLegend) :
  corners (add_entries entries titles styles i l) = corners l.
Proof.
  revert i l. induction entries as [|e r IH]; intros i l; simpl; [done|].
  by rewrite IH.
Qed.

Lemma l_header_add_entries entries titles styles i (l : TLegend) :
  l_header (add_entries entries titles styles i l) = l_header l.
Proof.
  revert i l. induction entries as [|e r IH]; intros i l; simpl; [done|].
  by rewrite IH.
Qed.

(** MakeLegend has a fault only in its measuring part. *)
Lemma MakeLegend_fault legendBox pad legendEntries legendTitles errorStyles w :
  legend_size gNameGroupSeparator legendBox pad legendEntries legendTitles = None ->
  MakeLegend gNameGroupSeparator legendBox pad legendEntries legendTitles errorStyles w
  = None.
Proof. intros Hsz. unfold MakeLegend. by rewrite Hsz. Qed.

(** Once the sizes are measured, MakeLegend returns a legend: its entries,
    its corners (the upper left corner chosen by [legend_position], the box
    below and to the right of it) and its header; the pad and the ambient
    state are those left by the placement. *)
Lemma MakeLegend_measured legendBox pad legendEntries legendTitles errorStyles w sz :
  legend_size gNameGroupSeparator legendBox pad legendEntries legendTitles = Some sz ->
  let position := legend_position legendBox pad w sz in
  exists legend,
    MakeLegend gNameGroupSeparator legendBox pad legendEntries legendTitles errorStyles w
    = Some (legend, position.1.2, position.2)
    /\ l_entries legend
       = imap (fun j entry =>
                 (entry, default "" (sz_titles sz !! j),
                  entry_drawStyle entry (default "" (errorStyles !! j))))
              legendEntries
    /\ corners legend
       = (position.1.1.1, (position.1.1.2 - totalHeightNDC sz)%Q,
          (position.1.1.1 + totalWidthNDC sz)%Q, position.1.1.2)
    /\ l_header legend
       = if String.eqb (LegendBox.GetTitle legendBox) "" then None
         else Some (LegendBox.GetTitle legendBox).
Proof.
  intros Hsz position. subst position. unfold MakeLegend. rewrite Hsz.
  cbn [mbind option_bind].
  destruct (legend_position legendBox pad w sz) as [[[x y] pad'] w'].
  cbn [fst snd]. eexists. split; [reflexivity|].
  destruct (String.eqb (LegendBox.GetTitle legendBox) ""); cbn [negb];
    (match goal with
     | |- context [match ?o with Some _ => _ | None => _ end] => destruct o
     end;
     cbn [l_set l_entries l_header]; rewrite !corners_l_set;
     rewrite add_entries_entries, corners_add_entries, l_header_add_entries;
     (split; [reflexivity|split; reflexivity])).
Qed.

(** What MakeLegend returns, it returns after the sizes were measured. *)
Lemma MakeLegend_inv legendBox pad legendEntries legendTitles errorStyles w legend pad' w' :
  MakeLegend gNameGroupSeparator legendBox pad legendEntries legendTitles errorStyles w
  = Some (legend, pad', w') ->
  exists sz,
    legend_size gNameGroupSeparator legendBox pad legendEntries legendTitles = Some sz
    /\ pad' = (legend_position legendBox pad w sz).1.2
    /\ w' = (legend_position legendBox pad w sz).2
    /\ l_entries legend
       = imap (fun j entry =>
                 (entry, default "" (sz_titles sz !! j),
                  entry_drawStyle entry (default "" (errorStyles !! j))))
              legendEntries
    /\ l_header legend
       = if String.eqb (LegendBox.GetTitle legendBox) "" then None
         else Some (LegendBox.GetTitle legendBox).
Proof.
  intros Hmade.
  destruct (legend_size gNameGroupSeparator legendBox pad legendEntries legendTitles)
    as [sz|] eqn:Hsz.
  - destruct (MakeLegend_measured legendBox pad legendEntries legendTitles errorStyles w sz
                Hsz) as (legend0 & Hmade0 & Hentries & _ & Hheader).
    cbv zeta in Hmade0. rewrite Hmade in Hmade0. injection Hmade0 as -> -> ->.
    by exists sz.
  - by rewrite (MakeLegend_fault _ _ _ _ _ _ Hsz) in Hmade.
Qed.

(** MakeLegend returns a legend for a box with at least one column and a
    title without tokens, when every label has its entry. *)
Lemma MakeLegend_returns legendBox pad legendEntries legendTitles errorStyles w :
  0 < LegendBox.GetNumColumns legendBox ->
  plain_label (LegendBox.GetTitle legendBox) = true ->
  (length legendTitles <= length legendEntries)%nat ->
  is_Some (MakeLegend gNameGroupSeparator legendBox pad legendEntries legendTitles
                      errorStyles w).
Proof.
  intros Hcolumns Hplain Hlen.
  destruct (imap_Some (measured_titles legendBox legendTitles)
                      (rewritten gNameGroupSeparator legendEntries)) as [new Hnew].
  { intros j label Hj. unfold measured_titles in Hj.
    assert (Hcase : legendTitles !! j = Some label
                    \/ label = LegendBox.GetTitle legendBox).
    { destruct (negb _); [|by left].
      apply lookup_app_Some in Hj as [Hj|[_ Hj]]; [by left|right].
      apply list_lookup_singleton_Some in Hj as [_ Hj]. done. }
    destruct Hcase as [Hlabel| ->].
    - destruct (lookup_lt_is_Some_2 legendEntries j) as [entry Hentry].
      { apply lookup_lt_Some in Hlabel. lia. }
      unfold rewritten. rewrite (EntryAt_lookup _ _ _ Hentry).
      apply SubstituteTokens_entry.
    - unfold rewritten. rewrite SubstituteTokens_plain by done. by eexists. }
  destruct (legend_size_measured gNameGroupSeparator legendBox pad legendEntries
              legendTitles new Hcolumns Hnew) as (sz & Hsz & _).
  destruct (MakeLegend_measured legendBox pad legendEntries
              legendTitles errorStyles w sz Hsz) as (legend & -> & _).
  by eexists.
Qed.
End LegendEntryFacts.



(** ** MakeLegend: the size of the box *)

Section LegendSizeFacts.
Context `{Backend}.
Variable gNameGroupSeparator : string.



End LegendSizeFacts.


(** ** MakeLegend: the placement *)

Section PlacementFacts.
Context `{Backend}.
Variable gNameGroupSeparator : string.

Lemma addr_below_fresh (l : list Prim) (p : Prim) :
  p ∈ l -> (p_addr p < fresh_addr l)%nat.
Proof.
  intros Hin. unfold fresh_addr.
  assert (Hall : Forall (fun k => (k <= list_max (map p_addr l))%nat) (map p_addr l))
    by (by apply list_max_le).
  rewrite Forall_forall in Hall.
  specialize (Hall (p_addr p)). apply Nat.lt_succ_r, Hall.
  apply list_elem_of_In, in_map. by apply list_elem_of_In.
Qed.

Lemma fresh_addr_snoc (l : list Prim) o opt :
  fresh_addr (l ++ [mkPrim (fresh_addr l) o opt]) = S (fresh_addr l).
Proof.
  unfold fresh_addr. rewrite map_app, list_max_app. simpl. lia.
Qed.

(** An object whose address is above those before it in the list is the
    one that [Remove] takes away. *)
Lemma remove_addr_above (l rest : list Prim) (x : Prim) :
  (forall p, p ∈ l -> (p_addr p < p_addr x)%nat) ->
  remove_addr (p_addr x) (l ++ x :: rest) = (l ++ rest)%list.
Proof.
  induction l as [|p l IH]; intros Hbelow; simpl.
  - by rewrite Nat.eqb_refl.
  - destruct (Nat.eqb_spec (p_addr p) (p_addr x)) as [Heq|_].
    + specialize (Hbelow p (list_elem_of_here _ _)). lia.
    + f_equal. apply IH. intros q Hq. apply Hbelow. by apply list_elem_of_further.
Qed.

(** The four rectangles are the last four primitives of the pad in which
    the place is searched. *)
Lemma draw_margin_boxes_drawn pad w :
  drawn (draw_margin_boxes pad w)
  = (drawn pad ++ map (fun b => (ObjTBox b, "SAME")) (margin_boxes pad w))%list.
Proof.
  unfold draw_margin_boxes, margin_boxes, drawn. simpl.
  rewrite !map_app. simpl. by rewrite <- !app_assoc.
Qed.

(** Drawn and removed again, the four rectangles leave the pad as it was. *)
Lemma margin_boxes_removed pad w :
  let marginsBottom := fresh_addr (pad_prims pad) in
  Remove (S (S (S marginsBottom)))
    (Remove (S (S marginsBottom))
       (Remove (S marginsBottom)
          (Remove marginsBottom (draw_margin_boxes pad w))))
  = pad.
Proof.
  destruct pad as [name geom att prims].
  unfold draw_margin_boxes, margin_boxes, Remove, Draw, pad_with_prims. simpl.
  f_equal.
  set (a := fresh_addr prims).
  rewrite fresh_addr_snoc. fold a.
  rewrite <- !app_assoc. simpl.
  assert (Hfresh2 : forall o1 opt1 o2 opt2,
             fresh_addr (prims ++ [mkPrim a o1 opt1; mkPrim (S a) o2 opt2]) = S (S a)).
  { intros. unfold fresh_addr. rewrite map_app, list_max_app. simpl.
    unfold a, fresh_addr. lia. }
  rewrite Hfresh2.
  assert (Hfresh3 : forall o1 opt1 o2 opt2 o3 opt3,
             fresh_addr (prims ++ [mkPrim a o1 opt1; mkPrim (S a) o2 opt2;
                                   mkPrim (S (S a)) o3 opt3]) = S (S (S a))).
  { intros. unfold fresh_addr. rewrite map_app, list_max_app. simpl.
    unfold a, fresh_addr. lia. }
  rewrite Hfresh3.
  assert (Hbelow : forall n p, p ∈ prims -> (p_addr p < n + a)%nat).
  { intros n p Hp. pose proof (addr_below_fresh prims p Hp) as Hlt. fold a in Hlt. lia. }
  rewrite (remove_addr_above prims _ (mkPrim a _ _)) by (intros; by apply (Hbelow 0%nat)).
  rewrite (remove_addr_above prims _ (mkPrim (S a) _ _)) by (intros; by apply (Hbelow 1%nat)).
  rewrite (remove_addr_above prims _ (mkPrim (S (S a)) _ _))
    by (intros; by apply (Hbelow 2%nat)).
  rewrite (remove_addr_above prims _ (mkPrim (S (S (S a))) _ _))
    by (intros; by apply (Hbelow 3%nat)).
  by rewrite app_nil_r.
Qed.

(** The placement of a box without position, by the outcome of the search. *)
Lemma legend_position_auto legendBox pad w sz :
  Box.IsAutoPlacement (LegendBox.box legendBox) = true ->
  let pad0 := PadUpdate w pad in
  let place := search_place pad0 w sz in
  legend_position legendBox pad w sz
  = if place.1
    then ((place.2.1 + 2 * marginX pad0 w)%Q,
          (place.2.2 + totalHeightNDC sz + 2 * marginY pad0 w)%Q, pad0, w)
    else (((GetUxmin pad0 - GetX1 pad0) / (GetX2 pad0 - GetX1 pad0)
           + (1 + 1 / fractionOfTickLenght) * marginX pad0 w)%Q,
          ((GetUymax pad0 - GetY1 pad0) / (GetY2 pad0 - GetY1 pad0)
           - (1 + 1 / fractionOfTickLenght) * marginY pad0 w)%Q,
          pad0, print "Warning: Could not find enough space to place legend properly." w).
Proof.
  intros Hauto pad0 place. unfold legend_position. rewrite Hauto.
  fold pad0. unfold place, search_place.
  destruct (place_loop _ _ _) as [found [x y]]. cbn [fst snd].
  pose proof (margin_boxes_removed pad0 w) as Hremoved. cbv zeta in Hremoved.
  destruct found; cbv zeta; rewrite Hremoved; reflexivity.
Qed.



(** A box without a column is measured with a fault, and so is every box
    whose number of columns is not positive. *)
Lemma MakeLegend_without_columns legendBox pad legendEntries legendTitles errorStyles w :
  LegendBox.GetNumColumns legendBox <= 0 ->
  MakeLegend gNameGroupSeparator legendBox pad legendEntries legendTitles errorStyles w
  = None.
Proof.
  intros Hcolumns. apply MakeLegend_fault.
  destruct (legend_size _ _ _ _ _) as [sz|] eqn:Hsz; [|done].
  apply legend_size_inv in Hsz as [Hpos _]. lia.
Qed.
End PlacementFacts.



(** ** GeneratePlot: ratios and the reference line *)

Section RatioFacts.
Context `{Backend}.

Lemma zero_bins_isTH2 l h : h_isTH2 (fold_left ZeroBin l h) = h_isTH2 h.
Proof.
  revert h. induction l as [|i l IH]; intros h; simpl; [done|].
  rewrite IH. unfold ZeroBin, SetBinError, SetBinContent. by repeat case_match.
Qed.

Lemma CutHistogram_isTH2 h cutoff cutoffLow :
  h_isTH2 (CutHistogram h cutoff cutoffLow) = h_isTH2 h.
Proof.
  unfold CutHistogram. repeat case_match; by rewrite ?zero_bins_isTH2.
Qed.

Lemma h_style_att style color h :
  h_att (h_style style color h) !! "MarkerColor" = Some (inject_Z color)
  /\ h_att (h_style style color h) !! "MarkerStyle" = Some (inject_Z style)
  /\ h_att (h_style style color h) !! "LineColor" = Some (inject_Z color).
Proof.
  unfold h_style, h_set, set_reg. simpl. repeat split.
  - rewrite lookup_insert_ne by done. apply lookup_insert_eq.
  - rewrite !lookup_insert_ne by done. apply lookup_insert_eq.
  - apply lookup_insert_eq.
Qed.

Lemma drawn_Draw o opt pad : drawn (Draw o opt pad) = (drawn pad ++ [(o, opt)])%list.
Proof. unfold drawn, Draw. simpl. by rewrite map_app. Qed.

Lemma pad_att_Draw o opt pad : pad_att (Draw o opt pad) = pad_att pad.
Proof. reflexivity. Qed.

(** The "boxes" option draws TExec objects only, and keeps the registers
    of the pad. *)
Lemma boxes_option_drawn drawingOptions opts pad :
  exists execs,
    drawn (boxes_option drawingOptions opts pad).2 = (drawn pad ++ execs)%list
    /\ forallb is_TExec execs = true
    /\ pad_att (boxes_option drawingOptions opts pad).2 = pad_att pad.
Proof.
  unfold boxes_option. destruct (contains drawingOptions "boxes"); simpl.
  - exists [(errorBoxesOn, ""); (errorBoxesOff, "")].
    rewrite !drawn_Draw, <- app_assoc. done.
  - exists []. by rewrite app_nil_r.
Qed.

(** The line at 1: a function "1" over the range of the axis, black. *)
Lemma theLine_black dummyHist :
  f_formula (theLine dummyHist) = "1"
  /\ f_att (theLine dummyHist) !! "LineColor" = Some kBlack.
Proof.
  unfold theLine, f_set, set_reg. simpl. split; [done|].
  rewrite lookup_insert_ne by done. apply lookup_insert_eq.
Qed.

(** What [draw_ratio] draws, by the dimension of the ratio and the index. *)
Lemma draw_ratio_drawn plotStyle data s w color style i opts cutHigh cutLow ratio temp :
  let s' := draw_ratio plotStyle data s w color style i opts cutHigh cutLow ratio temp in
  exists execs r o,
    forallb is_TExec execs = true
    /\ if h_isTH2 ratio then
         drawn (dl_pad s') = (drawn (dl_pad s) ++ execs ++ [(ObjTH1 r, o)])%list
         /\ pad_att (dl_pad s') !! "Theta" = Some 49.5%Q
         /\ pad_att (dl_pad s') !! "Phi" = Some 230%Q
         /\ dataIndex s' = i + 1
       else if i =? 0 then
         (exists dummy,
            drawn (dl_pad s')
            = (drawn (dl_pad s)
               ++ [(ObjTH1 dummy, "AXIS"); (ObjTF1 (theLine dummy), "SAME")]
               ++ execs ++ [(ObjTH1 r, o)])%list)
         /\ h_att r !! "MarkerColor" = Some (inject_Z (color_at plotStyle data 1))
         /\ h_att r !! "MarkerStyle" = Some (inject_Z (marker_at plotStyle data 1))
         /\ dataIndex s' = 2
       else
         drawn (dl_pad s') = (drawn (dl_pad s) ++ execs ++ [(ObjTH1 r, o)])%list
         /\ h_att r !! "MarkerColor" = Some (inject_Z color)
         /\ h_att r !! "MarkerStyle" = Some (inject_Z style)
         /\ dataIndex s' = i + 1.
Proof.
  intros s'. subst s'. unfold draw_ratio.
  destruct (Divide ratio temp) as [c e].
  set (ratio0 := h_with_att _ (h_with_title "" (CutHistogram _ cutHigh cutLow))).
  assert (Hdim : h_isTH2 ratio0 = h_isTH2 ratio)
    by (subst ratio0; simpl; by rewrite CutHistogram_isTH2).
  rewrite Hdim. destruct (h_isTH2 ratio).
  - (* two dimensions *)
    match goal with
    | |- context [boxes_option ?d ?o ?p] =>
        destruct (boxes_option_drawn d o p) as (execs & Hexecs & Hall & Hatt);
        destruct (boxes_option d o p) as [opts' pad'] eqn:Hboxes
    end.
    simpl in Hexecs, Hatt.
    eexists execs, _, _. split; [exact Hall|].
    rewrite finish_series_pad, finish_series_dataIndex, drawn_Draw, pad_att_Draw.
    rewrite Hexecs, Hatt, <- app_assoc. repeat split.
    + unfold set_view, pad_set, set_reg. simpl.
      rewrite lookup_insert_ne by done. apply lookup_insert_eq.
    + unfold set_view, pad_set, set_reg. simpl. apply lookup_insert_eq.
  - unfold reference_line. destruct (Z.eqb_spec i 0) as [->|Hi].
    + (* the first series of the pad *)
      match goal with
      | |- context [boxes_option ?d ?o ?p] =>
          destruct (boxes_option_drawn d o p) as (execs & Hexecs & Hall & Hatt);
          destruct (boxes_option d o p) as [opts' pad'] eqn:Hboxes
      end.
      simpl in Hexecs, Hatt.
      eexists execs, _, _. split; [exact Hall|].
      rewrite finish_series_pad, finish_series_dataIndex, drawn_Draw.
      rewrite Hexecs, !drawn_Draw, <- !app_assoc. simpl.
      split; [eexists; reflexivity|].
      match goal with
      | |- context [h_style ?st ?co ?h] =>
          destruct (h_style_att st co h) as (Hmc & Hms & _)
      end.
      repeat split; assumption.
    + match goal with
      | |- context [boxes_option ?d ?o ?p] =>
          destruct (boxes_option_drawn d o p) as (execs & Hexecs & Hall & Hatt);
          destruct (boxes_option d o p) as [opts' pad'] eqn:Hboxes
      end.
      simpl in Hexecs, Hatt.
      eexists execs, _, _. split; [exact Hall|].
      rewrite finish_series_pad, finish_series_dataIndex, drawn_Draw.
      rewrite Hexecs, <- !app_assoc.
      match goal with
      | |- context [h_style ?st ?co ?h] =>
          destruct (h_style_att st co h) as (Hmc & Hms & _)
      end.
      repeat split; assumption.
Qed.

(** A ratio whose histograms are found is drawn by [draw_ratio]. *)
Lemma data_step_ratio controlString plotStyle availableData padID s data ratio :
  ratio_found availableData data = Some ratio ->
  exists cutHigh cutLow temp,
    data_step controlString plotStyle availableData padID s data
    = draw_ratio plotStyle data s (dl_world s)
                 (ResolveStyle plotStyle data (dataIndex s)).1.1
                 (ResolveStyle plotStyle data (dataIndex s)).1.2
                 (ResolveStyle plotStyle data (dataIndex s)).2
                 (drawingOptions s ++ Data.GetDrawingOptions data)
                 cutHigh cutLow ratio temp.
Proof.
  unfold ratio_found, data_step. intros Hfound.
  destruct (ResolveStyle plotStyle data (dataIndex s)) as [[color style] i].
  destruct (Data.GetKind data) as [| cutHigh cutLow denom | |]; try discriminate.
  destruct (found_TH1 (Data.GetUniqueName data) availableData) as [h|] eqn:Hnum;
    [|discriminate].
  destruct (found_TH1 denom availableData) as [temp|] eqn:Hden; [|discriminate].
  injection Hfound as ->.
  rewrite (GetDataClone_TH1_found _ _ _ _ Hnum), (GetDataClone_TH1_found _ _ _ _ Hden).
  by exists cutHigh, cutLow, temp.
Qed.

End RatioFacts.

Lemma test_style_colors_not_negative (i : Z) :
  0 <= PlotStyle.GetDefaultColor test_style i.
Proof.
  simpl. unfold cyclic_default.
  generalize (Z.to_nat (i mod Z.of_nat (length [2; 4; 3; 6]))). intros n.
  do 5 (destruct n as [|n]; simpl; try lia).
Qed.

(** C4, as stated, fails: of the three ratio series A, X, C the second has
    no data and is skipped; C is at position 2 of the Data sequence and is
    styled from index 2, with the default colour 3, not from index 3. And
    of the two ratio series A and C, where C has the colour -1, C is at
    position 1 and is styled from index 1, with the default colour 4, not
    from index 2. *)
Lemma ratio_index_shift_counterexample :
  let series := [ratio_series "A" "B" 0 ""; ratio_series "X" "B" 0 "";
                 ratio_series "C" "B" 0 ""] in
  let s := @data_loop test_backend "" test_style test_data 1 series
             (start_loop test_pad test_world) in
  let shifted := [ratio_series "A" "B" 0 ""; ratio_series "C" "B" (-1) ""] in
  let s1 := @data_loop test_backend "" test_style test_data 1 shifted
              (start_loop test_pad test_world) in
  ratio_1D_found test_data (ratio_series "A" "B" 0 "") = true
  /\ last (marker_colors (dl_pad s))
     = Some (Some (inject_Z (PlotStyle.GetDefaultColor test_style 2)))
  /\ last (marker_colors (dl_pad s))
     <> Some (Some (inject_Z (PlotStyle.GetDefaultColor test_style (2 + 1))))
  /\ last (marker_colors (dl_pad s1))
     = Some (Some (inject_Z (PlotStyle.GetDefaultColor test_style 1)))
  /\ last (marker_colors (dl_pad s1))
     <> Some (Some (inject_Z (PlotStyle.GetDefaultColor test_style (1 + 1)))).
Proof.
  vm_compute. repeat split; discriminate.
Qed.

(** ** GeneratePlot: what the loop over the series records for the legend *)

Section RecordFacts.
Context `{Backend}.

(** A series that was drawn is recorded when its label is not empty: the
    label, the object just drawn and the drawing options of the series. *)
Lemma finish_series_records data s o opt pad w i :
  let s' := finish_series data s (Draw o opt pad) w i in
  (lables s' = lables s /\ legendEntries s' = legendEntries s
   /\ errorStyles s' = errorStyles s /\ Data.GetLable data = "")
  \/ (Data.GetLable data <> ""
      /\ lables s' = (lables s ++ [Data.GetLable data])%list
      /\ legendEntries s' = (legendEntries s ++ [o])%list
      /\ errorStyles s' = (errorStyles s ++ [Data.GetDrawingOptions data])%list).
Proof.
  intros s'. subst s'. unfold finish_series.
  destruct (String.eqb_spec (Data.GetLable data) "") as [Hempty|Hlabel]; simpl.
  - left. done.
  - right. unfold Last, Draw. simpl. rewrite last_snoc. simpl. done.
Qed.

(** One turn of the loop leaves the three lists alone or adds one element
    to each of them. *)
Lemma data_step_records controlString plotStyle availableData padID s data :
  let s' := data_step controlString plotStyle availableData padID s data in
  (lables s' = lables s /\ legendEntries s' = legendEntries s
   /\ errorStyles s' = errorStyles s)
  \/ (Data.GetLable data <> ""
      /\ exists o,
           lables s' = (lables s ++ [Data.GetLable data])%list
           /\ legendEntries s' = (legendEntries s ++ [o])%list
           /\ errorStyles s' = (errorStyles s ++ [Data.GetDrawingOptions data])%list).
Proof.
  intros s'. subst s'. unfold data_step.
  destruct (ResolveStyle plotStyle data (dataIndex s)) as [[color style] i].
  assert (Hfinish : forall o opt pad w j,
             let s' := finish_series data s (Draw o opt pad) w j in
             (lables s' = lables s /\ legendEntries s' = legendEntries s
              /\ errorStyles s' = errorStyles s)
             \/ (Data.GetLable data <> ""
                 /\ exists o,
                      lables s' = (lables s ++ [Data.GetLable data])%list
                      /\ legendEntries s' = (legendEntries s ++ [o])%list
                      /\ errorStyles s' = (errorStyles s ++ [Data.GetDrawingOptions data])%list)).
  { intros o opt pad w j.
    destruct (finish_series_records data s o opt pad w j) as [(?&?&?&?)|(?&?&?&?)];
      [left|right]; eauto. }
  destruct (Data.GetKind data) as [hi lo|hi lo denom|hi lo|ty].
  - destruct (GetDataClone_TH1 _ _ _) as [[histo|] w]; [|by left].
    unfold draw_hist. repeat case_match; apply Hfinish.
  - destruct (GetDataClone_TH1 _ _ _) as [ratio w].
    destruct (GetDataClone_TH1 _ _ w) as [temp w'].
    destruct ratio as [ratio|], temp as [temp|]; try (by left).
    unfold draw_ratio. repeat case_match; apply Hfinish.
  - destruct (GetDataClone_TGraph _ _ _) as [[graph|] w]; [|by left].
    unfold draw_graph. repeat case_match; apply Hfinish.
  - by left.
Qed.

(** The labels, the objects and the options recorded in a pad go together:
    the three lists have the same length. *)
Lemma data_loop_aligned controlString plotStyle availableData padID datas s :
  length (legendEntries s) = length (lables s) ->
  length (errorStyles s) = length (lables s) ->
  let s' := data_loop controlString plotStyle availableData padID datas s in
  length (legendEntries s') = length (lables s')
  /\ length (errorStyles s') = length (lables s').
Proof.
  revert s. induction datas as [|data datas IH]; intros s He Hs; [done|].
  change (data_loop controlString plotStyle availableData padID (data :: datas) s)
    with (data_loop controlString plotStyle availableData padID datas
                    (data_step controlString plotStyle availableData padID s data)).
  apply IH;
    destruct (data_step_records controlString plotStyle availableData padID s data)
      as [(Hl & Hle & Hes)|(_ & o & Hl & Hle & Hes)];
    rewrite ?Hl, ?Hle, ?Hes, ?length_app; simpl; lia.
Qed.

(** When no series of the pad has a label, no label is recorded: the
    condition under which a legend box ends the loop over the boxes. *)
Lemma data_loop_without_labels controlString plotStyle availableData padID datas s :
  Forall (fun data => Data.GetLable data = "") datas ->
  lables (data_loop controlString plotStyle availableData padID datas s) = lables s.
Proof.
  intros Hall. revert s. induction Hall as [|data datas Hdata Hall IH]; intros s; [done|].
  change (data_loop controlString plotStyle availableData padID (data :: datas) s)
    with (data_loop controlString plotStyle availableData padID datas
                    (data_step controlString plotStyle availableData padID s data)).
  rewrite IH.
  destruct (data_step_records controlString plotStyle availableData padID s data)
    as [(Hl & _)|(Hne & _)]; [exact Hl|done].
Qed.
End RecordFacts.

(** ** MakeLegend: the fallback position in other words *)

(** Moving inwards by (1 + 1/0.9) margins is moving by the margin and by one
    tick length (scaled as the margin is). *)
Lemma fallback_inset (pad : TPad) (w : World) :
  ((1 + 1 / fractionOfTickLenght) * marginX pad w
   == marginX pad w
      + GetTickLength "Y" w * (GetUxmax pad - GetUxmin pad) / (GetX2 pad - GetX1 pad))%Q
  /\ ((1 + 1 / fractionOfTickLenght) * marginY pad w
      == marginY pad w
         + GetTickLength "X" w * (GetUymax pad - GetUymin pad) / (GetY2 pad - GetY1 pad))%Q.
Proof.
  unfold marginX, marginY, fractionOfTickLenght, Qdiv.
  set (ix := (/ (GetX2 pad - GetX1 pad))%Q). set (iy := (/ (GetY2 pad - GetY1 pad))%Q).
  change (/ 0.9)%Q with (10 # 9)%Q.
  split; ring.
Qed.

(** ** The code run on small inputs *)

(** Two histogram series without explicit colour take the first two default
    colours; a third one with the colour -1, at index 2, takes the colour
    of index 1. *)
Example default_colors_in_draw_order :
  let series := [hist_series "A" 0 "" "a"; hist_series "B" 0 "" "b";
                 hist_series "C" (-1) "" "c"] in
  let s := @data_loop test_backend "" test_style test_data 1 series
             (start_loop test_pad test_world) in
  marker_colors (dl_pad s) = [Some 2%Q; Some 4%Q; Some 4%Q]
  /\ lables s = ["a"; "b"; "c"]
  /\ map snd (drawn (dl_pad s)) = [""; "EP SAME"; "EP SAME"].
Proof. vm_compute. done. Qed.

(** A ratio as first series: the frame, the line at 1, then the ratio; a
    second ratio follows at index 2. *)
Example ratio_pad_in_draw_order :
  let series := [ratio_series "A" "B" 0 ""; ratio_series "C" "B" 0 ""] in
  let s := @data_loop test_backend "" test_style test_data 1 series
             (start_loop test_pad test_world) in
  map (fun d => (ObjName d.1, d.2)) (drawn (dl_pad s))
  = [("dummy", "AXIS"); ("line", "SAME"); ("A", " SAME"); ("C", "EP SAME")]
  /\ last (marker_colors (dl_pad s)) = Some (Some 3%Q)
  /\ dataIndex s = 3.
Proof. vm_compute. done. Qed.

(** Without labels, the text box before the legend box is drawn and the
    text box after it is not. *)
Example boxes_after_unlabelled_legend :
  let text := fun t => BoxText (TextBox.mk (Box.mk (Box.mkPos (Some 0.5%Q) (Some 0.5%Q) None)
                                                   1 1 1) t) in
  exists b,
    @box_loop test_backend "_IN_" [] [] []
              [text "first"; BoxLegend auto_legend; text "second"]
              (mkBoxLoop test_pad test_world 1 1)
    = Some b
    /\ map (fun d => ObjName d.1) (drawn (bl_pad b)) = ["TextBox_1"]
    /\ textIndex b = 2 /\ legendIndex b = 1.
Proof. eexists. split; [vm_compute; reflexivity|]. vm_compute. done. Qed.

(** With the high cut at 2.5 and the low cut at 0.5 the bins 1, 3 and 4 are
    emptied and bin 2 is kept. *)
Example CutHistogram_both_sides :
  h_content (@CutHistogram test_backend (test_hist "A") 2.5 0.5) = [0; 0; 2; 0; 0; 0]%Q
  /\ h_error (@CutHistogram test_backend (test_hist "A") 2.5 0.5) = [0; 0; 1; 0; 0; 0]%Q.
Proof. vm_compute. done. Qed.


(** * Further properties of the code *)

(** ** GetDataClone *)

Section GetDataCloneFacts.
Context `{Backend}.

(** The object that [FindObject] returns is the first one of that name. *)
Lemma FindObject_first name availableData obj :
  FindObject name availableData = Some obj ->
  exists before after,
    availableData = (before ++ obj :: after)%list
    /\ ObjName obj = name
    /\ Forall (fun o => ObjName o <> name) before.
Proof.
  unfold FindObject. induction availableData as [|o l IH]; simpl; [discriminate|].
  destruct (String.eqb_spec (ObjName o) name) as [Heq|Hne].
  - intros [= ->]. exists [], l. by repeat split.
  - intros Hfind. destruct (IH Hfind) as (before & after & -> & Hname & Hall).
    exists (o :: before), after. repeat split; [done|]. by constructor.
Qed.

Lemma FindObject_none name availableData :
  FindObject name availableData = None ->
  Forall (fun o => ObjName o <> name) availableData.
Proof.
  unfold FindObject. induction availableData as [|o l IH]; simpl; [by constructor|].
  destruct (String.eqb_spec (ObjName o) name) as [Heq|Hne]; [discriminate|].
  intros Hfind. constructor; [done|]. by apply IH.
Qed.

(** X1: GetDataClone looks at the first object of the requested name only.
    It returns that object, and prints nothing, when the object is of the
    requested class; it returns null and prints one message when no object
    has the name ("... was not loaded.") or when the first object of the name
    is of another class ("... is of type ..."), whatever follows it in the
    list. *)
Theorem GetDataClone_first_of_name cls dataName availableData w :
  let result := GetDataClone cls dataName availableData w in
  match result.1 with
  | Some obj =>
      result.2 = w
      /\ InheritsFrom cls obj = true
      /\ exists before after,
           availableData = (before ++ obj :: after)%list
           /\ ObjName obj = dataName
           /\ Forall (fun o => ObjName o <> dataName) before
  | None =>
      (Forall (fun o => ObjName o <> dataName) availableData
       /\ result.2 = print ("ERROR: " ++ dataName ++ " was not loaded.") w)
      \/ (exists before obj after,
             availableData = (before ++ obj :: after)%list
             /\ ObjName obj = dataName
             /\ Forall (fun o => ObjName o <> dataName) before
             /\ InheritsFrom cls obj = false
             /\ result.2 = print ("ERROR: " ++ dataName ++ " is of type " ++ ClassName obj
                                    ++ " instead of " ++ cls ++ ".") w)
  end.
Proof.
  intros result. subst result. unfold GetDataClone.
  destruct (FindObject dataName availableData) as [obj|] eqn:Hfind.
  - destruct (FindObject_first _ _ _ Hfind) as (before & after & Hl & Hname & Hall).
    destruct (InheritsFrom cls obj) eqn:Hcls; simpl.
    + repeat split; [done|]. by exists before, after.
    + right. by exists before, obj, after.
  - simpl. left. split; [|done]. by apply FindObject_none.
Qed.
End GetDataCloneFacts.

(** ** GeneratePlot: every turn of the loop over the series *)

Section DataStepFacts.
Context `{Backend}.

Lemma GetDataClone_TH1_missing name availableData w :
  found_TH1 name availableData = None ->
  (GetDataClone_TH1 name availableData w).1 = None
  /\ gStyle (GetDataClone_TH1 name availableData w).2 = gStyle w
  /\ today (GetDataClone_TH1 name availableData w).2 = today w
  /\ exists msgs,
       cout (GetDataClone_TH1 name availableData w).2 = (cout w ++ msgs)%list
       /\ (known_classes availableData = true -> length msgs = 1%nat).
Proof.
  unfold found_TH1, GetDataClone_TH1, GetDataClone. intros Hnone.
  destruct (FindObject name availableData) as [obj|] eqn:Hfind.
  - destruct obj as [h|g|f|b|e|t|t|l|className name0]; try discriminate;
      [vm_compute; repeat split; try done; eexists (cons _ nil); by split ..|].
    cbn [InheritsFrom].
    destruct (String.eqb_spec "TH1" className) as [<-|Hne]; cbn [negb fst snd].
    + repeat split; try done. exists []. rewrite app_nil_r. split; [done|].
      intros Hknown. exfalso.
      destruct (FindObject_first _ _ _ Hfind) as (before & after & -> & _ & _).
      unfold known_classes in Hknown. rewrite forallb_app in Hknown.
      apply andb_true_iff in Hknown as [_ Hknown]. cbn [forallb] in Hknown.
      apply andb_true_iff in Hknown as [Hknown _].
      rewrite String.eqb_refl in Hknown. discriminate Hknown.
    + repeat split; try done. eexists (cons _ nil). by split.
  - simpl. repeat split; try done. eexists (cons _ nil). by split.
Qed.

Lemma GetDataClone_TGraph_found name availableData w g :
  found_TGraph name availableData = Some g ->
  GetDataClone_TGraph name availableData w = (Some g, w).
Proof.
  unfold found_TGraph, GetDataClone_TGraph, GetDataClone.
  destruct (FindObject name availableData) as [[]|]; try discriminate.
  intros [= ->]. reflexivity.
Qed.

Lemma GetDataClone_TGraph_missing name availableData w :
  found_TGraph name availableData = None ->
  (GetDataClone_TGraph name availableData w).1 = None
  /\ gStyle (GetDataClone_TGraph name availableData w).2 = gStyle w
  /\ today (GetDataClone_TGraph name availableData w).2 = today w
  /\ exists msgs,
       cout (GetDataClone_TGraph name availableData w).2 = (cout w ++ msgs)%list
       /\ (known_classes availableData = true -> length msgs = 1%nat).
Proof.
  unfold found_TGraph, GetDataClone_TGraph, GetDataClone. intros Hnone.
  destruct (FindObject name availableData) as [obj|] eqn:Hfind.
  - destruct obj as [[? ? [] ? ? ? ?]|g|f|b|e|t|t|l|className name0]; try discriminate;
      [vm_compute; repeat split; try done; eexists (cons _ nil); by split ..|].
    cbn [InheritsFrom].
    destruct (String.eqb_spec "TGraph" className) as [<-|Hne]; cbn [negb fst snd].
    + repeat split; try done. exists []. rewrite app_nil_r. split; [done|].
      intros Hknown. exfalso.
      destruct (FindObject_first _ _ _ Hfind) as (before & after & -> & _ & _).
      unfold known_classes in Hknown. rewrite forallb_app in Hknown.
      apply andb_true_iff in Hknown as [_ Hknown]. cbn [forallb] in Hknown.
      apply andb_true_iff in Hknown as [Hknown _].
      rewrite String.eqb_refl, andb_false_r in Hknown. discriminate Hknown.
    + repeat split; try done. eexists (cons _ nil). by split.
  - simpl. repeat split; try done. eexists (cons _ nil). by split.
Qed.

(** A setter leaves the other attributes as they are. *)
Lemma h_set_other k v h k' :
  k <> k' -> h_att (h_set k v h) !! k' = h_att h !! k'.
Proof. intros Hne. unfold h_set, set_reg. simpl. by apply lookup_insert_ne. Qed.

Lemma g_set_other k v g k' :
  k <> k' -> g_att (g_set k v g) !! k' = g_att g !! k'.
Proof. intros Hne. unfold g_set, set_reg. simpl. by apply lookup_insert_ne. Qed.

Lemma g_set_same k v g : g_att (g_set k v g) !! k = Some v.
Proof. unfold g_set, set_reg. simpl. apply lookup_insert_eq. Qed.

(** What [draw_hist] draws: at most the two TExec objects, then the
    histogram, with the colour it was given. *)
Lemma draw_hist_drawn controlString plotStyle data s w color style i opts cutHigh cutLow histo :
  let s' := draw_hist controlString plotStyle data s w color style i opts
                      cutHigh cutLow histo in
  exists execs r o pad' w',
    s' = finish_series data s (Draw (ObjTH1 r) o pad') w' i
    /\ forallb is_TExec execs = true
    /\ drawn pad' = (drawn (dl_pad s) ++ execs)%list
    /\ h_att r !! "MarkerColor" = Some (inject_Z color).
Proof.
  intros s'. subst s'. unfold draw_hist.
  match goal with
  | |- context [h_style style color ?h] =>
      destruct (h_style_att style color h) as (Hm0 & _); revert Hm0;
      generalize (h_style style color h)
  end.
  intros h0 Hm0.
  set (p1 := if h_isTH2 h0 then _ else _). clearbody p1. destruct p1 as [opts1 w1].
  set (p2 := if contains opts1 "none" then _ else _).
  assert (Hm2 : h_att p2.2 !! "MarkerColor" = Some (inject_Z color)).
  { subst p2. destruct (contains opts1 "none"); cbn [snd]; [|exact Hm0].
    by rewrite h_set_other. }
  clearbody p2. destruct p2 as [opts2 h2]. cbn [snd] in Hm2.
  set (p3 := if contains opts2 "hist" then _ else _).
  assert (Hp3 : h_att p3.1.2 !! "MarkerColor" = Some (inject_Z color)
                /\ exists execs, forallb is_TExec execs = true
                                 /\ drawn p3.2 = (drawn (dl_pad s) ++ execs)%list).
  { subst p3.
    destruct (contains opts2 "hist");
      [cbn [fst snd]; split; [exact Hm2|]; exists []; by rewrite app_nil_r|].
    destruct (contains opts2 "band");
      [cbn [fst snd]; split; [by rewrite !h_set_other|]; exists []; by rewrite app_nil_r|].
    destruct (contains opts2 "boxes");
      [|cbn [fst snd]; split; [exact Hm2|]; exists []; by rewrite app_nil_r].
    match goal with
    | |- context [boxes_option ?d ?o ?p] =>
        destruct (boxes_option_drawn d o p) as (execs & He & Hall & _);
        destruct (boxes_option d o p) as [opts' pad']
    end.
    cbn [fst snd] in *. split; [by rewrite h_set_other|]. by exists execs. }
  clearbody p3. destruct p3 as [[opts3 h3] pad3]. cbn [fst snd] in Hp3.
  destruct Hp3 as (Hm3 & execs & Hall & Hd).
  exists execs, h3, opts3, pad3, w1. by repeat split.
Qed.

(** What [draw_graph] draws: at most the two TExec objects, then the graph,
    with the colour it was given. *)
Lemma draw_graph_drawn padID data s w color style i opts cutHigh cutLow graph :
  let s' := draw_graph padID data s w color style i opts cutHigh cutLow graph in
  exists execs r o pad' w',
    s' = finish_series data s (Draw (ObjTGraph r) o pad') w' i
    /\ forallb is_TExec execs = true
    /\ drawn pad' = (drawn (dl_pad s) ++ execs)%list
    /\ g_att r !! "MarkerColor" = Some (inject_Z color).
Proof.
  intros s'. subst s'. unfold draw_graph.
  match goal with
  | |- context [g_set "LineColor" ?v (g_set "MarkerColor" ?c ?g)] =>
      assert (Hm0 : g_att (g_set "LineColor" v (g_set "MarkerColor" c g)) !! "MarkerColor"
                    = Some (inject_Z color))
        by (rewrite g_set_other by done; apply g_set_same);
      revert Hm0; generalize (g_set "LineColor" v (g_set "MarkerColor" c g))
  end.
  intros g0 Hm0.
  set (g1 := if padID =? 2 then _ else g0).
  assert (Hm1 : g_att g1 !! "MarkerColor" = Some (inject_Z color)).
  { subst g1. destruct (padID =? 2); [|exact Hm0]. by rewrite !g_set_other. }
  clearbody g1.
  match goal with
  | |- context [boxes_option ?d ?o ?p] =>
      destruct (boxes_option_drawn d o p) as (execs & He & Hall & _);
      destruct (boxes_option d o p) as [opts' pad']
  end.
  cbn [fst snd] in He.
  set (g2 := if contains _ "boxes" then _ else g1).
  assert (Hm2 : g_att g2 !! "MarkerColor" = Some (inject_Z color)).
  { subst g2. destruct (contains _ "boxes"); [|exact Hm1]. by rewrite g_set_other. }
  clearbody g2.
  exists execs, g2, (if i =? 0 then opts' ++ " AP" else opts'), pad', w.
  by repeat split.
Qed.

(** What [draw_ratio] draws, in the form of the last lines of the turn. *)
Lemma draw_ratio_finish plotStyle data s w color style i opts cutHigh cutLow ratio temp :
  exists added r o pad' i',
    draw_ratio plotStyle data s w color style i opts cutHigh cutLow ratio temp
    = finish_series data s (Draw (ObjTH1 r) o pad') w i'
    /\ drawn pad' = (drawn (dl_pad s) ++ added)%list.
Proof.
  unfold draw_ratio. destruct (Divide ratio temp) as [c e].
  unfold reference_line.
  repeat case_match; simplify_eq;
    match goal with
    | Hb : boxes_option ?d ?o ?p = _ |- _ =>
        destruct (boxes_option_drawn d o p) as (execs & He & _ & _);
        rewrite Hb in He; simpl in He
    end;
    eexists _, _, _, _, _; (split; [reflexivity|]);
    rewrite He, ?drawn_Draw, <- ?app_assoc; reflexivity.
Qed.

(** A series whose data are found reaches the last lines of the turn, with
    its object drawn on top of what the pad held. *)
Lemma data_step_found controlString plotStyle availableData padID s data :
  series_found availableData data = true ->
  exists added obj o pad' w' i',
    data_step controlString plotStyle availableData padID s data
    = finish_series data s (Draw obj o pad') w' i'
    /\ drawn pad' = (drawn (dl_pad s) ++ added)%list
    /\ InheritsFrom "TF1" obj = false.
Proof.
  unfold series_found, data_step. intros Hfound.
  destruct (ResolveStyle plotStyle data (dataIndex s)) as [[color style] i].
  destruct (Data.GetKind data) as [hi lo|hi lo denom|hi lo|ty]; [| | |discriminate].
  - apply bool_decide_eq_true in Hfound as [histo Hh].
    rewrite (GetDataClone_TH1_found _ _ _ _ Hh).
    match goal with
    | |- context [draw_hist ?a ?b ?c ?d ?e ?f ?g ?h ?k ?l ?m ?n] =>
        destruct (draw_hist_drawn a b c d e f g h k l m n)
        as (execs & r & o & pad' & w' & -> & _ & Hd & _)
    end.
    eexists _, _, _, _, _, _. split; [reflexivity|]. split; [exact Hd|].
    cbn [InheritsFrom]. by rewrite ?andb_false_r.
  - apply andb_true_iff in Hfound as [Hnum Hden].
    apply bool_decide_eq_true in Hnum as [ratio Hnum].
    apply bool_decide_eq_true in Hden as [temp Hden].
    rewrite (GetDataClone_TH1_found _ _ _ _ Hnum), (GetDataClone_TH1_found _ _ _ _ Hden).
    match goal with
    | |- context [draw_ratio ?a ?b ?c ?d ?e ?f ?g ?h ?k ?l ?m ?n] =>
        destruct (draw_ratio_finish a b c d e f g h k l m n)
        as (added & r & o & pad' & i' & -> & Hd)
    end.
    eexists _, _, _, _, _, _. split; [reflexivity|]. split; [exact Hd|].
    cbn [InheritsFrom]. by rewrite ?andb_false_r.
  - apply bool_decide_eq_true in Hfound as [graph Hg].
    rewrite (GetDataClone_TGraph_found _ _ _ _ Hg).
    match goal with
    | |- context [draw_graph ?a ?b ?c ?d ?e ?f ?g ?h ?k ?l ?m] =>
        destruct (draw_graph_drawn a b c d e f g h k l m)
        as (execs & r & o & pad' & w' & -> & _ & Hd & _)
    end.
    eexists _, _, _, _, _, _. split; [reflexivity|]. split; [exact Hd|].
    cbn [InheritsFrom]. by rewrite ?andb_false_r.
Qed.

(** A series whose data are not found leaves the pad and the records for
    the legend as they are. *)
Lemma data_step_not_found controlString plotStyle availableData padID s data :
  series_found availableData data = false ->
  let s' := data_step controlString plotStyle availableData padID s data in
  dl_pad s' = dl_pad s /\ lables s' = lables s
  /\ legendEntries s' = legendEntries s /\ errorStyles s' = errorStyles s
  /\ dataIndex s' = (ResolveStyle plotStyle data (dataIndex s)).2
  /\ drawingOptions s' = drawingOptions s ++ Data.GetDrawingOptions data.
Proof.
  unfold series_found, data_step. intros Hfound.
  destruct (ResolveStyle plotStyle data (dataIndex s)) as [[color style] i].
  destruct (Data.GetKind data) as [hi lo|hi lo denom|hi lo|ty]; [| | |done].
  - apply bool_decide_eq_false in Hfound.
    destruct (found_TH1 (Data.GetUniqueName data) availableData) eqn:Hh;
      [by destruct Hfound|].
    destruct (GetDataClone_TH1_missing _ _ (dl_world s) Hh) as (Hnone & _).
    destruct (GetDataClone_TH1 _ _ _) as [r w]. simpl in Hnone. by subst r.
  - destruct (GetDataClone_TH1 (Data.GetUniqueName data) _ _) as [ratio w] eqn:Hratio.
    destruct (GetDataClone_TH1 denom _ w) as [temp w'] eqn:Htemp.
    destruct ratio as [ratio|]; [|done]. destruct temp as [temp|]; [|done].
    exfalso. apply andb_false_iff in Hfound.
    destruct Hfound as [Hf|Hf]; apply bool_decide_eq_false in Hf; apply Hf.
    + destruct (found_TH1 (Data.GetUniqueName data) availableData) eqn:Hh; [done|].
      destruct (GetDataClone_TH1_missing _ _ (dl_world s) Hh) as (Hnone & _).
      rewrite Hratio in Hnone. discriminate.
    + destruct (found_TH1 denom availableData) eqn:Hh; [done|].
      destruct (GetDataClone_TH1_missing _ _ w Hh) as (Hnone & _).
      rewrite Htemp in Hnone. discriminate.
  - apply bool_decide_eq_false in Hfound.
    destruct (found_TGraph (Data.GetUniqueName data) availableData) eqn:Hg;
      [by destruct Hfound|].
    destruct (GetDataClone_TGraph_missing _ _ (dl_world s) Hg) as (Hnone & _).
    destruct (GetDataClone_TGraph _ _ _) as [r w]. simpl in Hnone. by subst r.
Qed.
End DataStepFacts.

(** ** GeneratePlot: the index from which a series is styled *)

Section StyleIndexFacts.
Context `{Backend}.

Lemma data_loop_cons controlString plotStyle availableData padID data datas s :
  data_loop controlString plotStyle availableData padID (data :: datas) s
  = data_loop controlString plotStyle availableData padID datas
              (data_step controlString plotStyle availableData padID s data).
Proof. reflexivity. Qed.

Lemma styled_with_h_set k v h color style :
  k <> "MarkerColor" -> k <> "MarkerStyle" ->
  styled_with color style (h_att h) -> styled_with color style (h_att (h_set k v h)).
Proof. intros Hc Hs [Hmc Hms]. split; by rewrite h_set_other. Qed.

Lemma styled_with_g_set k v g color style :
  k <> "MarkerColor" -> k <> "MarkerStyle" ->
  styled_with color style (g_att g) -> styled_with color style (g_att (g_set k v g)).
Proof. intros Hc Hs [Hmc Hms]. split; by rewrite g_set_other. Qed.

Lemma styled_with_h_style style color h :
  styled_with color style (h_att (h_style style color h)).
Proof. destruct (h_style_att style color h) as (Hmc & Hms & _). by split. Qed.

(** A histogram that was found is the last primitive of the pad, with the
    colour and the marker it was given; the index moves on by one. *)
Lemma draw_hist_styled controlString plotStyle data s w color style i opts
      cutHigh cutLow histo :
  let s' := draw_hist controlString plotStyle data s w color style i opts
                      cutHigh cutLow histo in
  exists r o,
    last (drawn (dl_pad s')) = Some (ObjTH1 r, o)
    /\ styled_with color style (h_att r)
    /\ dataIndex s' = i + 1.
Proof.
  intros s'. subst s'. unfold draw_hist.
  match goal with
  | |- context [h_style style color ?h] =>
      pose proof (styled_with_h_style style color h) as Hm0; revert Hm0;
      generalize (h_style style color h)
  end.
  intros h0 Hm0.
  set (p1 := if h_isTH2 h0 then _ else _). clearbody p1. destruct p1 as [opts1 w1].
  set (p2 := if contains opts1 "none" then _ else _).
  assert (Hm2 : styled_with color style (h_att p2.2)).
  { subst p2. destruct (contains opts1 "none"); cbn [snd]; [|exact Hm0].
    by apply styled_with_h_set. }
  clearbody p2. destruct p2 as [opts2 h2]. cbn [snd] in Hm2.
  set (p3 := if contains opts2 "hist" then _ else _).
  assert (Hm3 : styled_with color style (h_att p3.1.2)).
  { subst p3.
    destruct (contains opts2 "hist"); [exact Hm2|].
    destruct (contains opts2 "band");
      [cbn [fst snd]; by repeat apply styled_with_h_set|].
    destruct (contains opts2 "boxes"); [|exact Hm2].
    destruct (boxes_option _ _ _) as [opts' pad']. cbn [fst snd].
    by apply styled_with_h_set. }
  clearbody p3. destruct p3 as [[opts3 h3] pad3]. cbn [fst snd] in Hm3.
  exists h3, opts3.
  by rewrite finish_series_pad, finish_series_dataIndex, drawn_Draw, last_snoc.
Qed.

(** The same for a graph. *)
Lemma draw_graph_styled padID data s w color style i opts cutHigh cutLow graph :
  let s' := draw_graph padID data s w color style i opts cutHigh cutLow graph in
  exists r o,
    last (drawn (dl_pad s')) = Some (ObjTGraph r, o)
    /\ styled_with color style (g_att r)
    /\ dataIndex s' = i + 1.
Proof.
  intros s'. subst s'. unfold draw_graph.
  match goal with
  | |- context [g_set "LineColor" ?v (g_set "MarkerColor" ?c (g_set "MarkerStyle" ?m ?g))] =>
      assert (Hm0 : styled_with color style
                      (g_att (g_set "LineColor" v
                                (g_set "MarkerColor" c (g_set "MarkerStyle" m g)))))
        by (split; [rewrite g_set_other by done; apply g_set_same
                   |rewrite !g_set_other by done; apply g_set_same]);
      revert Hm0;
      generalize (g_set "LineColor" v (g_set "MarkerColor" c (g_set "MarkerStyle" m g)))
  end.
  intros g0 Hm0.
  set (g1 := if padID =? 2 then _ else g0).
  assert (Hm1 : styled_with color style (g_att g1)).
  { subst g1. destruct (padID =? 2); [|exact Hm0]. by repeat apply styled_with_g_set. }
  clearbody g1.
  destruct (boxes_option _ _ _) as [opts' pad'].
  set (g2 := if contains _ "boxes" then _ else g1).
  assert (Hm2 : styled_with color style (g_att g2)).
  { subst g2. destruct (contains _ "boxes"); [|exact Hm1]. by apply styled_with_g_set. }
  clearbody g2.
  exists g2, (if i =? 0 then opts' ++ " AP" else opts').
  by rewrite finish_series_pad, finish_series_dataIndex, drawn_Draw, last_snoc.
Qed.

(** A ratio is styled with what the turn resolved, but for the
    one-dimensional ratio met at index 0: after the line at 1 the index is
    1, and colour and marker are read again there, as they are. *)
Lemma draw_ratio_styled plotStyle data s w color style i opts cutHigh cutLow ratio temp :
  let s' := draw_ratio plotStyle data s w color style i opts cutHigh cutLow ratio temp in
  exists r o,
    last (drawn (dl_pad s')) = Some (ObjTH1 r, o)
    /\ if negb (h_isTH2 ratio) && (i =? 0)
       then styled_with (color_at plotStyle data 1) (marker_at plotStyle data 1) (h_att r)
            /\ dataIndex s' = 2
       else styled_with color style (h_att r) /\ dataIndex s' = i + 1.
Proof.
  intros s'. subst s'. unfold draw_ratio.
  destruct (Divide ratio temp) as [c e].
  set (ratio0 := h_with_att _ (h_with_title "" (CutHistogram _ cutHigh cutLow))).
  assert (Hdim : h_isTH2 ratio0 = h_isTH2 ratio)
    by (subst ratio0; simpl; by rewrite CutHistogram_isTH2).
  rewrite Hdim. destruct (h_isTH2 ratio); cbn [negb andb].
  - destruct (boxes_option _ _ _) as [opts' pad'].
    eexists _, _.
    rewrite finish_series_pad, finish_series_dataIndex, drawn_Draw, last_snoc.
    split; [reflexivity|]. split; [apply styled_with_h_style|reflexivity].
  - unfold reference_line. destruct (Z.eqb_spec i 0) as [->|Hi].
    + destruct (boxes_option _ _ _) as [opts' pad'].
      eexists _, _.
      rewrite finish_series_pad, finish_series_dataIndex, drawn_Draw, last_snoc.
      split; [reflexivity|]. split; [apply styled_with_h_style|reflexivity].
    + destruct (boxes_option _ _ _) as [opts' pad'].
      eexists _, _.
      rewrite finish_series_pad, finish_series_dataIndex, drawn_Draw, last_snoc.
      split; [reflexivity|]. split; [apply styled_with_h_style|reflexivity].
Qed.

(** One turn of the loop for a series whose data are found: the object
    drawn last, its colour and marker, and the index handed on. *)
Lemma data_step_styled controlString plotStyle availableData padID s data :
  series_found availableData data = true ->
  let s' := data_step controlString plotStyle availableData padID s data in
  let resolved := ResolveStyle plotStyle data (dataIndex s) in
  exists obj o,
    last (drawn (dl_pad s')) = Some (obj, o)
    /\ if ratio_1D_found availableData data && (resolved.2 =? 0)
       then styled_with (color_at plotStyle data 1) (marker_at plotStyle data 1)
                        (obj_att obj)
            /\ dataIndex s' = 2
       else styled_with resolved.1.1 resolved.1.2 (obj_att obj)
            /\ dataIndex s' = resolved.2 + 1.
Proof.
  unfold series_found, ratio_1D_found, ratio_found, data_step. intros Hfound. cbv zeta.
  destruct (ResolveStyle plotStyle data (dataIndex s)) as [[color style] i].
  cbn [fst snd].
  destruct (Data.GetKind data) as [hi lo|hi lo denom|hi lo|ty]; [| | |discriminate].
  - apply bool_decide_eq_true in Hfound as [histo Hh].
    rewrite (GetDataClone_TH1_found _ _ _ _ Hh). cbn [andb].
    match goal with
    | |- context [draw_hist ?a ?b ?c ?d ?e ?f ?g ?h ?k ?l ?m ?n] =>
        destruct (draw_hist_styled a b c d e f g h k l m n) as (r & o & Hlast & Hst & Hi)
    end.
    by exists (ObjTH1 r), o.
  - apply andb_true_iff in Hfound as [Hnum Hden].
    apply bool_decide_eq_true in Hnum as [ratio Hnum].
    apply bool_decide_eq_true in Hden as [temp Hden].
    rewrite (GetDataClone_TH1_found _ _ _ _ Hnum), (GetDataClone_TH1_found _ _ _ _ Hden).
    rewrite Hnum, Hden.
    match goal with
    | |- context [draw_ratio ?a ?b ?c ?d ?e ?f ?g ?h ?k ?l ?m ?n] =>
        destruct (draw_ratio_styled a b c d e f g h k l m n) as (r & o & Hlast & Hst)
    end.
    by exists (ObjTH1 r), o.
  - apply bool_decide_eq_true in Hfound as [graph Hg].
    rewrite (GetDataClone_TGraph_found _ _ _ _ Hg). cbn [andb].
    match goal with
    | |- context [draw_graph ?a ?b ?c ?d ?e ?f ?g ?h ?k ?l ?m] =>
        destruct (draw_graph_styled a b c d e f g h k l m) as (r & o & Hlast & Hst & Hi)
    end.
    by exists (ObjTGraph r), o.
Qed.

(** Without a negative colour the style is taken at the running index,
    which stays. *)
Lemma ResolveStyle_not_negative plotStyle data i :
  0 <= PlotStyle.GetDefaultColor plotStyle i -> 0 <= Data.GetColor data ->
  (ResolveStyle plotStyle data i).2 = i
  /\ (ResolveStyle plotStyle data i).1.1 = color_at plotStyle data i
  /\ (0 <= marker_at plotStyle data i ->
      (ResolveStyle plotStyle data i).1.2 = marker_at plotStyle data i).
Proof.
  intros Hdefault Hcolor. unfold ResolveStyle, color_at, marker_at.
  set (color := if Data.GetColor data =? 0 then _ else _).
  set (style := if Data.GetStyle data =? 0 then _ else _).
  assert (Hc : 0 <= color) by (subst color; destruct (Data.GetColor data =? 0); [apply Hdefault|lia]).
  destruct (Z.ltb_spec color 0); [lia|]. cbn [fst snd].
  split; [done|]. split; [done|]. intros Hstyle.
  by destruct (Z.ltb_spec style 0); [lia|].
Qed.

Lemma ratio_1D_found_series_found availableData data :
  ratio_1D_found availableData data = true -> series_found availableData data = true.
Proof.
  unfold ratio_1D_found, ratio_found, series_found.
  destruct (Data.GetKind data) as [| hi lo denom | |]; try discriminate.
  destruct (found_TH1 (Data.GetUniqueName data) availableData); [|discriminate].
  destruct (found_TH1 denom availableData); [|discriminate].
  intros _. apply andb_true_iff. split; apply bool_decide_eq_true; by eexists.
Qed.

(** Past index 0, and without negative colours, the running index counts
    the series that are drawn. *)
Lemma data_loop_index controlString plotStyle availableData padID datas :
  (forall i, 0 <= PlotStyle.GetDefaultColor plotStyle i) ->
  Forall (fun data => 0 <= Data.GetColor data) datas ->
  forall s, 1 <= dataIndex s ->
    dataIndex (data_loop controlString plotStyle availableData padID datas s)
    = dataIndex s + Z.of_nat (length (List.filter (series_found availableData) datas)).
Proof.
  intros Hdefault Hall. induction Hall as [|data datas Hdata Hall IH]; intros s Hs.
  - cbn. lia.
  - rewrite data_loop_cons. cbn [List.filter].
    destruct (ResolveStyle_not_negative plotStyle data (dataIndex s) (Hdefault _) Hdata)
      as (Hi & _).
    destruct (series_found availableData data) eqn:Hfound.
    + destruct (data_step_styled controlString plotStyle availableData padID s data Hfound)
        as (obj & o & _ & Hst).
      cbv zeta in Hst. rewrite Hi in Hst.
      destruct (Z.eqb_spec (dataIndex s) 0) as [|_]; [lia|].
      rewrite andb_false_r in Hst. destruct Hst as [_ Hnext].
      rewrite IH by lia. rewrite Hnext. cbn [length]. lia.
    + destruct (data_step_not_found controlString plotStyle availableData padID s data
                  Hfound) as (_ & _ & _ & _ & Hnext & _).
      rewrite IH by (rewrite Hnext, Hi; lia). rewrite Hnext, Hi. lia.
Qed.

(** C1 (as amended): a series that is resolved at the running index [i]
    with the explicit colour [-k], [1 <= k <= i], takes the default colour
    of index [i - k]; that is the colour which a series without explicit
    colour takes at index [i - k] when that default is not negative. The
    resolution moves the running index itself to [i - k]. A series whose
    data are missing draws nothing and leaves the index at [i - k]. A
    series that is drawn (a histogram, a graph, a two-dimensional ratio, or
    a one-dimensional ratio with [k < i]) has that colour as its marker
    colour and hands the index [i - k + 1] to the series after it. The
    exception is the one-dimensional ratio with [k = i], which is resolved
    at index 0: after the line at 1 its colour is read again, as the
    explicit value [-k] itself, and the index handed on is 2. *)
Theorem negative_color_moves_index
        controlString plotStyle availableData padID s data k :
  1 <= k <= dataIndex s ->
  Data.GetColor data = - k ->
  let i := dataIndex s in
  let s' := data_step controlString plotStyle availableData padID s data in
  (ResolveStyle plotStyle data i).1.1 = PlotStyle.GetDefaultColor plotStyle (i - k)
  /\ (0 <= PlotStyle.GetDefaultColor plotStyle (i - k) ->
      forall data0, Data.GetColor data0 = 0 ->
        (ResolveStyle plotStyle data0 (i - k)).1.1 = (ResolveStyle plotStyle data i).1.1)
  /\ (ResolveStyle plotStyle data i).2 = i - k
  /\ (series_found availableData data = false ->
      dl_pad s' = dl_pad s /\ dataIndex s' = i - k)
  /\ (series_found availableData data = true ->
      exists obj o,
        last (drawn (dl_pad s')) = Some (obj, o)
        /\ if ratio_1D_found availableData data && (k =? i)
           then obj_att obj !! "MarkerColor" = Some (inject_Z (- k))
                /\ dataIndex s' = 2
           else obj_att obj !! "MarkerColor"
                = Some (inject_Z (PlotStyle.GetDefaultColor plotStyle (i - k)))
                /\ dataIndex s' = i - k + 1).
Proof.
  intros Hk Hcolor i s'.
  assert (Hres : exists style,
             ResolveStyle plotStyle data i
             = (PlotStyle.GetDefaultColor plotStyle (i - k), style, i - k)).
  { unfold ResolveStyle. rewrite Hcolor.
    destruct (Z.eqb_spec (- k) 0) as [Hz|_]; [lia|].
    destruct (Z.ltb_spec (- k) 0) as [_|Hge]; [|lia].
    replace (i + - k) with (i - k) by lia. eauto. }
  destruct Hres as [style Hres].
  split; [by rewrite Hres|]. split; [|split; [by rewrite Hres|split]].
  - intros Hpos data0 Hnone. rewrite Hres. unfold ResolveStyle. rewrite Hnone. simpl.
    destruct (Z.ltb_spec (PlotStyle.GetDefaultColor plotStyle (i - k)) 0); [lia|].
    reflexivity.
  - intros Hfound.
    destruct (data_step_not_found controlString plotStyle availableData padID s data
                Hfound) as (Hpad & _ & _ & _ & Hnext & _).
    fold i in Hnext. rewrite Hres in Hnext. by split.
  - intros Hfound.
    destruct (data_step_styled controlString plotStyle availableData padID s data Hfound)
      as (obj & o & Hlast & Hst).
    cbv zeta in Hst. fold i in Hst. rewrite Hres in Hst. cbn [fst snd] in Hst.
    exists obj, o. split; [exact Hlast|].
    assert (Hindex : (i - k =? 0) = (k =? i)).
    { destruct (Z.eqb_spec (i - k) 0), (Z.eqb_spec k i); lia. }
    rewrite Hindex in Hst.
    destruct (ratio_1D_found availableData data && (k =? i)).
    + destruct Hst as [[Hmc _] Hnext]. split; [|exact Hnext].
      rewrite Hmc. unfold color_at. rewrite Hcolor.
      by destruct (Z.eqb_spec (- k) 0) as [Hz|_]; [lia|].
    + destruct Hst as [[Hmc _] Hnext]. by split.
Qed.

(** C4 (as amended): (1) when a one-dimensional ratio is resolved while
    the running index of the pad is 0, as it is for the first series of a
    pad when its colour is not negative, an axis frame and a flat line at
    1, coloured black, are drawn before the ratio, the ratio is styled from
    index 1 and the next series starts at index 2; (2) so in a pad whose
    first series is a one-dimensional ratio with its histograms found, and
    where no colour, explicit or default, is negative, every series that is
    drawn, of whatever kind, is styled from the index one above the number
    of series drawn before it (which is its position in the Data sequence
    when all of these had their data): it has the colour of that index,
    and the marker of that index when this marker is not negative, and it
    hands on the index after that; (3) for a two-dimensional ratio the
    viewing angles of the pad are set (theta 49.5, phi 230) and nothing
    but the ratio (and the TExec objects of the "boxes" option) is
    drawn. *)
Theorem ratio_reference_line controlString plotStyle availableData padID :
  (forall s data,
      ratio_1D_found availableData data = true ->
      (ResolveStyle plotStyle data (dataIndex s)).2 = 0 ->
      let s' := data_step controlString plotStyle availableData padID s data in
      exists dummy execs r o,
        drawn (dl_pad s')
        = (drawn (dl_pad s)
           ++ [(ObjTH1 dummy, "AXIS"); (ObjTF1 (theLine dummy), "SAME")]
           ++ execs ++ [(ObjTH1 r, o)])%list
        /\ forallb is_TExec execs = true
        /\ f_formula (theLine dummy) = "1"
        /\ f_att (theLine dummy) !! "LineColor" = Some kBlack
        /\ h_att r !! "MarkerColor" = Some (inject_Z (color_at plotStyle data 1))
        /\ h_att r !! "MarkerStyle" = Some (inject_Z (marker_at plotStyle data 1))
        /\ dataIndex s' = 2)
  /\ (forall pad w datas first,
        datas !! 0%nat = Some first ->
        ratio_1D_found availableData first = true ->
        (forall i, 0 <= PlotStyle.GetDefaultColor plotStyle i) ->
        Forall (fun data => 0 <= Data.GetColor data) datas ->
        forall j data,
          datas !! j = Some data ->
          series_found availableData data = true ->
          let before := data_loop controlString plotStyle availableData padID
                                  (take j datas) (start_loop pad w) in
          let after := data_step controlString plotStyle availableData padID before data in
          let index := drawn_before availableData datas j + 1 in
          exists obj o,
            last (drawn (dl_pad after)) = Some (obj, o)
            /\ obj_att obj !! "MarkerColor"
               = Some (inject_Z (color_at plotStyle data index))
            /\ (0 <= marker_at plotStyle data index ->
                obj_att obj !! "MarkerStyle"
                = Some (inject_Z (marker_at plotStyle data index)))
            /\ dataIndex after = index + 1)
  /\ (forall s data,
        ratio_2D_found availableData data = true ->
        let s' := data_step controlString plotStyle availableData padID s data in
        exists execs r o,
          drawn (dl_pad s') = (drawn (dl_pad s) ++ execs ++ [(ObjTH1 r, o)])%list
          /\ forallb is_TExec execs = true
          /\ pad_att (dl_pad s') !! "Theta" = Some 49.5%Q
          /\ pad_att (dl_pad s') !! "Phi" = Some 230%Q).
Proof.
  split; [|split].
  - intros s data Hfound Hindex s'. unfold ratio_1D_found in Hfound.
    destruct (ratio_found availableData data) as [ratio|] eqn:Hratio; [|discriminate].
    apply negb_true_iff in Hfound.
    destruct (data_step_ratio controlString plotStyle availableData padID s data ratio
                              Hratio) as (cutHigh & cutLow & temp & Hstep).
    subst s'. rewrite Hstep, Hindex.
    match goal with
    | |- context [draw_ratio ?a ?b ?c ?d ?e ?f ?g ?h ?k ?l ?m ?n] =>
        destruct (draw_ratio_drawn a b c d e f g h k l m n)
        as (execs & r & o & Hexecs & Hdrawn)
    end.
    rewrite Hfound in Hdrawn. simpl in Hdrawn.
    destruct Hdrawn as ([dummy Hd] & Hmc & Hms & Hi).
    exists dummy, execs, r, o. destruct (theLine_black dummy) as [Hformula Hblack].
    repeat split; assumption.
  - intros pad w datas first Hfirst Hratio Hdefault Hcolors j data Hj Hfound
           before after index.
    destruct datas as [|first' rest]; [discriminate|]. injection Hfirst as ->.
    apply Forall_cons in Hcolors as [Hcolor Hcolors].
    (* the turn of the first series *)
    destruct (ResolveStyle_not_negative plotStyle first 0 (Hdefault _) Hcolor)
      as (Hi0 & _).
    pose proof (ratio_1D_found_series_found _ _ Hratio) as Hfound0.
    destruct (data_step_styled controlString plotStyle availableData padID
                (start_loop pad w) first Hfound0) as (obj0 & o0 & Hlast0 & Hst0).
    cbv zeta in Hst0. change (dataIndex (start_loop pad w)) with 0 in Hst0.
    rewrite Hi0, Hratio in Hst0. cbn [andb Z.eqb] in Hst0.
    destruct Hst0 as [[Hmc0 Hms0] Hnext0].
    destruct j as [|j].
    + injection Hj as <-. subst index. unfold drawn_before. cbn [take List.filter length].
      exists obj0, o0. by repeat split.
    + cbn [lookup list_lookup] in Hj.
      assert (Hbefore : dataIndex before = index).
      { subst before index. unfold drawn_before. cbn [take]. rewrite data_loop_cons.
        rewrite data_loop_index; [|done|by apply Forall_take|lia].
        cbn [List.filter]. rewrite Hfound0, Hnext0. cbn [length]. lia. }
      assert (Hindex : 2 <= index).
      { subst index. unfold drawn_before. cbn [take List.filter].
        rewrite Hfound0. cbn [length]. lia. }
      assert (Hdata : 0 <= Data.GetColor data).
      { rewrite Forall_forall in Hcolors. apply Hcolors.
        by eapply list_elem_of_lookup_2. }
      destruct (ResolveStyle_not_negative plotStyle data index (Hdefault _) Hdata)
        as (Hi & Hc & Hm).
      destruct (data_step_styled controlString plotStyle availableData padID before data
                                 Hfound) as (obj & o & Hlast & Hst).
      cbv zeta in Hst. rewrite Hbefore, Hi in Hst.
      destruct (Z.eqb_spec index 0) as [|_]; [lia|].
      rewrite andb_false_r in Hst. destruct Hst as [[Hmc Hms] Hnext].
      exists obj, o. split; [exact Hlast|]. split; [by rewrite Hmc, Hc|].
      split; [|exact Hnext]. intros Hmarker. by rewrite Hms, Hm.
  - intros s data Hfound s'. unfold ratio_2D_found in Hfound.
    destruct (ratio_found availableData data) as [ratio|] eqn:Hratio; [|discriminate].
    destruct (data_step_ratio controlString plotStyle availableData padID s data ratio
                              Hratio) as (cutHigh & cutLow & temp & Hstep).
    subst s'. rewrite Hstep.
    match goal with
    | |- context [draw_ratio ?a ?b ?c ?d ?e ?f ?g ?h ?k ?l ?m ?n] =>
        destruct (draw_ratio_drawn a b c d e f g h k l m n)
        as (execs & r & o & Hexecs & Hdrawn)
    end.
    rewrite Hfound in Hdrawn. destruct Hdrawn as (Hd & Htheta & Hphi & _).
    by exists execs, r, o.
Qed.
End StyleIndexFacts.

Lemma negative_color_moves_index_witness :
  let s := @data_loop test_backend "" test_style test_data 1
             [hist_series "A" 0 "" ""; hist_series "B" 0 "" ""]
             (start_loop test_pad test_world) in
  let s' := @data_step test_backend "" test_style test_data 1 s
              (hist_series "C" (-1) "" "") in
  (ResolveStyle test_style (hist_series "C" (-1) "" "") (dataIndex s)).1.1 = 4
  /\ dataIndex s' = 2.
Proof.
  intros s s'.
  destruct (@negative_color_moves_index test_backend "" test_style test_data 1
              s (hist_series "C" (-1) "" "") 1)
    as (Hcolor & _ & _ & _ & Hdrawn).
  - vm_compute. split; discriminate.
  - reflexivity.
  - split; [exact Hcolor|].
    destruct (Hdrawn eq_refl) as (obj & o & _ & _ & Hnext). exact Hnext.
Defined.

Lemma ratio_reference_line_witness :
  let series := [ratio_series "A" "B" 0 ""; hist_series "X" 0 "" "";
                 hist_series "D" 0 "" ""; ratio_series "C" "B" 0 ""] in
  let before := @data_loop test_backend "" test_style test_data 1
                           (take 3 series) (start_loop test_pad test_world) in
  let after := @data_step test_backend "" test_style test_data 1 before
                          (ratio_series "C" "B" 0 "") in
  dataIndex (@data_step test_backend "" test_style test_data 1
                        (start_loop test_pad test_world) (ratio_series "A" "B" 0 "")) = 2
  /\ exists obj o,
       last (drawn (dl_pad after)) = Some (obj, o)
       /\ obj_att obj !! "MarkerColor"
          = Some (inject_Z (PlotStyle.GetDefaultColor test_style 3))
       /\ dataIndex after = 4.
Proof.
  intros series before after.
  destruct (@ratio_reference_line test_backend "" test_style test_data 1)
    as (Hfirst & Hlater & _).
  split.
  - destruct (Hfirst (start_loop test_pad test_world) (ratio_series "A" "B" 0 "")
                     eq_refl eq_refl) as (dummy & execs & r & o & _ & _ & _ & _ & _ & _ & Hi).
    exact Hi.
  - assert (Hcolors : Forall (fun data => 0 <= Data.GetColor data) series).
    { repeat (constructor; [simpl; lia|]). constructor. }
    destruct (Hlater test_pad test_world series (ratio_series "A" "B" 0 "")
                     eq_refl eq_refl test_style_colors_not_negative Hcolors
                     3%nat (ratio_series "C" "B" 0 "") eq_refl eq_refl)
      as (obj & o & Hlast & Hmc & _ & Hnext).
    exists obj, o. split; [exact Hlast|]. split; [exact Hmc|exact Hnext].
Defined.

(** ** GeneratePlot: the loop over the series of a pad, as a whole *)

Section SeriesLoopFacts.
Context `{Backend}.

(** X2: a series whose data are missing (not loaded, of another class, or
    of an unknown type) is skipped: nothing is drawn and nothing is recorded
    for the legend. The turn is left by [continue], after the style was
    resolved and the drawing options were appended: the running index is
    not advanced by one (but keeps the move of a negative colour), and the
    drawing options of the skipped series stay in front of those of the
    next series instead of being reset to "EP SAME". The global style is
    not touched and messages are only added to the console, one or two of
    them when the available data hold histograms and graphs as such. *)
Theorem missing_series_skipped controlString plotStyle availableData padID s data :
  series_found availableData data = false ->
  let s' := data_step controlString plotStyle availableData padID s data in
  dl_pad s' = dl_pad s
  /\ lables s' = lables s /\ legendEntries s' = legendEntries s
  /\ errorStyles s' = errorStyles s
  /\ dataIndex s' = (ResolveStyle plotStyle data (dataIndex s)).2
  /\ drawingOptions s' = drawingOptions s ++ Data.GetDrawingOptions data
  /\ gStyle (dl_world s') = gStyle (dl_world s)
  /\ exists msgs,
       cout (dl_world s') = (cout (dl_world s) ++ msgs)%list
       /\ (known_classes availableData = true -> (1 <= length msgs <= 2)%nat).
Proof.
  intros Hfound s'.
  destruct (data_step_not_found controlString plotStyle availableData padID s data Hfound)
    as (Hp & Hl & He & Hs & Hi & Ho).
  repeat (split; [assumption|]).
  subst s'. clear Hp Hl He Hs Hi Ho.
  unfold series_found in Hfound. unfold data_step.
  destruct (ResolveStyle plotStyle data (dataIndex s)) as [[color style] i].
  destruct (Data.GetKind data) as [hi lo|hi lo denom|hi lo|ty].
  - apply bool_decide_eq_false in Hfound.
    destruct (found_TH1 (Data.GetUniqueName data) availableData) eqn:Hh;
      [by destruct Hfound|].
    destruct (GetDataClone_TH1_missing _ _ (dl_world s) Hh)
      as (Hnone & Hg & _ & msgs & Hc & Hlen).
    destruct (GetDataClone_TH1 _ _ _) as [r w]. simpl in *. subst r. simpl.
    split; [done|]. exists msgs. split; [done|]. intros Hk. rewrite (Hlen Hk). lia.
  - destruct (found_TH1 (Data.GetUniqueName data) availableData) as [ratio|] eqn:Hnum.
    + rewrite (GetDataClone_TH1_found _ _ _ _ Hnum).
      destruct (found_TH1 denom availableData) as [temp|] eqn:Hden.
      { exfalso. rewrite andb_false_iff in Hfound.
        destruct Hfound as [Hf|Hf]; apply bool_decide_eq_false in Hf; by destruct Hf. }
      destruct (GetDataClone_TH1_missing _ _ (dl_world s) Hden)
        as (Hnone & Hg & _ & msgs & Hc & Hlen).
      destruct (GetDataClone_TH1 denom _ _) as [r w]. simpl in *. subst r. simpl.
      split; [done|]. exists msgs. split; [done|]. intros Hk. rewrite (Hlen Hk). lia.
    + destruct (GetDataClone_TH1_missing _ _ (dl_world s) Hnum)
        as (Hnone & Hg & _ & msgs & Hc & Hlen).
      destruct (GetDataClone_TH1 (Data.GetUniqueName data) _ _) as [r w].
      simpl in Hnone, Hg, Hc. subst r.
      destruct (found_TH1 denom availableData) as [temp|] eqn:Hden.
      * rewrite (GetDataClone_TH1_found _ _ _ _ Hden). simpl.
        split; [done|]. exists msgs. split; [done|]. intros Hk. rewrite (Hlen Hk). lia.
      * destruct (GetDataClone_TH1_missing _ _ w Hden)
          as (_ & Hg' & _ & msgs' & Hc' & Hlen').
        destruct (GetDataClone_TH1 denom _ _) as [r' w']. simpl in Hg', Hc'.
        assert (Hw : gStyle w' = gStyle (dl_world s)
                     /\ cout w' = (cout (dl_world s) ++ msgs ++ msgs')%list).
        { split; [congruence|]. rewrite Hc', Hc. by rewrite app_assoc. }
        destruct Hw as [Hw1 Hw2].
        destruct r'; simpl; (split; [done|]); exists (msgs ++ msgs')%list;
          (split; [done|]); intros Hk; rewrite length_app, (Hlen Hk), (Hlen' Hk); lia.
  - apply bool_decide_eq_false in Hfound.
    destruct (found_TGraph (Data.GetUniqueName data) availableData) eqn:Hg0;
      [by destruct Hfound|].
    destruct (GetDataClone_TGraph_missing _ _ (dl_world s) Hg0)
      as (Hnone & Hg & _ & msgs & Hc & Hlen).
    destruct (GetDataClone_TGraph _ _ _) as [r w]. simpl in *. subst r. simpl.
    split; [done|]. exists msgs. split; [done|]. intros Hk. rewrite (Hlen Hk). lia.
  - simpl. split; [done|]. eexists (cons _ nil). split; [done|]. simpl. lia.
Qed.

(** Over the whole loop the pad only gains primitives. *)
Lemma data_loop_drawn controlString plotStyle availableData padID datas s :
  exists added,
    drawn (dl_pad (data_loop controlString plotStyle availableData padID datas s))
    = (drawn (dl_pad s) ++ added)%list.
Proof.
  revert s. induction datas as [|data datas IH]; intros s.
  - exists []. by rewrite app_nil_r.
  - rewrite data_loop_cons.
    destruct (IH (data_step controlString plotStyle availableData padID s data))
      as (added & ->).
    destruct (series_found availableData data) eqn:Hfound.
    + destruct (data_step_found controlString plotStyle availableData padID s data Hfound)
        as (added' & obj & o & pad' & w' & i' & -> & Hd & _).
      rewrite finish_series_pad, drawn_Draw, Hd, <- !app_assoc. by eexists.
    + destruct (data_step_not_found controlString plotStyle availableData padID s data Hfound)
        as (-> & _). by eexists.
Qed.

(** X3: what the loop over the series records for the legend. The labels
    and the drawing options recorded are those of the series that were
    drawn and have a label, in the order of the series; there is one legend
    entry for each of them, every entry is an object drawn in the pad, and
    no entry is a TF1. *)
Theorem legend_records_in_order controlString plotStyle availableData padID datas s :
  let s' := data_loop controlString plotStyle availableData padID datas s in
  let recorded := List.filter (labelled_found availableData) datas in
  lables s' = (lables s ++ map Data.GetLable recorded)%list
  /\ errorStyles s' = (errorStyles s ++ map Data.GetDrawingOptions recorded)%list
  /\ exists entries,
       legendEntries s' = (legendEntries s ++ entries)%list
       /\ length entries = length recorded
       /\ Forall (fun o => In o (map fst (drawn (dl_pad s')))
                           /\ InheritsFrom "TF1" o = false) entries.
Proof.
  revert s. induction datas as [|data datas IH]; intros s.
  - simpl. rewrite !app_nil_r. repeat split. exists []. by rewrite app_nil_r.
  - cbn zeta. rewrite data_loop_cons.
    set (s1 := data_step controlString plotStyle availableData padID s data).
    destruct (IH s1) as (Hl & Hs & entries & He & Hlen & Hall). cbn zeta in *.
    destruct (data_loop_drawn controlString plotStyle availableData padID datas s1)
      as (later & Hlater).
    rewrite Hl, Hs, He. cbn [List.filter].
    assert (Hlf : labelled_found availableData data
                  = series_found availableData data
                    && negb (String.eqb (Data.GetLable data) "")) by reflexivity.
    destruct (series_found availableData data) eqn:Hfound.
    + destruct (data_step_found controlString plotStyle availableData padID s data Hfound)
        as (added & obj & o & pad' & w' & i' & Hstep & Hd & Hcls).
      fold s1 in Hstep.
      destruct (finish_series_records data s obj o pad' w' i')
        as [(Hl1 & He1 & Hs1 & Hempty)|(Hne & Hl1 & He1 & Hs1)];
        rewrite <- Hstep in Hl1, He1, Hs1; rewrite Hl1, He1, Hs1.
      * rewrite Hempty in Hlf. rewrite Hlf. repeat split. by exists entries.
      * apply String.eqb_neq in Hne. rewrite Hne in Hlf. rewrite Hlf. cbn [map].
        rewrite <- !app_assoc. repeat split.
        exists (obj :: entries). repeat split; [simpl; by rewrite Hlen|].
        constructor; [|done]. split; [|done].
        rewrite Hlater, Hstep, finish_series_pad, drawn_Draw, !map_app.
        apply in_or_app. left. apply in_or_app. right. by left.
    + destruct (data_step_not_found controlString plotStyle availableData padID s data Hfound)
        as (_ & Hl1 & He1 & Hs1 & _).
      fold s1 in Hl1, He1, Hs1. rewrite Hl1, He1, Hs1, Hlf.
      repeat split. by exists entries.
Qed.

(** The TExec objects have no marker. *)
Lemma omap_execs {B} (f : TObject * string -> option B) (l : list (TObject * string)) :
  (forall d, is_TExec d = true -> f d = None) ->
  forallb is_TExec l = true -> @omap list list_omap _ _ f l = [].
Proof.
  intros Hf. induction l as [|d l IHl]; [done|]. cbn [forallb]. intros Hl.
  apply andb_true_iff in Hl as [Hd Hl]. simpl. rewrite (Hf d Hd). by apply IHl.
Qed.

Lemma marker_colors_execs pad pad' execs :
  drawn pad' = (drawn pad ++ execs)%list ->
  forallb is_TExec execs = true ->
  marker_colors pad' = marker_colors pad.
Proof.
  unfold marker_colors. intros -> Hall. rewrite omap_app.
  rewrite (omap_execs _ execs); [by rewrite app_nil_r| |exact Hall].
  intros [o opt]. unfold is_TExec. simpl. by destruct o.
Qed.

(** The colour and the index that [ResolveStyle] gives when no colour is
    negative. *)
Lemma ResolveStyle_color plotStyle data i :
  (forall i, 0 <= PlotStyle.GetDefaultColor plotStyle i) ->
  0 <= Data.GetColor data ->
  (ResolveStyle plotStyle data i).1.1 = color_at plotStyle data i
  /\ (ResolveStyle plotStyle data i).2 = i.
Proof.
  intros Hcolors Hcolor. unfold ResolveStyle, color_at.
  pose proof (Hcolors i).
  destruct (Data.GetColor data =? 0);
    repeat match goal with
           | |- context [?x <? 0] => destruct (Z.ltb_spec x 0); try lia
           end; done.
Qed.

(** One turn for a histogram or a graph whose colour is not negative. *)
Lemma data_step_plain_series controlString plotStyle availableData padID s data :
  (forall i, 0 <= PlotStyle.GetDefaultColor plotStyle i) ->
  hist_or_graph data = true -> 0 <= Data.GetColor data ->
  let s' := data_step controlString plotStyle availableData padID s data in
  if series_found availableData data
  then marker_colors (dl_pad s')
       = (marker_colors (dl_pad s)
          ++ [Some (inject_Z (color_at plotStyle data (dataIndex s)))])%list
       /\ dataIndex s' = dataIndex s + 1
  else marker_colors (dl_pad s') = marker_colors (dl_pad s)
       /\ dataIndex s' = dataIndex s.
Proof.
  intros Hcolors Hkind Hcolor s'.
  destruct (ResolveStyle_color plotStyle data (dataIndex s) Hcolors Hcolor) as [Hc Hi].
  destruct (series_found availableData data) eqn:Hfound.
  - subst s'. unfold series_found in Hfound. unfold hist_or_graph in Hkind.
    unfold data_step.
    destruct (ResolveStyle plotStyle data (dataIndex s)) as [[color style] i].
    simpl in Hc, Hi. subst color i.
    destruct (Data.GetKind data) as [hi lo|hi lo denom|hi lo|ty]; try discriminate.
    + apply bool_decide_eq_true in Hfound as [histo Hh].
      rewrite (GetDataClone_TH1_found _ _ _ _ Hh).
      match goal with
      | |- context [draw_hist ?a ?b ?c ?d ?e ?f ?g ?h ?k ?l ?m ?n] =>
          destruct (draw_hist_drawn a b c d e f g h k l m n)
          as (execs & r & o & pad' & w' & -> & Hall & Hd & Hm)
      end.
      rewrite finish_series_pad, finish_series_dataIndex. split; [|done].
      unfold marker_colors at 1. rewrite drawn_Draw, omap_app. simpl. rewrite Hm.
      f_equal. by apply (marker_colors_execs (dl_pad s) pad' execs).
    + apply bool_decide_eq_true in Hfound as [graph Hg].
      rewrite (GetDataClone_TGraph_found _ _ _ _ Hg).
      match goal with
      | |- context [draw_graph ?a ?b ?c ?d ?e ?f ?g ?h ?k ?l ?m] =>
          destruct (draw_graph_drawn a b c d e f g h k l m)
          as (execs & r & o & pad' & w' & -> & Hall & Hd & Hm)
      end.
      rewrite finish_series_pad, finish_series_dataIndex. split; [|done].
      unfold marker_colors at 1. rewrite drawn_Draw, omap_app. simpl. rewrite Hm.
      f_equal. by apply (marker_colors_execs (dl_pad s) pad' execs).
  - destruct (data_step_not_found controlString plotStyle availableData padID s data Hfound)
      as (Hp & _ & _ & _ & Hi' & _).
    fold s' in Hp, Hi'. rewrite Hp, Hi', Hi. done.
Qed.

(** X4: in a pad of histograms and graphs, where no colour is negative, the
    default colours are given out in the order in which the series are
    drawn: the k-th series that is drawn takes its own colour or, without
    one, the default colour of index k (counted from the running index at
    the start), and a series whose data are missing uses up no default
    colour. The running index at the end is the number of series drawn. *)
Theorem default_colors_by_drawn_order controlString plotStyle availableData padID datas s :
  (forall i, 0 <= PlotStyle.GetDefaultColor plotStyle i) ->
  Forall (fun data => hist_or_graph data = true /\ 0 <= Data.GetColor data) datas ->
  let s' := data_loop controlString plotStyle availableData padID datas s in
  let shown := List.filter (series_found availableData) datas in
  marker_colors (dl_pad s')
  = (marker_colors (dl_pad s)
     ++ imap (fun k data =>
                Some (inject_Z (color_at plotStyle data (dataIndex s + Z.of_nat k))))
             shown)%list
  /\ dataIndex s' = dataIndex s + Z.of_nat (length shown).
Proof.
  intros Hcolors Hall. revert s.
  induction Hall as [|data datas [Hkind Hcolor] Hall IH]; intros s.
  - simpl. rewrite app_nil_r. split; [done|lia].
  - cbn zeta. rewrite data_loop_cons.
    set (s1 := data_step controlString plotStyle availableData padID s data).
    destruct (IH s1) as [Hm Hi]. cbn zeta in Hm, Hi. rewrite Hm, Hi.
    pose proof (data_step_plain_series controlString plotStyle availableData padID s data
                  Hcolors Hkind Hcolor) as Hstep.
    cbn zeta in Hstep. fold s1 in Hstep. cbn [List.filter].
    destruct (series_found availableData data); destruct Hstep as [Hm1 Hi1];
      rewrite Hm1, Hi1.
    + rewrite <- app_assoc. cbn [imap length app]. rewrite Z.add_0_r.
      split; [|lia]. do 2 f_equal. apply imap_ext. intros k d _. simpl.
      do 3 f_equal. lia.
    + done.
Qed.
End SeriesLoopFacts.

Lemma missing_series_skipped_witness :
  let s := start_loop test_pad test_world in
  let s' := @data_step test_backend "" test_style test_data 1 s
                       (hist_series "Z" 0 "boxes" "z") in
  dl_pad s' = dl_pad s /\ dataIndex s' = 0 /\ drawingOptions s' = "boxes".
Proof.
  destruct (@missing_series_skipped test_backend "" test_style test_data 1
              (start_loop test_pad test_world) (hist_series "Z" 0 "boxes" "z") eq_refl)
    as (Hp & _ & _ & _ & Hi & Ho & _).
  intros s s'. split; [exact Hp|]. split; [exact Hi|exact Ho].
Defined.

Lemma default_colors_by_drawn_order_witness :
  let series := [hist_series "A" 0 "" "a"; hist_series "Z" 0 "" "z";
                 graph_series "G" 0 "" "g"; hist_series "B" 0 "" "b"] in
  let s := @data_loop test_backend "" test_style test_data 1 series
                      (start_loop test_pad test_world) in
  marker_colors (dl_pad s) = [Some 2%Q; Some 4%Q] /\ dataIndex s = 2.
Proof.
  assert (Hseries : Forall (fun data => hist_or_graph data = true /\ 0 <= Data.GetColor data)
                      [hist_series "A" 0 "" "a"; hist_series "Z" 0 "" "z";
                       graph_series "G" 0 "" "g"; hist_series "B" 0 "" "b"]).
  { repeat constructor; simpl; lia. }
  destruct (@default_colors_by_drawn_order test_backend "" test_style test_data 1 _
              (start_loop test_pad test_world) test_style_colors_not_negative Hseries)
    as [Hm Hi].
  intros series s. split; [exact Hm|exact Hi].
Defined.

(** ** MakeLegend: the labels and the position of the legend *)

Section LegendLabelFacts.
Context `{Backend}.
Variable gNameGroupSeparator : string.


(** Where [legend_position] leaves the pad. *)
Lemma legend_position_pad legendBox pad w sz :
  (legend_position legendBox pad w sz).1.2
  = if Box.IsAutoPlacement (LegendBox.box legendBox)
       || Box.IsUserCoordinates (LegendBox.box legendBox)
    then PadUpdate w pad else pad.
Proof.
  destruct (Box.IsAutoPlacement (LegendBox.box legendBox)) eqn:Hauto.
  - rewrite (legend_position_auto legendBox pad w sz Hauto). cbv zeta.
    by destruct (search_place _ _ _).1.
  - unfold legend_position. rewrite Hauto. cbn [orb].
    by destruct (Box.IsUserCoordinates _).
Qed.

End LegendLabelFacts.



(** ** MakeText: the lines of a text box *)

Section StringFacts.

Lemma string_length_app (s1 s2 : string) :
  String.length (s1 ++ s2) = (String.length s1 + String.length s2)%nat.
Proof. induction s1 as [|c s1 IH]; simpl; [done|]. by rewrite IH. Qed.

Lemma substring_all (s : string) : String.substring 0 (String.length s) s = s.
Proof. induction s as [|c s IH]; simpl; [done|]. by rewrite IH. Qed.

Lemma append_cons (c : Ascii.ascii) (s1 s2 : string) :
  String c s1 ++ s2 = String c (s1 ++ s2).
Proof. reflexivity. Qed.

(** A string that starts with [d] is [d] followed by the rest. *)
Lemma prefix_split (d s : string) :
  String.prefix d s = true ->
  s = d ++ String.substring (String.length d) (String.length s - String.length d) s.
Proof.
  revert s. induction d as [|a d IH]; intros s Hp.
  - simpl. rewrite Nat.sub_0_r. by rewrite substring_all.
  - destruct s as [|b s]; [discriminate|]. simpl in Hp.
    destruct (Ascii.ascii_dec a b) as [->|]; [|discriminate].
    simpl. rewrite append_cons. f_equal. by apply IH.
Qed.

(** A string in which [d] is found at [p] is what precedes [p], then [d],
    then what follows it. *)
Lemma index_split (d s : string) (p : nat) :
  String.index 0 d s = Some p ->
  s = String.substring 0 p s ++ d
      ++ String.substring (p + String.length d)
                          (String.length s - (p + String.length d)) s.
Proof.
  revert p. induction s as [|c s IH]; intros p Hp.
  - simpl in Hp. destruct d; [|discriminate]. by injection Hp as <-.
  - cbn [String.index] in Hp.
    destruct (String.prefix d (String c s)) eqn:Hprefix.
    + injection Hp as <-. change (String.substring 0 0 (String c s)) with "".
      change ("" ++ d ++ ?x) with (d ++ x). by apply prefix_split.
    + destruct (String.index 0 d s) as [q|] eqn:Hq; [|discriminate].
      injection Hp as <-. simpl. rewrite append_cons. f_equal. by apply IH.
Qed.

Lemma prefix_substring (d s : string) (n : nat) :
  String.prefix d (String.substring 0 n s) = true -> String.prefix d s = true.
Proof.
  revert s n. induction d as [|a d IH]; intros s n Hp; [by destruct s|].
  destruct s as [|b s]; [by destruct n|].
  destruct n as [|n]; [discriminate|]. simpl in *.
  destruct (Ascii.ascii_dec a b); [|discriminate]. by eapply IH.
Qed.

(** What precedes the first occurrence of [d] does not contain [d]. *)
Lemma index_before_none (d s : string) (p : nat) :
  d <> "" -> String.index 0 d s = Some p ->
  String.index 0 d (String.substring 0 p s) = None.
Proof.
  intros Hd. revert p. induction s as [|c s IH]; intros p Hp.
  - simpl in Hp. by destruct d.
  - cbn [String.index] in Hp.
    destruct (String.prefix d (String c s)) eqn:Hprefix.
    + injection Hp as <-. simpl. by destruct d.
    + destruct (String.index 0 d s) as [q|] eqn:Hq; [|discriminate].
      injection Hp as <-.
      change (String.substring 0 (S q) (String c s))
        with (String c (String.substring 0 q s)).
      cbn [String.index]. rewrite (IH q eq_refl).
      destruct (String.prefix d (String c (String.substring 0 q s))) eqn:Hp'; [|done].
      apply (prefix_substring d (String c s) (S q)) in Hp'. congruence.
Qed.
End StringFacts.

Section TextFacts.
Context `{Backend}.

(** The loop that splits the text, with fuel enough for the text: the lines
    added are, joined by the delimiter, the text; none of them contains the
    delimiter; and the count of letters is that of the longest. *)
Lemma split_loop_lines fuel :
  forall text nLetters lines,
    (String.length text < fuel)%nat ->
    exists new,
      (split_loop fuel text nLetters lines).2 = (lines ++ new)%list
      /\ new <> []
      /\ String.concat delimiter new = text
      /\ Forall (fun line => contains line delimiter = false) new
      /\ (split_loop fuel text nLetters lines).1
         = Z.max nLetters (Z.of_nat (list_max (map String.length new))).
Proof.
  induction fuel as [|fuel IH]; intros text nLetters lines Hfuel; [lia|].
  cbn [split_loop]. unfold find.
  destruct (String.index 0 delimiter text) as [p|] eqn:Hp.
  - pose proof (index_split delimiter text p Hp) as Hsplit.
    set (token := String.substring 0 p text) in *.
    set (rest := String.substring (p + String.length delimiter)
                   (String.length text - (p + String.length delimiter)) text) in *.
    assert (Herase : erase text 0 (p + String.length delimiter) = rest)
      by (unfold erase; by destruct text).
    rewrite Herase.
    assert (Hlen : (String.length rest < fuel)%nat).
    { assert (Hl : String.length text
                   = (String.length token + (String.length delimiter + String.length rest))%nat)
        by (rewrite Hsplit at 1; by rewrite !string_length_app).
      change (String.length delimiter) with 4%nat in Hl. lia. }
    destruct (IH rest
                 (if nLetters <? Z.of_nat (String.length token)
                  then Z.of_nat (String.length token) else nLetters)
                 (lines ++ [token])%list Hlen)
      as (new & Hlines & Hne & Hconcat & Hnone & Hmax).
    exists (token :: new). rewrite Hlines, Hmax, <- app_assoc.
    split; [done|]. split; [done|]. split.
    { destruct new as [|line new]; [done|].
      change (String.concat delimiter (token :: line :: new))
        with (token ++ delimiter ++ String.concat delimiter (line :: new)).
      by rewrite Hconcat. }
    split.
    { constructor; [|done]. unfold contains, find, token.
      by rewrite (index_before_none delimiter text p). }
    change (list_max (map String.length (token :: new)))
      with (Nat.max (String.length token) (list_max (map String.length new))).
    destruct (Z.ltb_spec nLetters (Z.of_nat (String.length token))); lia.
  - exists [text]. cbn [fst snd]. split; [done|]. split; [done|]. split; [done|].
    split.
    { constructor; [|done]. unfold contains, find. by rewrite Hp. }
    change (list_max (map String.length [text])) with (Nat.max (String.length text) 0).
    destruct (Z.ltb_spec nLetters (Z.of_nat (String.length text))); lia.
Qed.

(** The lines of the pave text are those added one after the other. *)
Lemma add_lines_lines (lines : list string) :
  forall (t : TPaveText) (extent : Q),
    let r := fold_left
               (fun acc line =>
                  let '(tPaveText, boxExtent) := acc in
                  let width := TextBBoxWidth line in
                  (t_with_lines (t_lines tPaveText ++ [line]) tPaveText,
                   if Qltb boxExtent width then width else boxExtent))
               lines (t, extent) in
    t_lines r.1 = (t_lines t ++ lines)%list
    /\ t_x1 r.1 = t_x1 t /\ t_y1 r.1 = t_y1 t /\ t_x2 r.1 = t_x2 t /\ t_y2 r.1 = t_y2 t.
Proof.
  induction lines as [|line lines IH]; intros t extent.
  - simpl. by rewrite app_nil_r.
  - cbn [fold_left]. cbv zeta in IH.
    match goal with
    | |- context [fold_left ?f lines (?t', ?e')] =>
        destruct (IH t' e') as (Hl & Hx1 & Hy1 & Hx2 & Hy2)
    end.
    cbv zeta. rewrite Hl, Hx1, Hy1, Hx2, Hy2. cbn [t_with_lines t_lines t_x1 t_y1 t_x2 t_y2].
    by rewrite <- app_assoc.
Qed.

(** X7: the lines of the pave text that MakeText returns are the text of
    the text box split at every " // ": joined again by " // " they give
    the text, there is at least one line and no line contains " // ". The
    box is as high as its lines: n lines and n - 1 half-line gaps of 24
    pixels, in units of the height of the pad. *)
Theorem MakeText_lines textBox gPad w :
  let text := (MakeText textBox gPad w).1 in
  let lines := t_lines text in
  let nLines := Z.of_nat (length lines) in
  String.concat delimiter lines = TextBox.GetText textBox
  /\ lines <> []
  /\ Forall (fun line => contains line delimiter = false) lines
  /\ (t_y2 text - t_y1 text
      == (1.0 * inject_Z nLines + 0.5 * inject_Z (nLines - 1))
         * (24 / inject_Z (YtoPixel gPad (GetY1 gPad))))%Q.
Proof.
  unfold MakeText.
  destruct (split_loop_lines (S (String.length (TextBox.GetText textBox)))
              (TextBox.GetText textBox) 0 [] (Nat.lt_succ_diag_r _))
    as (new & Hlines & Hne & Hconcat & Hnone & Hmax).
  destruct (split_loop _ _ _ _) as [nLetters lines].
  cbn [fst snd] in Hlines, Hmax. cbn [app] in Hlines. subst lines.
  set (position := if Box.IsUserCoordinates (TextBox.box textBox) then _ else _).
  clearbody position. destruct position as [[upperLeftX upperLeftY] gPad'].
  match goal with
  | |- context [fold_left ?f new (?t, ?e)] =>
      destruct (add_lines_lines new t e) as (Hl & Hx1 & Hy1 & Hx2 & Hy2);
      destruct (fold_left f new (t, e)) as [tPaveText boxExtent]
  end.
  cbn [fst snd t_lines t_x1 t_y1 t_x2 t_y2 app] in Hl, Hx1, Hy1, Hx2, Hy2.
  cbn [fst snd t_set t_lines t_x1 t_y1 t_x2 t_y2].
  rewrite Hl, Hy1, Hy2.
  split; [exact Hconcat|]. split; [exact Hne|]. split; [exact Hnone|].
  ring.
Qed.
End TextFacts.

(** ** GeneratePlot: the loop over the boxes of a pad *)

Section BoxLoopFacts.
Context `{Backend}.
Variable gNameGroupSeparator : string.

(** MakeText leaves the pad as it is, or updated for user coordinates. *)
Lemma MakeText_pad textBox gPad w :
  (MakeText textBox gPad w).2
  = if Box.IsUserCoordinates (TextBox.box textBox) then PadUpdate w gPad else gPad.
Proof.
  unfold MakeText. destruct (split_loop _ _ _ _) as [nLetters lines].
  destruct (Box.IsUserCoordinates (TextBox.box textBox));
    by destruct (fold_left _ lines _) as [tPaveText boxExtent].
Qed.

(** One text box: the pave text is named and drawn on top. *)
Lemma box_step_text textBox pad w nText :
  (forall w pad, drawn (PadUpdate w pad) = drawn pad) ->
  let result := MakeText textBox pad w in
  exists text,
    drawn (Draw (ObjTPaveText (t_with_name ("TextBox_" ++ to_string nText) result.1))
                "SAME" result.2)
    = (drawn pad ++ [(text, "SAME")])%list
    /\ ObjName text = "TextBox_" ++ to_string nText.
Proof.
  intros Hupdate result.
  exists (ObjTPaveText (t_with_name ("TextBox_" ++ to_string nText) result.1)).
  rewrite drawn_Draw. split; [|reflexivity].
  f_equal. subst result. rewrite MakeText_pad.
  destruct (Box.IsUserCoordinates _); [apply Hupdate|done].
Qed.

(** One legend box: the legend is named and drawn on top. *)
Lemma box_step_legend legendBox pad legendEntries lables errorStyles w nLegend
      made pad' w' :
  (forall w pad, drawn (PadUpdate w pad) = drawn pad) ->
  MakeLegend gNameGroupSeparator legendBox pad legendEntries lables errorStyles w
  = Some (made, pad', w') ->
  exists legend,
    drawn (Draw (ObjTLegend (l_with_name ("LegendBox_" ++ to_string nLegend) made))
                "SAME" pad')
    = (drawn pad ++ [(legend, "SAME")])%list
    /\ ObjName legend = "LegendBox_" ++ to_string nLegend.
Proof.
  intros Hupdate Hmade.
  exists (ObjTLegend (l_with_name ("LegendBox_" ++ to_string nLegend) made)).
  rewrite drawn_Draw. split; [|reflexivity].
  f_equal. apply MakeLegend_inv in Hmade as (sz & _ & -> & _).
  rewrite legend_position_pad. destruct (_ || _); [apply Hupdate|done].
Qed.

Lemma box_loop_drawn_labels label lables legendEntries errorStyles boxes :
  (forall w pad, drawn (PadUpdate w pad) = drawn pad) ->
  forall s s',
    box_loop gNameGroupSeparator (label :: lables) legendEntries errorStyles boxes s
    = Some s' ->
    exists added,
      drawn (bl_pad s') = (drawn (bl_pad s) ++ added)%list
      /\ map (fun d => (ObjName d.1, d.2)) added
         = map (fun name => (name, "SAME")) (box_names (legendIndex s) (textIndex s) boxes).
Proof.
  intros Hupdate. induction boxes as [|box rest IH]; intros s s' Hloop.
  - injection Hloop as <-. exists []. by rewrite app_nil_r.
  - destruct box as [legendBox|textBox|ty]; cbn [box_loop box_names] in Hloop |- *.
    + destruct (MakeLegend _ _ _ _ _ _ _) as [[[l pad'] w']|] eqn:Hmade; [|done].
      cbn [mbind option_bind] in Hloop.
      destruct (box_step_legend legendBox (bl_pad s) legendEntries (label :: lables)
                  errorStyles (bl_world s) (legendIndex s) l pad' w' Hupdate Hmade)
        as (legend & Hdrawn & Hname).
      destruct (IH _ _ Hloop) as (added & Hd & Hn).
      cbn [bl_pad legendIndex textIndex] in Hd, Hn.
      exists ((legend, "SAME") :: added). rewrite Hd, Hdrawn, <- app_assoc.
      split; [done|]. cbn [map fst snd]. by rewrite Hname, Hn.
    + destruct (box_step_text textBox (bl_pad s) (bl_world s) (textIndex s) Hupdate)
        as (text & Hdrawn & Hname).
      cbv zeta in Hdrawn.
      destruct (MakeText _ _ _) as [t pad']. cbn [fst snd] in Hdrawn.
      destruct (IH _ _ Hloop) as (added & Hd & Hn).
      cbn [bl_pad legendIndex textIndex] in Hd, Hn.
      exists ((text, "SAME") :: added). rewrite Hd, Hdrawn, <- app_assoc.
      split; [done|]. cbn [map fst snd]. by rewrite Hname, Hn.
    + by apply IH.
Qed.

Lemma box_loop_drawn_no_labels legendEntries errorStyles boxes :
  (forall w pad, drawn (PadUpdate w pad) = drawn pad) ->
  forall s s',
    box_loop gNameGroupSeparator [] legendEntries errorStyles boxes s = Some s' ->
    exists added,
      drawn (bl_pad s') = (drawn (bl_pad s) ++ added)%list
      /\ map (fun d => (ObjName d.1, d.2)) added
         = map (fun name => (name, "SAME"))
               (box_names (legendIndex s) (textIndex s) (before_legend boxes)).
Proof.
  intros Hupdate. induction boxes as [|box rest IH]; intros s s' Hloop.
  - injection Hloop as <-. exists []. by rewrite app_nil_r.
  - destruct box as [legendBox|textBox|ty];
      cbn [box_loop box_names before_legend] in Hloop |- *.
    + injection Hloop as <-. exists []. by rewrite app_nil_r.
    + destruct (box_step_text textBox (bl_pad s) (bl_world s) (textIndex s) Hupdate)
        as (text & Hdrawn & Hname).
      cbv zeta in Hdrawn.
      destruct (MakeText _ _ _) as [t pad']. cbn [fst snd] in Hdrawn.
      destruct (IH _ _ Hloop) as (added & Hd & Hn).
      cbn [bl_pad legendIndex textIndex] in Hd, Hn.
      exists ((text, "SAME") :: added). rewrite Hd, Hdrawn, <- app_assoc.
      split; [done|]. cbn [map fst snd]. by rewrite Hname, Hn.
    + by apply IH.
Qed.

(** The loop over the boxes comes to its end when every legend box has at
    least one column and a title without tokens and every label has its
    entry. *)
Lemma box_loop_returns lables legendEntries errorStyles boxes :
  forallb legend_box_ok boxes = true ->
  (length lables <= length legendEntries)%nat ->
  forall s,
    is_Some (box_loop gNameGroupSeparator lables legendEntries errorStyles boxes s).
Proof.
  intros Hok Hlen. induction boxes as [|box rest IH]; intros s; [by eexists|].
  cbn [forallb] in Hok. apply andb_true_iff in Hok as [Hbox Hrest].
  destruct box as [legendBox|textBox|ty]; cbn [box_loop].
  - destruct lables as [|label lables]; [by eexists|].
    cbn [legend_box_ok] in Hbox. apply andb_true_iff in Hbox as [Hcolumns Hplain].
    apply Z.ltb_lt in Hcolumns.
    destruct (MakeLegend_returns gNameGroupSeparator legendBox (bl_pad s) legendEntries
                (label :: lables) errorStyles (bl_world s) Hcolumns Hplain Hlen)
      as [[[legend pad'] w'] ->].
    cbn [mbind option_bind]. by apply IH.
  - destruct (MakeText textBox (bl_pad s) (bl_world s)) as [t pad']. by apply IH.
  - by apply IH.
Qed.


(** Whatever the labels, the loop over the boxes only adds to the pad. *)
Lemma boxes_drawn_prefix lables legendEntries errorStyles boxes s s' :
  (forall w pad, drawn (PadUpdate w pad) = drawn pad) ->
  box_loop gNameGroupSeparator lables legendEntries errorStyles boxes s = Some s' ->
  exists added, drawn (bl_pad s') = (drawn (bl_pad s) ++ added)%list.
Proof.
  intros Hupdate Hloop. destruct lables as [|label lables].
  - destruct (box_loop_drawn_no_labels legendEntries errorStyles boxes Hupdate s s' Hloop)
      as (added & Hd & _). by exists added.
  - destruct (box_loop_drawn_labels label lables legendEntries errorStyles boxes Hupdate
                s s' Hloop) as (added & Hd & _). by exists added.
Qed.

End BoxLoopFacts.


(** ** CutHistogram: what it changes and what it keeps *)

Section CutHistogramCells.
Context `{Backend}.
Implicit Types (h : TH1) (l : list Z).

Lemma ZeroBin_frame h i :
  h_name (ZeroBin h i) = h_name h /\ h_title (ZeroBin h i) = h_title h
  /\ h_isTH2 (ZeroBin h i) = h_isTH2 h /\ h_att (ZeroBin h i) = h_att h
  /\ length (h_content (ZeroBin h i)) = length (h_content h)
  /\ length (h_error (ZeroBin h i)) = length (h_error h).
Proof.
  unfold ZeroBin, SetBinError, SetBinContent.
  repeat case_match; simpl; by rewrite ?length_insert.
Qed.

Lemma zero_bins_frame l h :
  h_name (fold_left ZeroBin l h) = h_name h /\ h_title (fold_left ZeroBin l h) = h_title h
  /\ h_isTH2 (fold_left ZeroBin l h) = h_isTH2 h /\ h_att (fold_left ZeroBin l h) = h_att h
  /\ length (h_content (fold_left ZeroBin l h)) = length (h_content h)
  /\ length (h_error (fold_left ZeroBin l h)) = length (h_error h).
Proof.
  revert h. induction l as [|i l IH]; intros h; [done|]. cbn [fold_left].
  destruct (IH (ZeroBin h i)) as (-> & -> & -> & -> & -> & ->). apply ZeroBin_frame.
Qed.

Lemma CutHistogram_frame h cutoff cutoffLow :
  let h' := CutHistogram h cutoff cutoffLow in
  h_name h' = h_name h /\ h_title h' = h_title h /\ h_isTH2 h' = h_isTH2 h
  /\ h_xaxis h' = h_xaxis h /\ h_att h' = h_att h
  /\ length (h_content h') = length (h_content h)
  /\ length (h_error h') = length (h_error h).
Proof.
  unfold CutHistogram. cbv zeta.
  destruct (Qltb cutoff (-997)); [done|].
  match goal with
  | |- context [fold_left ZeroBin ?l h] =>
      pose proof (zero_bins_frame l h) as (Hn & Ht & H2 & Ha & Hc & He);
      pose proof (zero_bins_xaxis l h) as Hx;
      revert Hn Ht H2 Ha Hc He Hx; generalize (fold_left ZeroBin l h)
  end.
  intros h1 Hn Ht H2 Ha Hc He Hx.
  destruct (Qltb cutoffLow (-997)); [done|].
  match goal with
  | |- context [fold_left ZeroBin ?l h1] =>
      destruct (zero_bins_frame l h1) as (-> & -> & -> & -> & -> & ->);
      rewrite (zero_bins_xaxis l h1)
  end.
  done.
Qed.

(** The cells that CutHistogram sets to zero. *)
Lemma CutHistogram_lookup h cutoff cutoffLow (n : nat) :
  let zeroed :=
    negb (Qltb cutoff (-997))
    && (bool_decide (FindBin (h_xaxis h) cutoff <= Z.of_nat n <= GetNbinsX h)
        || negb (Qltb cutoffLow (-997))
           && bool_decide (1 <= Z.of_nat n <= FindBin (h_xaxis h) cutoffLow)) in
  h_content (CutHistogram h cutoff cutoffLow) !! n
  = (if zeroed then (fun _ => 0%Q) <$> h_content h !! n else h_content h !! n)
  /\ h_error (CutHistogram h cutoff cutoffLow) !! n
     = (if zeroed then (fun _ => 0%Q) <$> h_error h !! n else h_error h !! n).
Proof.
  cbv zeta. destruct (Qltb cutoff (-997)) eqn:Hhigh.
  - apply Qltb_lt in Hhigh. by rewrite (CutHistogram_high_disabled h cutoff cutoffLow Hhigh).
  - apply Qltb_ge in Hhigh. cbn [negb andb].
    destruct (decide (FindBin (h_xaxis h) cutoff <= Z.of_nat n <= GetNbinsX h)) as [Hin|Hout].
    + rewrite (bool_decide_eq_true_2 _ Hin). cbn [orb].
      by apply CutHistogram_high_side.
    + rewrite (bool_decide_eq_false_2 _ Hout). cbn [orb].
      destruct (Qltb cutoffLow (-997)) eqn:Hlow; cbn [negb andb].
      * apply Qltb_lt in Hlow. apply CutHistogram_elsewhere; auto.
      * apply Qltb_ge in Hlow.
        destruct (decide (1 <= Z.of_nat n <= FindBin (h_xaxis h) cutoffLow)) as [Hin'|Hout'].
        -- rewrite (bool_decide_eq_true_2 _ Hin'). by apply CutHistogram_low_side.
        -- rewrite (bool_decide_eq_false_2 _ Hout'). apply CutHistogram_elsewhere; auto.
Qed.

(** X9: what CutHistogram never does. It keeps the name, the title, the
    axis, the attributes and the number of cells of the histogram; every
    cell keeps its content and error or has them set to 0; a cell after the
    last bin (the overflow) is changed only when the low cut falls into it
    or beyond, never by the high cut; and the underflow cell (cell 0) is
    changed only when the high cut falls into it, never by the low cut. *)
Theorem CutHistogram_keeps h cutoff cutoffLow :
  let h' := CutHistogram h cutoff cutoffLow in
  (h_name h' = h_name h /\ h_title h' = h_title h /\ h_isTH2 h' = h_isTH2 h
   /\ h_xaxis h' = h_xaxis h /\ h_att h' = h_att h
   /\ length (h_content h') = length (h_content h)
   /\ length (h_error h') = length (h_error h))
  /\ (forall (n : nat) v, h_content h' !! n = Some v ->
        v = 0%Q \/ h_content h !! n = Some v)
  /\ (forall (n : nat) e, h_error h' !! n = Some e ->
        e = 0%Q \/ h_error h !! n = Some e)
  /\ (forall n : nat,
        GetNbinsX h < Z.of_nat n -> FindBin (h_xaxis h) cutoffLow < Z.of_nat n ->
        h_content h' !! n = h_content h !! n /\ h_error h' !! n = h_error h !! n)
  /\ (1 <= FindBin (h_xaxis h) cutoff ->
        h_content h' !! 0%nat = h_content h !! 0%nat
        /\ h_error h' !! 0%nat = h_error h !! 0%nat).
Proof.
  intros h'. split; [apply CutHistogram_frame|]. subst h'.
  split; [|split; [|split]].
  - intros n v. destruct (CutHistogram_lookup h cutoff cutoffLow n) as [-> _].
    cbv zeta. case_match; [|by right].
    destruct (h_content h !! n); [|discriminate]. intros [= <-]. by left.
  - intros n e. destruct (CutHistogram_lookup h cutoff cutoffLow n) as [_ ->].
    cbv zeta. case_match; [|by right].
    destruct (h_error h !! n); [|discriminate]. intros [= <-]. by left.
  - intros n Hn Hlow. destruct (CutHistogram_lookup h cutoff cutoffLow n) as [-> ->].
    cbv zeta.
    rewrite (bool_decide_eq_false_2 (FindBin (h_xaxis h) cutoff <= Z.of_nat n <= GetNbinsX h))
      by lia.
    rewrite (bool_decide_eq_false_2 (1 <= Z.of_nat n <= FindBin (h_xaxis h) cutoffLow))
      by lia.
    by rewrite andb_false_r, andb_false_r.
  - intros Hfirst. destruct (CutHistogram_lookup h cutoff cutoffLow 0%nat) as [-> ->].
    cbv zeta.
    rewrite (bool_decide_eq_false_2
               (FindBin (h_xaxis h) cutoff <= Z.of_nat 0 <= GetNbinsX h)) by lia.
    rewrite (bool_decide_eq_false_2
               (1 <= Z.of_nat 0 <= FindBin (h_xaxis h) cutoffLow)) by lia.
    by rewrite andb_false_r, andb_false_r.
Qed.
End CutHistogramCells.

Lemma CutHistogram_keeps_witness :
  let h := test_hist "A" in
  let h' := @CutHistogram test_backend h 2.5 0.5 in
  h_content h' !! 0%nat = h_content h !! 0%nat
  /\ h_content h' !! 5%nat = h_content h !! 5%nat.
Proof.
  intros h h'.
  destruct (@CutHistogram_keeps test_backend (test_hist "A") 2.5 0.5)
    as (_ & _ & _ & Hover & Hunder).
  split.
  - apply Hunder. vm_compute. discriminate.
  - apply (Hover 5%nat); vm_compute; reflexivity.
Defined.

Section CutHistogramTwice.
Context `{Backend}.

Lemma TH1_ext (a b : TH1) :
  h_name a = h_name b -> h_title a = h_title b -> h_isTH2 a = h_isTH2 b ->
  h_xaxis a = h_xaxis b -> h_content a = h_content b -> h_error a = h_error b ->
  h_att a = h_att b -> h_text a = h_text b -> a = b.
Proof. destruct a, b. simpl. by intros -> -> -> -> -> -> -> ->. Qed.

Lemma zero_bins_text l h : h_text (fold_left ZeroBin l h) = h_text h.
Proof.
  revert h. induction l as [|i l IH]; intros h; simpl; [done|].
  rewrite IH. unfold ZeroBin, SetBinError, SetBinContent. by repeat case_match.
Qed.

Lemma CutHistogram_text h cutoff cutoffLow :
  h_text (CutHistogram h cutoff cutoffLow) = h_text h.
Proof.
  unfold CutHistogram. cbv zeta. repeat case_match; by rewrite ?zero_bins_text.
Qed.

(** X10: cutting a histogram a second time with the same bounds changes
    nothing more. *)
Theorem CutHistogram_idempotent (h : TH1) (cutoff cutoffLow : Q) :
  CutHistogram (CutHistogram h cutoff cutoffLow) cutoff cutoffLow
  = CutHistogram h cutoff cutoffLow.
Proof.
  set (h1 := CutHistogram h cutoff cutoffLow).
  pose proof (CutHistogram_frame h cutoff cutoffLow) as Hframe. cbv zeta in Hframe.
  fold h1 in Hframe. destruct Hframe as (_ & _ & _ & Hx & _).
  pose proof (CutHistogram_frame h1 cutoff cutoffLow) as Hframe'. cbv zeta in Hframe'.
  destruct Hframe' as (Hn' & Ht' & H2' & Hx' & Ha' & _).
  apply TH1_ext; try assumption; [| |apply CutHistogram_text].
  - apply list_eq. intros n.
    destruct (CutHistogram_lookup h1 cutoff cutoffLow n) as [-> _].
    destruct (CutHistogram_lookup h cutoff cutoffLow n) as [Hc _]. fold h1 in Hc.
    cbv zeta in *. unfold GetNbinsX in *. rewrite Hx, Hc.
    case_match; [|done]. by destruct (h_content h !! n).
  - apply list_eq. intros n.
    destruct (CutHistogram_lookup h1 cutoff cutoffLow n) as [_ ->].
    destruct (CutHistogram_lookup h cutoff cutoffLow n) as [_ He]. fold h1 in He.
    cbv zeta in *. unfold GetNbinsX in *. rewrite Hx, He.
    case_match; [|done]. by destruct (h_error h !! n).
Qed.
End CutHistogramTwice.

(** ** CutGraph on a graph whose points are ordered *)

Section CutGraphSorted.
Implicit Types (pts : list (Q * Q)) (f k : Q * Q -> bool).

Lemma filter_none f pts :
  (forall q, In q pts -> f q = false) ->
  List.filter f pts = [] /\ List.filter (fun p => negb (f p)) pts = pts.
Proof.
  induction pts as [|p pts IH]; intros Hall; [done|]. cbn [List.filter].
  rewrite (Hall p (or_introl eq_refl)). cbn [negb].
  destruct IH as [-> ->]; [|done]. intros q Hq. apply Hall. by right.
Qed.

Lemma filter_length_negb f pts :
  (length (List.filter f pts) + length (List.filter (fun p => negb (f p)) pts)
   = length pts)%nat.
Proof.
  induction pts as [|p pts IH]; [done|]. cbn [List.filter].
  destruct (f p); simpl; lia.
Qed.

Lemma filter_filter_and f k pts :
  List.filter f (List.filter k pts) = List.filter (fun p => k p && f p) pts.
Proof.
  induction pts as [|p pts IH]; [done|]. cbn [List.filter].
  destruct (k p); cbn [List.filter andb]; [|done]. destruct (f p); by rewrite IH.
Qed.

Lemma filter_ext_bool f k pts :
  (forall p, f p = k p) -> List.filter f pts = List.filter k pts.
Proof.
  intros Heq. induction pts as [|p pts IH]; [done|]. cbn [List.filter].
  by rewrite Heq, IH.
Qed.

Lemma x_sorted_filter f pts : x_sorted pts = true -> x_sorted (List.filter f pts) = true.
Proof.
  induction pts as [|p pts IH]; [done|]. cbn [x_sorted List.filter].
  intros Hs. apply andb_true_iff in Hs as [Hp Hs].
  destruct (f p); [|by apply IH]. cbn [x_sorted]. apply andb_true_iff. split; [|by apply IH].
  apply forallb_forall. intros q Hq. apply filter_In in Hq as [Hq _].
  by apply (proj1 (forallb_forall _ _) Hp).
Qed.

(** In an ordered list, the points that satisfy a condition which holds
    for every point to the left of one that satisfies it are the first
    points of the list. *)
Lemma sorted_filter_prefix f pts :
  x_sorted pts = true ->
  (forall p q, (fst p <= fst q)%Q -> f q = true -> f p = true) ->
  List.filter f pts = take (length (List.filter f pts)) pts
  /\ List.filter (fun p => negb (f p)) pts = drop (length (List.filter f pts)) pts.
Proof.
  intros Hs Hclosed. induction pts as [|p pts IH]; [done|].
  cbn [x_sorted] in Hs. apply andb_true_iff in Hs as [Hp Hs].
  cbn [List.filter]. destruct (f p) eqn:Hfp; cbn [negb length take drop].
  - destruct (IH Hs) as [Htake Hdrop]. by rewrite <- Htake, <- Hdrop.
  - destruct (filter_none f pts) as [-> ->]; [|done].
    intros q Hq. destruct (f q) eqn:Hfq; [|done].
    rewrite <- Hfp. symmetry. apply (Hclosed p q); [|done].
    apply Qle_bool_iff. by apply (proj1 (forallb_forall _ _) Hp).
Qed.

Lemma RemovePoint_frame i (g : TGraph) :
  g_name (RemovePoint i g) = g_name g /\ g_title (RemovePoint i g) = g_title g
  /\ g_att (RemovePoint i g) = g_att g.
Proof. unfold RemovePoint. by repeat case_match. Qed.

Lemma CutGraph_frame (g : TGraph) cutoff cutoffLow :
  g_name (CutGraph g cutoff cutoffLow) = g_name g
  /\ g_title (CutGraph g cutoff cutoffLow) = g_title g
  /\ g_att (CutGraph g cutoff cutoffLow) = g_att g.
Proof.
  unfold CutGraph. destruct (fold_left _ _ _) as [low high].
  assert (Hiter : forall (step : TGraph -> Z) n (g0 : TGraph),
             g_name (Nat.iter n (fun g => RemovePoint (step g) g) g0) = g_name g0
             /\ g_title (Nat.iter n (fun g => RemovePoint (step g) g) g0) = g_title g0
             /\ g_att (Nat.iter n (fun g => RemovePoint (step g) g) g0) = g_att g0).
  { intros step n g0. induction n as [|n IH]; [done|]. rewrite !Nat.iter_succ.
    set (gn := Nat.iter n _ g0) in *.
    by destruct (RemovePoint_frame (step gn) gn) as (-> & -> & ->). }
  destruct (Hiter (fun _ => 0) (Z.to_nat low)
              (Nat.iter (Z.to_nat high) (fun g => RemovePoint (GetN g - 1) g) g))
    as (-> & -> & ->).
  apply (Hiter (fun g => GetN g - 1)).
Qed.

(** X11: on a graph whose points are in the order of their x values, and
    for bounds that are not crossed, CutGraph keeps exactly the points
    within the bounds: those with x not above an enabled high bound and not
    below an enabled low bound, in their order. The name, the title and the
    attributes of the graph stay. *)
Theorem CutGraph_on_sorted_graph (g : TGraph) (cutoff cutoffLow : Q) :
  x_sorted (g_points g) = true ->
  ((-997 <= cutoff)%Q -> (-997 <= cutoffLow)%Q -> (cutoffLow <= cutoff)%Q) ->
  g_points (CutGraph g cutoff cutoffLow)
  = List.filter (within_cuts cutoff cutoffLow) (g_points g)
  /\ g_name (CutGraph g cutoff cutoffLow) = g_name g
  /\ g_title (CutGraph g cutoff cutoffLow) = g_title g
  /\ g_att (CutGraph g cutoff cutoffLow) = g_att g.
Proof.
  intros Hsorted Hbounds. split; [|apply CutGraph_frame].
  pose proof (CutGraph_points g cutoff cutoffLow) as Hpts. cbv zeta in Hpts.
  rewrite Hpts. clear Hpts.
  set (pts := g_points g) in *.
  set (high := fun p : Q * Q => negb (Qltb cutoff (-997)) && Qltb cutoff (fst p)).
  set (low := fun p : Q * Q => negb (Qltb cutoffLow (-997)) && Qltb (fst p) cutoffLow).
  (* the points beyond the high bound are the last ones *)
  assert (Hhigh : take (length pts - length (List.filter high pts)) pts
                  = List.filter (fun p => negb (high p)) pts).
  { destruct (sorted_filter_prefix (fun p => negb (high p)) pts Hsorted) as [Htake _].
    - intros p q Hpq. unfold high. destruct (Qltb cutoff (-997)); [done|].
      cbn [negb andb]. rewrite !negb_true_iff, !Qltb_ge. intros Hq.
      by apply (Qle_trans _ (fst q)).
    - etrans; [|symmetry; exact Htake]. f_equal.
      pose proof (filter_length_negb high pts). lia. }
  rewrite Hhigh.
  (* of the others, the points below the low bound are the first ones *)
  assert (Hcount : List.filter low pts
                   = List.filter low (List.filter (fun p => negb (high p)) pts)).
  { rewrite filter_filter_and. apply filter_ext_bool. intros p.
    destruct (low p) eqn:Hl; [|by rewrite andb_false_r].
    destruct (high p) eqn:Hh; [|done]. exfalso.
    unfold low, high in Hl, Hh.
    apply andb_true_iff in Hl as [Hlow Hl], Hh as [Hhigh' Hh].
    apply negb_true_iff, Qltb_ge in Hlow, Hhigh'. apply Qltb_lt in Hl, Hh.
    specialize (Hbounds Hhigh' Hlow).
    apply (Qlt_irrefl (fst p)).
    eapply Qlt_le_trans; [exact Hl|]. eapply Qle_trans; [exact Hbounds|].
    by apply Qlt_le_weak. }
  rewrite Hcount.
  destruct (sorted_filter_prefix low (List.filter (fun p => negb (high p)) pts))
    as [_ Hdrop].
  - by apply x_sorted_filter.
  - intros p q Hpq. unfold low. destruct (Qltb cutoffLow (-997)); [done|].
    cbn [negb andb]. rewrite !Qltb_lt. intros Hq. by apply (Qle_lt_trans _ (fst q)).
  - rewrite <- Hdrop, filter_filter_and. reflexivity.
Qed.
End CutGraphSorted.

Lemma CutGraph_on_sorted_graph_witness :
  g_points (CutGraph five_points 3.5 1.5) = [(2, 20); (3, 30)]%Q
  /\ g_points (CutGraph five_points (-999) 2.5) = [(3, 30); (4, 40); (5, 50)]%Q.
Proof.
  split.
  - destruct (CutGraph_on_sorted_graph five_points 3.5 1.5 eq_refl) as [Hpts _];
      [intros; vm_compute; discriminate|].
    rewrite Hpts. reflexivity.
  - destruct (CutGraph_on_sorted_graph five_points (-999) 2.5 eq_refl) as [Hpts _];
      [intros Hhigh; exfalso; revert Hhigh; vm_compute; auto|].
    rewrite Hpts. reflexivity.
Defined.

(** ** MakeLegend: the search of a free place *)

Section SearchFacts.
Context `{Backend}.

(** X12: the outcome of the search for a free place is the outcome of the
    last call of PlaceBox alone, and that call is the one for the rectangle
    over the right margin, the last primitive of the pad while the search
    runs. The outcomes of the calls for the other primitives are
    overwritten; only the coordinates they leave are handed on. *)
Theorem search_decided_by_last_call (pad : TPad) (w : World) (sz : LegendSize) :
  let boxed := draw_margin_boxes pad w in
  exists (marginsRight : Prim) (xy : Q * Q),
    last (pad_prims boxed) = Some marginsRight
    /\ Some (p_obj marginsRight) = ObjTBox <$> last (margin_boxes pad w)
    /\ search_place pad w sz
       = PlaceBox boxed marginsRight
                  (totalWidthNDC sz + 2 * marginX pad w)%Q
                  (totalHeightNDC sz + 2 * marginY pad w)%Q xy.
Proof.
  intros boxed. unfold search_place, place_loop. fold boxed.
  assert (Hprims : exists front marginsRight,
             pad_prims boxed = (front ++ [marginsRight])%list
             /\ Some (p_obj marginsRight) = ObjTBox <$> last (margin_boxes pad w)).
  { subst boxed. unfold draw_margin_boxes, margin_boxes. cbn [fold_left].
    unfold Draw at 1. cbn [pad_prims pad_with_prims]. by eexists _, _. }
  destruct Hprims as (front & marginsRight & Hprims & Hright).
  rewrite Hprims, fold_left_app. cbn [fold_left].
  eexists marginsRight, _. rewrite last_snoc. split; [done|]. split; [done|].
  reflexivity.
Qed.
End SearchFacts.

(** ** DivideTSpline *)

Section DivideTSplineFacts.
Variable SplineEval : TH1 -> Q -> Q.
Variable GetBinCenter : TAxis -> Z -> Q.
Variable GraphSplineEval : TGraph -> Q -> Q.

Lemma divide_bin_frame numerator denominator ratio i :
  let ratio' := divide_bin SplineEval GetBinCenter numerator denominator ratio i in
  h_name ratio' = h_name ratio /\ h_title ratio' = h_title ratio
  /\ h_isTH2 ratio' = h_isTH2 ratio /\ h_xaxis ratio' = h_xaxis ratio
  /\ h_att ratio' = h_att ratio /\ h_error ratio' = h_error ratio
  /\ length (h_content ratio') = length (h_content ratio).
Proof.
  unfold divide_bin, SetBinContent. cbv zeta.
  repeat case_match; simpl; by rewrite ?length_insert.
Qed.

(** The content of a cell after one turn. *)
Lemma divide_bin_content numerator denominator ratio i (n : nat) :
  let denomValue := SplineEval denominator (GetBinCenter (h_xaxis numerator) i) in
  h_content (divide_bin SplineEval GetBinCenter numerator denominator ratio i) !! n
  = if bool_decide (i = Z.of_nat n) && negb (Qeq_bool denomValue 0)
    then (fun _ => (GetBinContent numerator i / denomValue)%Q) <$> h_content ratio !! n
    else h_content ratio !! n.
Proof.
  cbv zeta. unfold divide_bin, SetBinContent.
  destruct (negb (Qeq_bool _ 0)); [|by rewrite andb_false_r].
  rewrite andb_true_r.
  destruct (Z.ltb_spec i 0) as [Hneg|Hpos].
  - rewrite bool_decide_eq_false_2 by lia. done.
  - cbn [h_content h_with_content]. case_bool_decide as Hi.
    + subst i. rewrite Nat2Z.id.
      destruct (h_content ratio !! n) eqn:Hn; simpl.
      * apply list_lookup_insert_eq. by eapply lookup_lt_Some.
      * rewrite list_insert_ge; [done|]. by apply lookup_ge_None.
    + apply list_lookup_insert_ne. lia.
Qed.

Lemma divide_loop_content numerator denominator (bins : list Z) :
  forall ratio (n : nat),
    let denomValue :=
      SplineEval denominator (GetBinCenter (h_xaxis numerator) (Z.of_nat n)) in
    h_content (fold_left (divide_bin SplineEval GetBinCenter numerator denominator)
                         bins ratio) !! n
    = if bool_decide (Z.of_nat n ∈ bins) && negb (Qeq_bool denomValue 0)
      then (fun _ => (GetBinContent numerator (Z.of_nat n) / denomValue)%Q)
             <$> h_content ratio !! n
      else h_content ratio !! n.
Proof.
  induction bins as [|i bins IH]; intros ratio n; cbv zeta.
  - by rewrite bool_decide_eq_false_2 by (by intros ?%elem_of_nil).
  - cbn [fold_left]. cbv zeta in IH. rewrite IH, divide_bin_content.
    destruct (decide (i = Z.of_nat n)) as [->|Hne].
    + rewrite (bool_decide_eq_true_2 (Z.of_nat n = Z.of_nat n)) by done.
      rewrite (bool_decide_eq_true_2 (Z.of_nat n ∈ Z.of_nat n :: bins))
        by apply list_elem_of_here.
      cbn [andb]. destruct (negb (Qeq_bool _ 0)); [|by rewrite andb_false_r].
      rewrite andb_true_r. case_bool_decide; [|done].
      by destruct (h_content ratio !! n).
    + rewrite (bool_decide_eq_false_2 (i = Z.of_nat n)) by done. cbn [andb].
      destruct (decide (Z.of_nat n ∈ bins)) as [Hin|Hout].
      * rewrite !bool_decide_eq_true_2; [done| |done]. by apply list_elem_of_further.
      * rewrite !bool_decide_eq_false_2; [done| |done].
        intros [?|?]%elem_of_cons; [by apply Hne|done].
Qed.

(** X14: the histogram that DivideTSpline returns for two histograms is a
    copy of the numerator named "dummyRatio", with the same title, axis and
    attributes and as many cells. A bin (1 to the number of bins) holds the
    content of the numerator divided by the value of the spline through
    the denominator at the centre of the bin; where that value is 0 the
    bin is left at 0 and nothing is divided. The underflow and overflow
    cells hold 0. *)
Theorem DivideTSpline_TH1_bins (numerator denominator : TH1) :
  let ratio := DivideTSpline_TH1 SplineEval GetBinCenter numerator denominator in
  h_name ratio = "dummyRatio"
  /\ h_title ratio = h_title numerator /\ h_xaxis ratio = h_xaxis numerator
  /\ h_att ratio = h_att numerator
  /\ length (h_content ratio) = length (h_content numerator)
  /\ forall n : nat,
       (n < length (h_content numerator))%nat ->
       let denomValue :=
         SplineEval denominator (GetBinCenter (h_xaxis numerator) (Z.of_nat n)) in
       h_content ratio !! n
       = Some (if bool_decide (1 <= Z.of_nat n <= GetNbinsX numerator)
                  && negb (Qeq_bool denomValue 0)
               then (GetBinContent numerator (Z.of_nat n) / denomValue)%Q
               else 0%Q).
Proof.
  intros ratio. subst ratio. unfold DivideTSpline_TH1.
  set (start := Reset (h_with_name "dummyRatio" numerator)).
  assert (Hframe : forall bins ratio,
             let ratio' := fold_left (divide_bin SplineEval GetBinCenter numerator
                                                 denominator) bins ratio in
             h_name ratio' = h_name ratio /\ h_title ratio' = h_title ratio
             /\ h_xaxis ratio' = h_xaxis ratio /\ h_att ratio' = h_att ratio
             /\ h_error ratio' = h_error ratio
             /\ length (h_content ratio') = length (h_content ratio)).
  { induction bins as [|i bins IH]; intros ratio; [done|]. cbn [fold_left]. cbv zeta.
    destruct (IH (divide_bin SplineEval GetBinCenter numerator denominator ratio i))
      as (-> & -> & -> & -> & -> & ->).
    destruct (divide_bin_frame numerator denominator ratio i)
      as (Hn & Ht & _ & Hx & Ha & He & Hl).
    done. }
  destruct (Hframe (seqZ 1 (GetNbinsX numerator)) start) as (-> & -> & -> & -> & _ & ->).
  subst start. cbn [Reset h_with_error h_with_content h_with_name h_name h_title
                    h_xaxis h_att h_error h_content].
  rewrite length_map.
  split; [done|]. split; [done|]. split; [done|]. split; [done|]. split; [done|].
  intros n Hn. cbv zeta. rewrite divide_loop_content.
  cbn [Reset h_with_error h_with_content h_with_name h_content].
  destruct (lookup_lt_is_Some_2 (h_content numerator) n Hn) as [c Hc].
  rewrite list_lookup_fmap, Hc. cbn [fmap option_fmap option_map].
  assert (Hseq : bool_decide (Z.of_nat n ∈ seqZ 1 (GetNbinsX numerator))
                 = bool_decide (1 <= Z.of_nat n <= GetNbinsX numerator)).
  { apply bool_decide_ext. rewrite elem_of_seqZ. lia. }
  rewrite Hseq. by case_match.
Qed.

(** One turn of the loop over the points, on arrays of equal length. *)
(** After a fault the loop over the points has no result. *)
Lemma divide_loop_fault denominator (l : list nat) :
  fold_left (divide_point GraphSplineEval denominator) l None = None.
Proof. induction l as [|i l IHl]; [done|]. cbn [fold_left]. exact IHl. Qed.

Lemma divide_loop_points denominator (x : list Q) :
  forall (k : nat) name (y ey : list Q),
    (k + length x = length y)%nat -> length ey = length y ->
    forall (front : list Q), length front = k ->
    fold_left (divide_point GraphSplineEval denominator) (seq k (length x))
              (Some (mkTGraphArrays name (front ++ x)%list y (Some ey)))
    = if forallb (fun x => negb (Qeq_bool (GraphSplineEval denominator x) 0)) x
      then Some (mkTGraphArrays name (front ++ x)%list
                   (take k y
                    ++ zip_with (fun x y => (y / GraphSplineEval denominator x)%Q)
                                x (drop k y))%list
                   (Some (take k ey
                          ++ zip_with (fun x e => (e * GraphSplineEval denominator x)%Q)
                                      x (drop k ey))%list))
      else None.
Proof.
  induction x as [|x0 x IH]; intros k name y ey Hy Hey front Hfront.
  - cbn [length] in Hy. cbn [length seq fold_left zip_with forallb].
    rewrite !app_nil_r. by rewrite !firstn_all2 by lia.
  - cbn [length seq fold_left forallb].
    destruct (lookup_lt_is_Some_2 y k) as [y0 Hy0]; [simpl in Hy; lia|].
    destruct (lookup_lt_is_Some_2 ey k) as [e0 He0]; [simpl in Hy; lia|].
    unfold divide_point at 2. cbn [mbind option_bind ga_x ga_y ga_ey ga_name].
    rewrite lookup_app_r by lia. rewrite Hfront, Nat.sub_diag. cbn [lookup list_lookup].
    rewrite Hy0, He0. cbn [mbind option_bind]. unfold Qdiv_finite.
    destruct (Qeq_bool (GraphSplineEval denominator x0) 0); cbn [negb andb mbind option_bind].
    { apply divide_loop_fault. }
    replace (front ++ x0 :: x)%list with ((front ++ [x0]) ++ x)%list
      by (by rewrite <- app_assoc).
    rewrite (IH (S k)); rewrite ?length_insert, ?length_app; simpl in *; try lia.
    destruct (forallb _ x); [|done].
    assert (Hstep : forall (f : Q -> Q -> Q) (l : list Q) (v0 : Q),
               l !! k = Some v0 ->
               (take (S k) (<[k := f x0 v0]> l)
                ++ zip_with f x (drop (S k) (<[k := f x0 v0]> l)))%list
               = (take k l ++ zip_with f (x0 :: x) (drop k l))%list).
    { intros f l v0 Hl. rewrite (drop_S l v0 k Hl). cbn [zip_with].
      rewrite (take_S_r (<[k := f x0 v0]> l) k (f x0 v0))
        by (apply list_lookup_insert_eq; by eapply lookup_lt_Some).
      rewrite take_insert_ge by lia. rewrite drop_insert_lt by lia.
      by rewrite <- app_assoc. }
    f_equal. f_equal.
    + exact (Hstep (fun x y => (y / GraphSplineEval denominator x)%Q) y y0 Hy0).
    + f_equal.
      exact (Hstep (fun x e => (e * GraphSplineEval denominator x)%Q) ey e0 He0).
Qed.

(** X15: DivideTSpline for graphs, for a numerator graph with errors
    (arrays of one length). The code tests no value of the spline through
    the denominator against 0. When the spline is not 0 at any x of the
    numerator, the result is a graph named "ratio" with the x values of the
    numerator, each y value divided by the value of the spline at that x,
    and each error multiplied by that value (not divided by it). When the
    spline is 0 at one of them, the quotient there is no number and there
    is no result in rationals. For a numerator without errors that has a
    point there is no result either: the error array that is written to is
    null. *)
Theorem DivideTSpline_TGraph_points (numerator : TGraphArrays) (denominator : TGraph) :
  let result := DivideTSpline_TGraph GraphSplineEval numerator denominator in
  (forall ey,
      ga_ey numerator = Some ey ->
      length (ga_y numerator) = length (ga_x numerator) ->
      length ey = length (ga_x numerator) ->
      result
      = if forallb (fun x => negb (Qeq_bool (GraphSplineEval denominator x) 0))
                   (ga_x numerator)
        then Some (mkTGraphArrays "ratio" (ga_x numerator)
                     (zip_with (fun x y => (y / GraphSplineEval denominator x)%Q)
                               (ga_x numerator) (ga_y numerator))
                     (Some (zip_with (fun x e => (e * GraphSplineEval denominator x)%Q)
                                     (ga_x numerator) ey)))
        else None)
  /\ (ga_ey numerator = None -> ga_x numerator <> [] -> result = None).
Proof.
  intros result. subst result. unfold DivideTSpline_TGraph. cbn [ga_x]. split.
  - intros ey -> Hy Hey.
    pose proof (divide_loop_points denominator (ga_x numerator) 0 "ratio"
                  (ga_y numerator) ey) as Hloop.
    specialize (Hloop ltac:(simpl; lia) ltac:(lia) [] eq_refl).
    cbn [app take drop] in Hloop. exact Hloop.
  - intros -> Hne. destruct (ga_x numerator) as [|x0 x]; [done|].
    cbn [length seq fold_left]. unfold divide_point at 2.
    cbn [mbind option_bind ga_x ga_y ga_ey lookup list_lookup].
    destruct (ga_y numerator !! 0%nat); cbn [option_bind]; apply divide_loop_fault.
Qed.
End DivideTSplineFacts.

Lemma DivideTSpline_TGraph_points_witness :
  DivideTSpline_TGraph (fun _ x => (x + 1)%Q) two_points five_points
  = Some (mkTGraphArrays "ratio" [1; 2]%Q [10 / 2; 30 / 3]%Q (Some [1 * 2; 3 * 3]%Q))
  /\ DivideTSpline_TGraph (fun _ x => (x - 2)%Q) two_points five_points = None.
Proof.
  split.
  - destruct (DivideTSpline_TGraph_points (fun _ x => (x + 1)%Q) two_points five_points)
      as [Hresult _].
    exact (Hresult [1; 3]%Q eq_refl eq_refl eq_refl).
  - destruct (DivideTSpline_TGraph_points (fun _ x => (x - 2)%Q) two_points five_points)
      as [Hresult _].
    exact (Hresult [1; 3]%Q eq_refl eq_refl eq_refl).
Defined.

Lemma DivideTSpline_TH1_bins_witness :
  let ratio := DivideTSpline_TH1 (fun _ x => (x - 2)%Q) (fun _ i => inject_Z i)
                                 (test_hist "A") (test_hist "B") in
  h_content ratio !! 2%nat = Some 0%Q /\ h_content ratio !! 4%nat = Some (4 / (4 - 2))%Q.
Proof.
  destruct (DivideTSpline_TH1_bins (fun _ x => (x - 2)%Q) (fun _ i => inject_Z i)
              (test_hist "A") (test_hist "B")) as (_ & _ & _ & _ & _ & Hbins).
  split.
  - apply (Hbins 2%nat). simpl. lia.
  - apply (Hbins 4%nat). simpl. lia.
Defined.

(** ** The first occurrence of a word in a string *)

Section TokenFacts.

(** X16: the two string operations that the code applies to a word it has
    found in a string ([erase] of the word from the drawing options,
    [replace] of a token of a label) act on the first occurrence of the
    word: the string is cut into what precedes that occurrence, which does
    not contain the word, and what follows it; erasing joins the two parts
    and replacing puts the new text between them. *)
Theorem token_first_occurrence (s tok by_ : string) :
  tok <> "" -> contains s tok = true ->
  exists before after,
    s = before ++ tok ++ after
    /\ contains before tok = false
    /\ erase_token s tok = before ++ after
    /\ replace_token s tok by_ = before ++ by_ ++ after.
Proof.
  intros Htok. unfold contains, erase_token, replace_token, erase, find.
  destruct (String.index 0 tok s) as [p|] eqn:Hp; [intros _|discriminate].
  exists (String.substring 0 p s),
         (String.substring (p + String.length tok)
                           (String.length s - (p + String.length tok)) s).
  split; [by apply index_split|].
  split; [by rewrite (index_before_none tok s p)|]. done.
Qed.
End TokenFacts.

Lemma token_first_occurrence_witness :
  exists before after,
    "E none none" = before ++ "none" ++ after
    /\ contains before "none" = false
    /\ erase_token "E none none" "none" = before ++ after.
Proof.
  destruct (token_first_occurrence "E none none" "none" "" ltac:(discriminate) eq_refl)
    as (before & after & Hs & Hbefore & Herase & _).
  by exists before, after.
Defined.

(** ** From the series of a pad to its legend *)

Section PadLegendFacts.
Context `{Backend}.
Variable gNameGroupSeparator : string.

(** What the loop over the series has recorded at its end. *)
Lemma data_loop_recorded controlString plotStyle availableData padID datas :
  forall s,
    let s' := data_loop controlString plotStyle availableData padID datas s in
    let recorded := List.filter (labelled_found availableData) datas in
    exists entries,
      lables s' = (lables s ++ map Data.GetLable recorded)%list
      /\ errorStyles s' = (errorStyles s ++ map Data.GetDrawingOptions recorded)%list
      /\ legendEntries s' = (legendEntries s ++ entries)%list
      /\ length entries = length recorded
      /\ Forall (fun o => InheritsFrom "TF1" o = false) entries.
Proof.
  induction datas as [|data datas IH]; intros s.
  - exists []. cbn [List.filter map]. by rewrite !app_nil_r.
  - cbv zeta. rewrite data_loop_cons.
    set (s1 := data_step controlString plotStyle availableData padID s data).
    destruct (IH s1) as (entries & Hl & Hs & He & Hlen & Hall). cbv zeta in *.
    rewrite Hl, Hs, He. cbn [List.filter].
    assert (Hlf : labelled_found availableData data
                  = series_found availableData data
                    && negb (String.eqb (Data.GetLable data) "")) by reflexivity.
    destruct (series_found availableData data) eqn:Hfound.
    + destruct (data_step_found controlString plotStyle availableData padID s data Hfound)
        as (added & obj & o & pad' & w' & i' & Hstep & _ & Hcls).
      fold s1 in Hstep.
      destruct (finish_series_records data s obj o pad' w' i')
        as [(Hl1 & He1 & Hs1 & Hempty)|(Hne & Hl1 & He1 & Hs1)];
        rewrite <- Hstep in Hl1, He1, Hs1; rewrite Hl1, He1, Hs1.
      * rewrite Hempty in Hlf. rewrite Hlf. by exists entries.
      * apply String.eqb_neq in Hne. rewrite Hne in Hlf. rewrite Hlf. cbn [map length].
        rewrite <- !app_assoc. exists (obj :: entries).
        split; [done|]. split; [done|]. split; [done|].
        split; [cbn [length]; by rewrite Hlen|by constructor].
    + destruct (data_step_not_found controlString plotStyle availableData padID s data Hfound)
        as (_ & Hl1 & He1 & Hs1 & _).
      fold s1 in Hl1, He1, Hs1. rewrite Hl1, He1, Hs1, Hlf. by exists entries.
Qed.

(** X17: the legend of a pad, from its series. A legend that MakeLegend
    returns for what the loop over the series of a pad has recorded has one
    entry for each series that was drawn and has a label, in the order of
    the series; the entry is drawn as a line ("l") when the drawing options
    of the series are the string "hist" itself and as points with errors
    ("ep") otherwise; and when the labels contain no token, the entries
    carry the labels of the series as they are. MakeLegend does return a
    legend there for every legend box with at least one column and a title
    without tokens. *)
Theorem legend_of_pad controlString plotStyle availableData padID datas pad w legendBox :
  let d := data_loop controlString plotStyle availableData padID datas
                     (mkDataLoop pad w "" 0 [] [] []) in
  let made := MakeLegend gNameGroupSeparator legendBox (dl_pad d) (legendEntries d)
                         (lables d) (errorStyles d) (dl_world d) in
  let recorded := List.filter (labelled_found availableData) datas in
  (forall legend pad' w',
      made = Some (legend, pad', w') ->
      map snd (l_entries legend) = map style_of_options recorded
      /\ (Forall (fun data => plain_label (Data.GetLable data) = true) recorded ->
          map (fun e => e.1.2) (l_entries legend) = map Data.GetLable recorded))
  /\ (0 < LegendBox.GetNumColumns legendBox ->
      plain_label (LegendBox.GetTitle legendBox) = true ->
      is_Some made).
Proof.
  intros d made recorded.
  destruct (data_loop_recorded controlString plotStyle availableData padID datas
              (mkDataLoop pad w "" 0 [] [] []))
    as (entries & Hl & Hs & He & Hlen & Hall).
  cbv zeta in Hl, Hs, He, Hlen. fold d recorded in Hl, Hs, He, Hlen.
  cbn [lables errorStyles legendEntries app] in Hl, Hs, He.
  split.
  2:{ intros Hcolumns Hplain. subst made.
      apply MakeLegend_returns; [done|done|].
      rewrite Hl, He, length_map. lia. }
  intros legend pad' w' Hmade. subst made.
  apply MakeLegend_inv in Hmade as (sz & Hsz & _ & _ & Hentries & _).
  apply legend_size_inv in Hsz as [_ Hnew].
  rewrite Hentries. rewrite Hl, Hs, He in *.
  split.
  - apply list_eq. intros i.
    rewrite !list_lookup_fmap, list_lookup_imap.
    destruct (entries !! i) as [entry|] eqn:Hentry.
    + destruct (lookup_lt_is_Some_2 recorded i) as [data Hdata].
      { rewrite <- Hlen. by eapply lookup_lt_Some. }
      rewrite Hdata. cbn [fmap option_fmap option_map snd].
      rewrite list_lookup_fmap, Hdata. cbn [fmap option_fmap option_map default].
      unfold entry_drawStyle, style_of_options.
      rewrite Forall_forall in Hall.
      rewrite (Hall entry) by (by eapply list_elem_of_lookup_2). done.
    + rewrite (lookup_ge_None_2 recorded i); [done|].
      rewrite <- Hlen. by apply lookup_ge_None.
  - intros Hplain. apply list_eq. intros i.
    rewrite !list_lookup_fmap, list_lookup_imap.
    destruct (entries !! i) as [entry|] eqn:Hentry.
    + destruct (lookup_lt_is_Some_2 recorded i) as [data Hdata].
      { rewrite <- Hlen. by eapply lookup_lt_Some. }
      rewrite Hdata. cbn [fmap option_fmap option_map fst snd].
      assert (Hi : measured_titles legendBox (map Data.GetLable recorded) !! i
                   = Some (Data.GetLable data)).
      { unfold measured_titles. destruct (negb _).
        - rewrite lookup_app_l by (rewrite length_map; by eapply lookup_lt_Some).
          by rewrite list_lookup_fmap, Hdata.
        - by rewrite list_lookup_fmap, Hdata. }
      apply (f_equal (fun l => l !! i)) in Hnew.
      rewrite list_lookup_imap, Hi, list_lookup_fmap in Hnew. cbn in Hnew.
      unfold rewritten in Hnew. rewrite SubstituteTokens_plain in Hnew.
      2:{ rewrite Forall_forall in Hplain. apply Hplain.
          by eapply list_elem_of_lookup_2. }
      destruct (sz_titles sz !! i) as [label|]; [|done].
      cbn in Hnew. by injection Hnew as <-.
    + rewrite (lookup_ge_None_2 recorded i); [done|].
      rewrite <- Hlen. by apply lookup_ge_None.
Qed.
End PadLegendFacts.

Lemma legend_of_pad_witness :
  let series := [hist_series "A" 0 "hist" "first"; hist_series "Z" 0 "hist" "missing";
                 hist_series "B" 0 "hist E" "second"; hist_series "C" 0 "" ""] in
  let d := @data_loop test_backend "" test_style test_data 1 series
                      (mkDataLoop test_pad test_world "" 0 [] [] []) in
  exists legend pad' w',
    @MakeLegend test_backend "_IN_" auto_legend (dl_pad d) (legendEntries d)
                (lables d) (errorStyles d) (dl_world d)
    = Some (legend, pad', w')
    /\ map (fun e => (e.1.2, e.2)) (l_entries legend) = [("first", "l"); ("second", "ep")].
Proof.
  intros series d.
  destruct (@legend_of_pad test_backend "_IN_" "" test_style test_data 1 series
              test_pad test_world auto_legend) as [Hlegend Hmade].
  destruct (Hmade eq_refl eq_refl) as [[[legend pad'] w'] Hsome].
  fold d in Hsome.
  destruct (Hlegend legend pad' w' Hsome) as [Hstyles Hlabels].
  specialize (Hlabels ltac:(repeat constructor)).
  exists legend, pad', w'. split; [exact Hsome|].
  assert (Hzip : forall l : list (TObject * string * string),
             map (fun e => (e.1.2, e.2)) l
             = zip (map (fun e : TObject * string * string => e.1.2) l) (map snd l)).
  { induction l as [|e l IHl]; [done|]. simpl. by rewrite IHl. }
  rewrite Hzip, Hstyles, Hlabels. reflexivity.
Defined.

(** ** GeneratePlot: what the loop over the series does to the ambient state *)

Section SeriesEffectFacts.
Context `{Backend}.

Lemma series_effect_refl w : series_effect w w.
Proof.
  split; [done|]. split; [exists []; by rewrite app_nil_r|]. split; [done|by left].
Qed.

Lemma series_effect_trans w1 w2 w3 :
  series_effect w1 w2 -> series_effect w2 w3 -> series_effect w1 w3.
Proof.
  intros (Ht & [m Hc] & Hk & Hn) (Ht' & [m' Hc'] & Hk' & Hn').
  split; [congruence|]. split.
  { exists (m ++ m')%list. by rewrite Hc', Hc, app_assoc. }
  split.
  { intros k Hne. by rewrite Hk', Hk. }
  destruct Hn' as [Hn'|Hn']; [|by right]. rewrite Hn'. exact Hn.
Qed.

Lemma series_effect_print msg w : series_effect w (print msg w).
Proof.
  split; [done|]. split; [by exists [msg]|]. split; [done|by left].
Qed.

Lemma series_effect_contours w : series_effect w (style_set "NumberContours" 256%Q w).
Proof.
  split; [done|]. split; [exists []; by rewrite app_nil_r|]. split.
  - intros k Hne. unfold style_set, set_reg. cbn [gStyle]. by apply lookup_insert_ne.
  - right. unfold style_set, set_reg. cbn [gStyle]. apply lookup_insert_eq.
Qed.

Lemma GetDataClone_effect cls name availableData w :
  series_effect w (GetDataClone cls name availableData w).2.
Proof.
  unfold GetDataClone. repeat case_match; cbn [snd];
    first [apply series_effect_refl | apply series_effect_print].
Qed.

Lemma GetDataClone_TH1_effect name availableData w :
  series_effect w (GetDataClone_TH1 name availableData w).2.
Proof.
  unfold GetDataClone_TH1.
  pose proof (GetDataClone_effect "TH1" name availableData w) as Heffect.
  destruct (GetDataClone "TH1" name availableData w) as [[[]|] w']; exact Heffect.
Qed.

Lemma GetDataClone_TGraph_effect name availableData w :
  series_effect w (GetDataClone_TGraph name availableData w).2.
Proof.
  unfold GetDataClone_TGraph.
  pose proof (GetDataClone_effect "TGraph" name availableData w) as Heffect.
  destruct (GetDataClone "TGraph" name availableData w) as [[[]|] w']; exact Heffect.
Qed.

Lemma finish_series_world data s pad w i :
  dl_world (finish_series data s pad w i) = w.
Proof. unfold finish_series. by case_match. Qed.

Lemma draw_hist_effect controlString plotStyle data s w color style i opts cutHigh cutLow histo :
  series_effect w (dl_world (draw_hist controlString plotStyle data s w color style i opts
                                       cutHigh cutLow histo)).
Proof.
  unfold draw_hist.
  match goal with |- context [h_style style color ?h] => generalize (h_style style color h) end.
  intros h0.
  set (p1 := if h_isTH2 h0 then _ else _).
  assert (Hp1 : series_effect w p1.2).
  { subst p1. destruct (h_isTH2 h0); cbn [snd]; [|apply series_effect_refl].
    destruct (String.eqb _ "COLZ");
      [apply series_effect_contours|apply series_effect_refl]. }
  clearbody p1. destruct p1 as [opts1 w1]. cbn [snd] in Hp1.
  set (p2 := if contains opts1 "none" then _ else _). clearbody p2.
  destruct p2 as [opts2 h2].
  set (p3 := if contains opts2 "hist" then _ else _). clearbody p3.
  destruct p3 as [[opts3 h3] pad3].
  by rewrite finish_series_world.
Qed.

Lemma draw_graph_world padID data s w color style i opts cutHigh cutLow graph :
  dl_world (draw_graph padID data s w color style i opts cutHigh cutLow graph) = w.
Proof.
  unfold draw_graph. destruct (boxes_option _ _ _) as [opts' pad'].
  by rewrite finish_series_world.
Qed.

Lemma draw_ratio_world plotStyle data s w color style i opts cutHigh cutLow ratio temp :
  dl_world (draw_ratio plotStyle data s w color style i opts cutHigh cutLow ratio temp) = w.
Proof.
  destruct (draw_ratio_finish plotStyle data s w color style i opts cutHigh cutLow ratio temp)
    as (added & r & o & pad' & i' & -> & _).
  apply finish_series_world.
Qed.

Lemma data_step_effect controlString plotStyle availableData padID s data :
  series_effect (dl_world s)
                (dl_world (data_step controlString plotStyle availableData padID s data)).
Proof.
  unfold data_step.
  destruct (ResolveStyle plotStyle data (dataIndex s)) as [[color style] i].
  destruct (Data.GetKind data) as [hi lo|hi lo denom|hi lo|ty].
  - pose proof (GetDataClone_TH1_effect (Data.GetUniqueName data) availableData (dl_world s))
      as Hclone.
    destruct (GetDataClone_TH1 _ _ _) as [[histo|] w]; cbn [snd] in Hclone; [|exact Hclone].
    eapply series_effect_trans; [exact Hclone|apply draw_hist_effect].
  - pose proof (GetDataClone_TH1_effect (Data.GetUniqueName data) availableData (dl_world s))
      as Hnum.
    destruct (GetDataClone_TH1 (Data.GetUniqueName data) _ _) as [ratio w].
    pose proof (GetDataClone_TH1_effect denom availableData w) as Hden.
    destruct (GetDataClone_TH1 denom _ w) as [temp w']. cbn [snd] in Hnum, Hden.
    assert (Hboth : series_effect (dl_world s) w')
      by (eapply series_effect_trans; eassumption).
    destruct ratio as [ratio|]; [|exact Hboth]. destruct temp as [temp|]; [|exact Hboth].
    by rewrite draw_ratio_world.
  - pose proof (GetDataClone_TGraph_effect (Data.GetUniqueName data) availableData
                                           (dl_world s)) as Hclone.
    destruct (GetDataClone_TGraph _ _ _) as [[graph|] w]; cbn [snd] in Hclone;
      [|exact Hclone].
    by rewrite draw_graph_world.
  - apply series_effect_print.
Qed.

(** X18: what the loop over the series of a pad does to the state around
    it. The date is left alone, the console only gains messages, and of
    the global style at most the number of contours is changed, which is
    then 256 (set when a two-dimensional histogram is drawn with the style
    "COLZ"); every other register of the global style keeps its value. *)
Theorem series_loop_effect controlString plotStyle availableData padID datas s :
  let s' := data_loop controlString plotStyle availableData padID datas s in
  today (dl_world s') = today (dl_world s)
  /\ (exists msgs, cout (dl_world s') = (cout (dl_world s) ++ msgs)%list)
  /\ (forall k, k <> "NumberContours" ->
        gStyle (dl_world s') !! k = gStyle (dl_world s) !! k)
  /\ (gStyle (dl_world s') !! "NumberContours" = gStyle (dl_world s) !! "NumberContours"
      \/ gStyle (dl_world s') !! "NumberContours" = Some 256%Q).
Proof.
  change (series_effect (dl_world s)
            (dl_world (data_loop controlString plotStyle availableData padID datas s))).
  revert s. induction datas as [|data datas IH]; intros s.
  - apply series_effect_refl.
  - rewrite data_loop_cons. eapply series_effect_trans; [|apply IH].
    apply data_step_effect.
Qed.
End SeriesEffectFacts.

Lemma series_loop_effect_witness :
  let s := @data_loop test_backend "" test_style test_data 1
                      [hist_series "E" 0 "" "e"; hist_series "Z" 0 "" "z"]
                      (start_loop test_pad test_world) in
  gStyle (dl_world s) !! "TickLengthX" = Some 0.03%Q
  /\ gStyle (dl_world s) !! "NumberContours" = Some 256%Q.
Proof.
  intros s.
  destruct (@series_loop_effect test_backend "" test_style test_data 1
              [hist_series "E" 0 "" "e"; hist_series "Z" 0 "" "z"]
              (start_loop test_pad test_world)) as (_ & _ & Hkeep & _).
  split; [|reflexivity]. subst s. rewrite Hkeep by discriminate. reflexivity.
Defined.

(** ** MakeLegend: the width of a legend with one column *)

Section LegendWidthFacts.
Context `{Backend}.
Variable gNameGroupSeparator : string.

Lemma Qltb_inject_Z (a b : Z) : Qltb (0 + inject_Z a) (inject_Z b) = (a <? b).
Proof.
  destruct (Z.ltb_spec a b) as [Hlt|Hge].
  - apply Qltb_lt. unfold Qlt. simpl. lia.
  - apply Qltb_ge. unfold Qle. simpl. lia.
Qed.

Lemma foldr_max_nonneg (l : list Z) : 0 <= foldr Z.max 0 l.
Proof. induction l as [|a l IHl]; cbn [foldr]; lia. Qed.

(** The turns of the labels, with one column: the column is as wide as
    the widest label so far. *)
Lemma measure_loop_single legendEntries hasTitle size legendTitles :
  forall (new : list string) m (k : nat) (v : Z),
    iLegend m = Z.of_nat k + 1 -> iColumn m = 0 -> legendWidthPixelPerColumn m = [v] ->
    0 <= v ->
    hasTitle = false \/ Z.of_nat (k + length legendTitles) < size ->
    imap (fun j => rewritten gNameGroupSeparator legendEntries (k + j)) legendTitles
    = Some <$> new ->
    exists m',
      fold_left (fun m title =>
                   m ← m;
                   measure_step gNameGroupSeparator legendEntries hasTitle size 1 m title)
                legendTitles (Some m)
      = Some m'
      /\ m_titles m' = (m_titles m ++ new)%list
      /\ iColumn m' = 0
      /\ legendWidthPixelPerColumn m'
         = [Z.max v (foldr Z.max 0
                       (map (fun label => Z.of_N (GetBoundingBox label).1) new))]
      /\ iLegend m' = Z.of_nat (k + length legendTitles) + 1
      /\ titleWidthPixel m' = titleWidthPixel m.
Proof.
  induction legendTitles as [|title rest IH];
    intros new m k v Hi Hcolumn Hwidths Hv Hturns Hnew.
  - destruct new; [|done]. exists m. cbn [fold_left map foldr length].
    rewrite Hwidths, Hi, app_nil_r.
    split; [done|]. split; [done|]. split; [done|]. split; [f_equal; lia|].
    split; [f_equal; lia|done].
  - destruct new as [|label new]; [done|].
    cbn [imap fmap list_fmap] in Hnew. injection Hnew as Hlabel Hnew.
    unfold rewritten in Hlabel. rewrite Nat.add_0_r in Hlabel.
    replace (Z.of_nat k) with (iLegend m - 1) in Hlabel by lia.
    assert (Hturn : hasTitle && (iLegend m =? size) = false).
    { destruct Hturns as [->|Hlt]; [done|]. apply andb_false_iff. right.
      apply Z.eqb_neq. cbn [length] in Hlt. lia. }
    destruct (measure_step_turn gNameGroupSeparator legendEntries hasTitle size 1 m
                title label ltac:(lia) ltac:(lia) ltac:(by rewrite Hwidths) Hlabel)
      as (m1 & Hstep & Htitles1 & _ & _ & _ & Hm1).
    rewrite Hturn in Hm1. destruct Hm1 as (Hi1 & Hc1 & Ht1 & Hw1).
    rewrite Hcolumn, Hwidths in Hw1. rewrite Hcolumn in Hc1.
    change (Z.rem (0 + 1) 1) with 0 in Hc1.
    change (Z.to_nat 0) with 0%nat in Hw1. cbn [lookup list_lookup default] in Hw1.
    change (id v) with v in Hw1.
    assert (Hw1' : legendWidthPixelPerColumn m1
                   = [Z.max v (Z.of_N (GetBoundingBox label).1)]).
    { rewrite Hw1. destruct (Z.ltb_spec v (Z.of_N (GetBoundingBox label).1));
        cbn [insert list_insert]; f_equal; lia. }
    cbn [fold_left mbind option_bind]. rewrite Hstep.
    destruct (IH new m1 (S k) _ ltac:(lia) Hc1 Hw1' ltac:(lia))
      as (m' & Hloop & Htitles & Hc & Hw & Hi' & Ht).
    { destruct Hturns as [->|Hlt]; [by left|right]. cbn [length] in Hlt. lia. }
    { rewrite <- Hnew. apply imap_ext. intros j t _. cbn. f_equal. lia. }
    exists m'. split; [exact Hloop|].
    split; [by rewrite Htitles, Htitles1, <- app_assoc|].
    split; [exact Hc|]. split; [|split; [|congruence]].
    + rewrite Hw. cbn [map foldr]. f_equal. lia.
    + rewrite Hi'. cbn [length]. f_equal. lia.
Qed.

(** X19: the width of a legend with one column whose sizes are measured
    without fault. The labels, with their tokens replaced, are measured
    and the widest counts; the legend is as wide as that label plus 1.3333
    times the width of the marker (the text "AAA"), in units of the width of
    the pad. Only when the legend box has a title that, as it is rewritten
    in its turn (from the entry read past those of the labels), is wider
    than every label is the legend as wide as the title plus 0.3333 times
    the marker. *)
Theorem single_column_legend_width legendBox pad legendEntries legendTitles sz :
  LegendBox.GetNumColumns legendBox = 1 ->
  legend_size gNameGroupSeparator legendBox pad legendEntries legendTitles = Some sz ->
  let width := fun label => Z.of_N (GetBoundingBox label).1 in
  let labels := take (length legendTitles) (sz_titles sz) in
  let widest := foldr Z.max 0 (map width labels) in
  let titleWidth :=
    match sz_titles sz !! length legendTitles with
    | Some title => width title
    | None => 0
    end in
  let padWidth := inject_Z (XtoPixel pad (GetX2 pad)) in
  imap (rewritten gNameGroupSeparator legendEntries)
       (measured_titles legendBox legendTitles)
  = Some <$> sz_titles sz
  /\ (totalWidthNDC sz
      == if widest <? titleWidth
         then (0.3333 * inject_Z (width "AAA") + inject_Z titleWidth) / padWidth
         else (1.3333 * inject_Z (width "AAA") + inject_Z widest) / padWidth)%Q.
Proof.
  intros Hcolumns Hsz width labels widest titleWidth padWidth.
  destruct (legend_size_inv gNameGroupSeparator _ _ _ _ _ Hsz) as [_ Hnew].
  split; [exact Hnew|].
  assert (Hloop : exists m,
             fold_left
               (fun m title =>
                  m ← m;
                  measure_step gNameGroupSeparator legendEntries
                    (negb (String.eqb (LegendBox.GetTitle legendBox) ""))
                    (Z.of_nat (length (measured_titles legendBox legendTitles))) 1 m title)
               (measured_titles legendBox legendTitles)
               (Some (mkMeasure [] 0 1 0%Q 0%Q [0]))
             = Some m
             /\ m_titles m = sz_titles sz
             /\ legendWidthPixelPerColumn m = [widest]
             /\ titleWidthPixel m = inject_Z titleWidth).
  { unfold measured_titles in *.
    destruct (String.eqb (LegendBox.GetTitle legendBox) "") eqn:Htitle; cbn [negb] in *.
    - assert (Hlen : length (sz_titles sz) = length legendTitles).
      { apply (f_equal length) in Hnew. by rewrite length_imap, length_fmap in Hnew. }
      destruct (measure_loop_single legendEntries false
                  (Z.of_nat (length legendTitles)) legendTitles (sz_titles sz)
                  (mkMeasure [] 0 1 0%Q 0%Q [0]) 0%nat 0)
        as (m & Hfold & Htitles & _ & Hw & _ & Ht); try done; [by left|].
      exists m. split; [exact Hfold|]. split; [exact Htitles|].
      rewrite Hw, Ht. subst titleWidth widest labels.
      rewrite (lookup_ge_None_2 (sz_titles sz)) by lia.
      rewrite firstn_all2 by lia.
      split; [|reflexivity]. f_equal. apply Z.max_r, foldr_max_nonneg.
    - rewrite imap_app in Hnew. symmetry in Hnew.
      apply fmap_app_inv in Hnew as (new & last & Hfirst & Hlast & Hsplit).
      assert (Hlen : length new = length legendTitles).
      { apply (f_equal length) in Hfirst. by rewrite length_imap, length_fmap in Hfirst. }
      destruct last as [|text [|]]; try done.
      cbn [imap fmap list_fmap] in Hlast. injection Hlast as Htext.
      rewrite Nat.add_0_r in Htext.
      rewrite fold_left_app, length_app. cbn [length fold_left].
      destruct (measure_loop_single legendEntries true
                  (Z.of_nat (length legendTitles + 1)) legendTitles new
                  (mkMeasure [] 0 1 0%Q 0%Q [0]) 0%nat 0)
        as (m1 & -> & Htitles1 & Hc1 & Hw1 & Hi1 & _); try done; [right; lia|].
      cbn [mbind option_bind].
      destruct (measure_step_turn gNameGroupSeparator legendEntries true
                  (Z.of_nat (length legendTitles + 1)) 1 m1
                  (LegendBox.GetTitle legendBox) text ltac:(lia) ltac:(lia)
                  ltac:(by rewrite Hw1))
        as (m & Hstep & Htitles & _ & _ & _ & Hm).
      { rewrite Hi1. rewrite Nat.add_0_l.
        replace (Z.of_nat (length legendTitles) + 1 - 1)
          with (Z.of_nat (length legendTitles)) by lia.
        unfold rewritten in Htext. by rewrite <- Htext. }
      replace (iLegend m1 =? Z.of_nat (length legendTitles + 1)) with true in Hm
        by (symmetry; apply Z.eqb_eq; lia).
      cbn [andb] in Hm. destruct Hm as (_ & Ht & Hw).
      exists m. split; [exact Hstep|].
      split; [by rewrite Htitles, Htitles1, Hsplit|].
      rewrite Hw, Hw1, Ht. subst titleWidth widest labels. rewrite Hsplit.
      rewrite take_app_length' by done.
      rewrite lookup_app_r by lia. rewrite Hlen, Nat.sub_diag. cbn [lookup list_lookup].
      split; [|reflexivity]. f_equal. apply Z.max_r, foldr_max_nonneg. }
  destruct Hloop as (m & Hfold & Htitles & Hw & Ht).
  unfold legend_size in Hsz. rewrite Hcolumns in Hsz.
  change (1 <? 0) with false in Hsz. cbv iota in Hsz.
  change (Z.to_nat 1) with 1%nat in Hsz. cbn [replicate] in Hsz.
  fold (measured_titles legendBox legendTitles) in Hsz.
  rewrite Hfold in Hsz. cbn [mbind option_bind] in Hsz.
  unfold Qdiv_finite in Hsz. change (Qeq_bool (inject_Z 1) 0) with false in Hsz.
  cbn [mbind option_bind] in Hsz. injection Hsz as <-. cbn [totalWidthNDC].
  rewrite Hw, Ht. cbn [fold_left].
  rewrite Qltb_inject_Z.
  unfold Qdiv. fold padWidth. fold (width "AAA").
  generalize (/ padWidth)%Q. intros inv.
  destruct (widest <? titleWidth).
  - ring.
  - change (inject_Z 1) with 1%Q. ring.
Qed.
End LegendWidthFacts.

Lemma single_column_legend_width_witness :
  exists sz,
    @legend_size test_backend "_IN_" auto_legend test_pad three_entries
                 ["a"; "<name>"; "ccc"]
    = Some sz
    /\ sz_titles sz = ["a"; "B"; "ccc"]
    /\ (totalWidthNDC sz == (1.3333 * 30 + 30) / 400)%Q.
Proof.
  destruct (@legend_size test_backend "_IN_" auto_legend test_pad three_entries
                         ["a"; "<name>"; "ccc"]) as [sz|] eqn:Hsz;
    [|vm_compute in Hsz; discriminate Hsz].
  destruct (@single_column_legend_width test_backend "_IN_" auto_legend test_pad
              three_entries ["a"; "<name>"; "ccc"] sz eq_refl Hsz) as [_ Hwidth].
  assert (Htitles : sz_titles sz = ["a"; "B"; "ccc"]).
  { vm_compute in Hsz. injection Hsz as <-. reflexivity. }
  exists sz. split; [reflexivity|]. split; [exact Htitles|].
  rewrite Hwidth, Htitles. vm_compute. reflexivity.
Defined.

(** ** The name shown for the token <name> *)

Section NameTokenFacts.

Lemma string_app_assoc (a b c : string) : (a ++ b) ++ c = a ++ b ++ c.
Proof. induction a as [|x a IH]; [done|]. by rewrite !append_cons, IH. Qed.

Lemma substring_app_l (a b : string) (n m : nat) :
  (n + m <= String.length a)%nat ->
  String.substring n m (a ++ b) = String.substring n m a.
Proof.
  revert n m. induction a as [|x a IH]; intros n m Hle.
  - cbn [String.length] in Hle. assert (n = 0%nat) as -> by lia.
    assert (m = 0%nat) as -> by lia. by destruct b.
  - rewrite append_cons. cbn [String.length] in Hle. destruct n as [|n].
    + destruct m as [|m]; [done|]. cbn [String.substring]. f_equal. apply IH. lia.
    + cbn [String.substring]. apply IH. lia.
Qed.

Lemma substring_app_r (a b : string) (m : nat) :
  String.substring (String.length a) m (a ++ b) = String.substring 0 m b.
Proof. induction a as [|x a IH]; [done|]. rewrite append_cons. exact IH. Qed.

Lemma substring_prefix (a b : string) :
  String.substring 0 (String.length a) (a ++ b) = a.
Proof.
  rewrite substring_app_l by (cbn; lia). apply substring_all.
Qed.

Lemma substring_split (s : string) (p : nat) :
  (p <= String.length s)%nat ->
  s = String.substring 0 p s ++ String.substring p (String.length s - p) s.
Proof.
  revert p. induction s as [|x s IH]; intros p Hp.
  - cbn [String.length] in Hp. by assert (p = 0%nat) as -> by lia.
  - destruct p as [|p].
    + change (String.substring 0 0 (String x s)) with "".
      rewrite Nat.sub_0_r. by rewrite substring_all.
    + cbn [String.length] in Hp. cbn [String.substring String.length Nat.sub].
      rewrite append_cons. f_equal. apply IH. lia.
Qed.

(** The first occurrence of a word is not after an occurrence of it. *)
Lemma index_le_occurrence (sep s : string) (q : nat) :
  sep <> "" -> String.substring q (String.length sep) s = sep ->
  exists p, String.index 0 sep s = Some p /\ (p <= q)%nat.
Proof.
  intros Hsep Hq. destruct (String.index 0 sep s) as [p|] eqn:Hp.
  - exists p. split; [done|]. destruct (Nat.le_gt_cases p q) as [|Hlt]; [done|].
    exfalso. by apply (String.index_correct2 0 p sep s Hp q); [lia| |].
  - exfalso. by apply (String.index_correct3 0 q sep s Hp); [|lia|].
Qed.

Lemma substring_length (s : string) (p : nat) :
  (p <= String.length s)%nat -> String.length (String.substring 0 p s) = p.
Proof.
  revert p. induction s as [|x s IH]; intros p Hp.
  - cbn [String.length] in Hp. by assert (p = 0%nat) as -> by lia.
  - destruct p as [|p]; [done|]. cbn [String.length] in Hp.
    cbn [String.substring String.length]. f_equal. apply IH. lia.
Qed.

(** X20: the name that the token <name> shows. The object found for a
    series has the unique name of the series, which inc/Plot.h builds as
    the name, the separator and the input identifier; MakeLegend shows what
    precedes the first separator in it. That is always a leading part of
    the name of the series, and it is the whole name exactly when the
    separator does not occur earlier, that is when in the name followed by
    the separator the separator is first found at the end of the name; in
    every other case what is shown is shorter than the name. *)
Theorem name_token_shows_data_name (gNameGroupSeparator : string) (d : PlotH.Data) :
  gNameGroupSeparator <> "" ->
  let shown := substr_until (Data_GetUniqueName gNameGroupSeparator d)
                            gNameGroupSeparator in
  (exists rest, PlotH.mName d = shown ++ rest)
  /\ (shown = PlotH.mName d
      <-> find (PlotH.mName d ++ gNameGroupSeparator) gNameGroupSeparator
          = Some (String.length (PlotH.mName d)))
  /\ (shown <> PlotH.mName d
      -> (String.length shown < String.length (PlotH.mName d))%nat).
Proof.
  intros Hsep shown. subst shown. unfold Data_GetUniqueName, substr_until, find.
  set (name := PlotH.mName d). set (input := PlotH.mInputIdentifier d).
  set (sep := gNameGroupSeparator) in *.
  destruct (index_le_occurrence sep (name ++ sep ++ input) (String.length name) Hsep)
    as (p & Hp & Hle).
  { by rewrite substring_app_r, substring_prefix. }
  rewrite Hp. rewrite (substring_app_l name (sep ++ input) 0 p) by (cbn; lia).
  split; [|split].
  - exists (String.substring p (String.length name - p) name). by apply substring_split.
  - split.
    + intros Hshown.
      assert (p = String.length name) as ->.
      { transitivity (String.length (String.substring 0 p name));
          [symmetry; by apply substring_length|by rewrite Hshown]. }
      destruct (index_le_occurrence sep (name ++ sep) (String.length name) Hsep)
        as (p' & Hp' & Hle').
      { rewrite substring_app_r. apply substring_all. }
      rewrite Hp'. f_equal.
      destruct (Nat.eq_dec p' (String.length name)) as [|Hne]; [done|]. exfalso.
      apply (String.index_correct2 0 (String.length name) sep (name ++ sep ++ input)
                                   Hp p'); [lia|lia|].
      rewrite <- string_app_assoc.
      rewrite (substring_app_l (name ++ sep) input p' (String.length sep))
        by (rewrite string_length_app; lia).
      by apply String.index_correct1 in Hp'.
    + intros Hend. assert (p = String.length name) as ->; [|apply substring_all].
      destruct (Nat.eq_dec p (String.length name)) as [|Hne]; [done|]. exfalso.
      apply (String.index_correct2 0 (String.length name) sep (name ++ sep) Hend p);
        [lia|lia|].
      rewrite <- (substring_app_l (name ++ sep) input p (String.length sep))
        by (rewrite string_length_app; lia).
      rewrite string_app_assoc. by apply String.index_correct1 in Hp.
  - intros Hshown. rewrite substring_length by done.
    destruct (Nat.eq_dec p (String.length name)) as [->|Hne]; [|lia].
    exfalso. apply Hshown, substring_all.
Qed.
End NameTokenFacts.

Lemma name_token_shows_data_name_witness :
  substr_until (Data_GetUniqueName "_IN_" (named_data "ptSpectrum" "run2")) "_IN_"
  = "ptSpectrum"
  /\ substr_until (Data_GetUniqueName "_IN_" (named_data "yield_IN" "run2")) "_IN_"
     <> "yield_IN".
Proof.
  split.
  - destruct (name_token_shows_data_name "_IN_" (named_data "ptSpectrum" "run2")
                ltac:(discriminate)) as (_ & Hname & _).
    exact (proj2 Hname eq_refl).
  - destruct (name_token_shows_data_name "_IN_" (named_data "yield_IN" "run2")
                ltac:(discriminate)) as (_ & Hname & _).
    intros Hshown. apply (proj1 Hname) in Hshown. vm_compute in Hshown.
    discriminate Hshown.
Defined.

(** ** GeneratePlot: a pad whose data are all missing *)

Section PadWithoutDataFacts.
Context `{Backend}.
Variable gNameGroupSeparator : string.

Lemma data_loop_all_missing controlString plotStyle availableData padID datas :
  Forall (fun data => series_found availableData data = false) datas ->
  forall s,
    let s' := data_loop controlString plotStyle availableData padID datas s in
    dl_pad s' = dl_pad s /\ lables s' = lables s.
Proof.
  intros Hall. induction Hall as [|data datas Hdata Hall IH]; intros s; [done|].
  cbv zeta. rewrite data_loop_cons.
  destruct (IH (data_step controlString plotStyle availableData padID s data)) as [-> ->].
  destruct (data_step_not_found controlString plotStyle availableData padID s data Hdata)
    as (-> & -> & _). done.
Qed.

Lemma set_pad_flags_drawn controlString pad :
  drawn (set_pad_flags controlString pad) = drawn pad.
Proof.
  unfold set_pad_flags. cbn [fold_left]. by repeat case_match.
Qed.

(** The search for the object with the axes, read off the draw directives. *)
Lemma find_axis_object_drawn pad :
  find_axis_object pad
  = match drawn pad with
    | [] => PadSkipped
    | _ :: _ =>
        match List.find (fun d : TObject * string => holds_axes d.1) (drawn pad) with
        | Some d => AxisOf d.1
        | None => NullAxisObject
        end
    end.
Proof.
  unfold find_axis_object, drawn.
  assert (Hfind : forall l : list Prim,
             (fun d : TObject * string => AxisOf d.1)
               <$> List.find (fun d : TObject * string => holds_axes d.1)
                             (map (fun p => (p_obj p, p_opt p)) l)
             = (fun p => AxisOf (p_obj p))
                 <$> List.find (fun p => holds_axes (p_obj p)) l).
  { induction l as [|p l IHl]; [done|]. cbn [map List.find fst].
    by destruct (holds_axes (p_obj p)). }
  specialize (Hfind (pad_prims pad)).
  destruct (pad_prims pad) as [|p l]; [done|].
  set (found := List.find (fun p0 => holds_axes (p_obj p0)) (p :: l)) in *.
  set (found' := List.find (fun d : TObject * string => holds_axes d.1)
                           (map (fun p0 => (p_obj p0, p_opt p0)) (p :: l))) in *.
  cbn [map]. destruct found, found'; cbn in Hfind; congruence.
Qed.

(** The settings of the axes, by the object with the axes: an empty pad
    is left by [continue], a null object is a fault, and with an object
    the settings are made when its histogram is at hand. *)
Lemma FinalizeAxes_cases plot plotStyle padStyle padID pad w :
  match find_axis_object pad with
  | PadSkipped =>
      FinalizeAxes plot plotStyle padStyle padID pad w = Some (pad, w, false)
  | NullAxisObject => FinalizeAxes plot plotStyle padStyle padID pad w = None
  | AxisOf axisObject =>
      exists pad' w',
        FinalizeAxes plot plotStyle padStyle padID pad w
        = Some (pad', w', (find_axisHist axisObject w).1)
        /\ w' = (if (find_axisHist axisObject w).1 then (find_axisHist axisObject w).2
                 else print "ERROR: unable to access axes!!" (find_axisHist axisObject w).2)
  end.
Proof.
  unfold FinalizeAxes. destruct (find_axis_object pad) as [| |axisObject]; [done|done|].
  destruct (find_axisHist axisObject w) as [found w1]. cbn [fst snd].
  destruct found; cbn [negb]; by eexists _, _.
Qed.

(** Without labels the loop over the boxes comes to its end and draws
    texts only. *)
Lemma box_loop_no_labels_objects legendEntries errorStyles boxes :
  (forall w pad, drawn (PadUpdate w pad) = drawn pad) ->
  forall s,
    exists s' added,
      box_loop gNameGroupSeparator [] legendEntries errorStyles boxes s = Some s'
      /\ bl_world s' = bl_world s
      /\ drawn (bl_pad s') = (drawn (bl_pad s) ++ added)%list
      /\ Forall (fun d : TObject * string => holds_axes d.1 = false) added
      /\ (added = [] <-> existsb is_text_box (before_legend boxes) = false).
Proof.
  intros Hupdate. induction boxes as [|box rest IH]; intros s.
  - exists s, []. by rewrite app_nil_r.
  - destruct box as [legendBox|textBox|ty]; cbn [box_loop before_legend existsb is_text_box].
    + exists s, []. by rewrite app_nil_r.
    + pose proof (MakeText_pad textBox (bl_pad s) (bl_world s)) as Hpad.
      destruct (MakeText textBox (bl_pad s) (bl_world s)) as [t pad']. cbn [snd] in Hpad.
      match goal with
      | |- context [box_loop _ _ _ _ rest ?s1] =>
          destruct (IH s1) as (s' & added & -> & Hw & Hd & Hall & _)
      end.
      cbn [bl_pad bl_world] in Hd, Hw.
      exists s', ((ObjTPaveText (t_with_name ("TextBox_" ++ to_string (textIndex s)) t),
                   "SAME") :: added).
      assert (Hsame : drawn pad' = drawn (bl_pad s)).
      { subst pad'. destruct (Box.IsUserCoordinates _); [apply Hupdate|done]. }
      rewrite Hd, drawn_Draw, <- app_assoc, Hsame.
      split; [done|]. split; [done|]. split; [done|]. split; [by constructor|done].
    + apply IH.
Qed.

(** X21: a pad whose series are all without data, when updating a pad does
    not change its list of primitives. No series is drawn and no label is
    recorded, so the pad that reaches the settings of the axes holds
    nothing but the texts of the text boxes that come before the first
    legend box. Without such a text box the pad is empty and is left by
    [continue]: the pad is in the canvas and the pad number stays. With
    one, no primitive is a histogram, a graph or a function, and the
    object with the axes is null where the code goes on to call a method
    of it: the turn, and the run with it, ends in a fault. *)
Theorem pad_without_data plot plotStyle availableData s padStyle :
  (forall w pad, drawn (PadUpdate w pad) = drawn pad) ->
  Forall (fun data => series_found availableData data = false)
         (Plot.GetData plot (padID s)) ->
  exists pad w,
    pad_step gNameGroupSeparator plot plotStyle availableData s padStyle
    = (finalized ← FinalizeAxes plot plotStyle padStyle (padID s) pad w;
       let '(pad', w', completed) := (finalized : TPad * World * bool) in
       Some (mkPadLoop (pl_pads s ++ [pad'])%list
                       (if completed then padID s + 1 else padID s) w'))
    /\ find_axis_object pad
       = (if existsb is_text_box (before_legend (Plot.GetBoxes plot (padID s)))
          then NullAxisObject else PadSkipped)
    /\ pad_step gNameGroupSeparator plot plotStyle availableData s padStyle
       = (if existsb is_text_box (before_legend (Plot.GetBoxes plot (padID s)))
          then None
          else Some (mkPadLoop (pl_pads s ++ [pad])%list (padID s) w)).
Proof.
  intros Hupdate Hmissing. unfold pad_step.
  match goal with
  | |- context [data_loop ?cs ?ps ?av ?id ?datas ?s0] =>
      destruct (data_loop_all_missing cs ps av id datas Hmissing s0) as [Hpad Hlables];
      cbv zeta in Hpad, Hlables; cbn [dl_pad lables] in Hpad, Hlables;
      set (d := data_loop cs ps av id datas s0) in *
  end.
  rewrite Hlables, Hpad.
  match goal with
  | |- context [box_loop _ [] ?le ?es ?boxes ?s1] =>
      destruct (box_loop_no_labels_objects le es boxes Hupdate s1)
        as (b & added & Hloop & _ & Hd & Hall & Hnone)
  end.
  rewrite Hloop. cbn [mbind option_bind].
  exists (bl_pad b), (bl_world b).
  cbn [bl_pad] in Hd. rewrite set_pad_flags_drawn in Hd.
  change (drawn (pad_set _ _ (pad_set _ _ (pad_set _ _ (pad_set _ _ (pad_set _ _
           (pad_set _ _ (new_TPad _ _ _ _ _)))))))) with (@nil (TObject * string)) in Hd.
  cbn [app] in Hd.
  assert (Haxis : find_axis_object (bl_pad b)
                  = if existsb is_text_box (before_legend (Plot.GetBoxes plot (padID s)))
                    then NullAxisObject else PadSkipped).
  { rewrite find_axis_object_drawn, Hd.
    destruct added as [|d0 added].
    - by rewrite (proj1 Hnone eq_refl).
    - destruct (existsb is_text_box _) eqn:Htext;
        [|discriminate (proj2 Hnone eq_refl)].
      assert (Hfind : List.find (fun d : TObject * string => holds_axes d.1) (d0 :: added)
                      = None).
      { clear -Hall. induction Hall as [|x l Hx Hl IHl]; [done|].
        cbn [List.find]. by rewrite Hx. }
      by rewrite Hfind. }
  split; [reflexivity|]. split; [exact Haxis|].
  pose proof (FinalizeAxes_cases plot plotStyle padStyle (padID s) (bl_pad b) (bl_world b))
    as Hcases.
  rewrite Haxis in Hcases.
  destruct (existsb is_text_box _); by rewrite Hcases.
Qed.
End PadWithoutDataFacts.

Lemma pad_without_data_witness :
  exists pad,
    find_axis_object pad = NullAxisObject
    /\ @pad_step test_backend "_IN_" plot_without_data test_style test_data
                 (mkPadLoop [] 1 test_world) test_padStyle
       = None.
Proof.
  destruct (@pad_without_data test_backend "_IN_" plot_without_data test_style
              test_data (mkPadLoop [] 1 test_world) test_padStyle (fun _ _ => eq_refl))
    as (pad & w & _ & Haxis & Hstep).
  { repeat constructor. }
  exists pad. split; [exact Haxis|exact Hstep].
Defined.

(** ** GeneratePlot: a pad with data *)

Section PadWithDataFacts.
Context `{Backend}.
Variable gNameGroupSeparator : string.

(** A series whose data are found adds a histogram or a graph to the pad. *)
Lemma data_step_found_axes controlString plotStyle availableData padID s data :
  series_found availableData data = true ->
  exists added obj o,
    drawn (dl_pad (data_step controlString plotStyle availableData padID s data))
    = (drawn (dl_pad s) ++ added ++ [(obj, o)])%list
    /\ holds_axes obj = true.
Proof.
  unfold series_found, data_step. intros Hfound.
  destruct (ResolveStyle plotStyle data (dataIndex s)) as [[color style] i].
  destruct (Data.GetKind data) as [hi lo|hi lo denom|hi lo|ty]; [| | |discriminate].
  - apply bool_decide_eq_true in Hfound as [histo Hh].
    rewrite (GetDataClone_TH1_found _ _ _ _ Hh).
    match goal with
    | |- context [draw_hist ?a ?b ?c ?d ?e ?f ?g ?h ?k ?l ?m ?n] =>
        destruct (draw_hist_drawn a b c d e f g h k l m n)
        as (execs & r & o & pad' & w' & -> & _ & Hd & _)
    end.
    exists execs, (ObjTH1 r), o.
    by rewrite finish_series_pad, drawn_Draw, Hd, <- app_assoc.
  - apply andb_true_iff in Hfound as [Hnum Hden].
    apply bool_decide_eq_true in Hnum as [ratio Hnum].
    apply bool_decide_eq_true in Hden as [temp Hden].
    rewrite (GetDataClone_TH1_found _ _ _ _ Hnum), (GetDataClone_TH1_found _ _ _ _ Hden).
    match goal with
    | |- context [draw_ratio ?a ?b ?c ?d ?e ?f ?g ?h ?k ?l ?m ?n] =>
        destruct (draw_ratio_finish a b c d e f g h k l m n)
        as (added & r & o & pad' & i' & -> & Hd)
    end.
    exists added, (ObjTH1 r), o.
    by rewrite finish_series_pad, drawn_Draw, Hd, <- app_assoc.
  - apply bool_decide_eq_true in Hfound as [graph Hg].
    rewrite (GetDataClone_TGraph_found _ _ _ _ Hg).
    match goal with
    | |- context [draw_graph ?a ?b ?c ?d ?e ?f ?g ?h ?k ?l ?m] =>
        destruct (draw_graph_drawn a b c d e f g h k l m)
        as (execs & r & o & pad' & w' & -> & _ & Hd & _)
    end.
    exists execs, (ObjTGraph r), o.
    by rewrite finish_series_pad, drawn_Draw, Hd, <- app_assoc.
Qed.

(** Among the draw directives of a pad there is one for a histogram, a
    graph or a function. *)
Lemma data_loop_holds_axes controlString plotStyle availableData padID datas :
  Exists (fun data => series_found availableData data = true) datas ->
  forall s,
    existsb (fun d : TObject * string => holds_axes d.1)
            (drawn (dl_pad (data_loop controlString plotStyle availableData padID datas s)))
    = true.
Proof.
  intros Hsome. induction Hsome as [data datas Hfound|data datas Hsome IH]; intros s.
  - rewrite data_loop_cons.
    destruct (data_step_found_axes controlString plotStyle availableData padID s data Hfound)
      as (added & obj & o & Hd & Hobj).
    destruct (data_loop_drawn controlString plotStyle availableData padID datas
                (data_step controlString plotStyle availableData padID s data))
      as (later & ->).
    rewrite Hd, !existsb_app. cbn [existsb fst]. rewrite Hobj.
    by rewrite !orb_true_r.
  - rewrite data_loop_cons. apply IH.
Qed.

(** The first of the draw directives that is for a histogram, a graph or
    a function. *)
Lemma first_with_axes (l : list (TObject * string)) :
  existsb (fun d => holds_axes d.1) l = true ->
  exists before axisObject after,
    l = (before ++ axisObject :: after)%list
    /\ List.find (fun d : TObject * string => holds_axes d.1) l = Some axisObject
    /\ holds_axes axisObject.1 = true
    /\ Forall (fun d : TObject * string => holds_axes d.1 = false) before.
Proof.
  induction l as [|d l IHl]; [discriminate|]. cbn [existsb List.find].
  destruct (holds_axes d.1) eqn:Hd.
  - intros _. by exists [], d, l.
  - cbn [orb]. intros Hl. destruct (IHl Hl) as (before & o & after & -> & Hf & Ho & Hb).
    exists (d :: before), o, after. repeat split; try done. by constructor.
Qed.

(** The turn of a pad in which a series has data. *)
Lemma pad_step_with_data plot plotStyle availableData s padStyle :
  (forall w pad, drawn (PadUpdate w pad) = drawn pad) ->
  Exists (fun data => series_found availableData data = true)
         (Plot.GetData plot (padID s)) ->
  forallb legend_box_ok (Plot.GetBoxes plot (padID s)) = true ->
  exists pad w before axisObject after pad' w',
    find_axis_object pad = AxisOf axisObject.1
    /\ drawn pad = (before ++ axisObject :: after)%list
    /\ holds_axes axisObject.1 = true
    /\ Forall (fun d : TObject * string => holds_axes d.1 = false) before
    /\ FinalizeAxes plot plotStyle padStyle (padID s) pad w
       = Some (pad', w', (find_axisHist axisObject.1 w).1)
    /\ pad_step gNameGroupSeparator plot plotStyle availableData s padStyle
       = Some (mkPadLoop (pl_pads s ++ [pad'])%list
                         (if (find_axisHist axisObject.1 w).1
                          then padID s + 1 else padID s) w').
Proof.
  intros Hupdate Hsome Hok. unfold pad_step.
  match goal with
  | |- context [data_loop ?cs ?ps ?av ?id ?datas ?s0] =>
      set (d := data_loop cs ps av id datas s0);
      destruct (data_loop_aligned cs ps av id datas s0 eq_refl eq_refl) as [Hle Hls];
      pose proof (data_loop_holds_axes cs ps av id datas Hsome s0) as Hholds
  end.
  cbv zeta in Hle, Hls. fold d in Hle, Hls, Hholds.
  match goal with
  | |- context [box_loop _ ?ls ?le ?es ?bs ?s1] =>
      destruct (box_loop_returns gNameGroupSeparator ls le es bs Hok ltac:(lia) s1)
        as [b Hloop];
      destruct (boxes_drawn_prefix gNameGroupSeparator ls le es bs s1 b Hupdate Hloop)
        as (added & Hadded)
  end.
  rewrite Hloop. cbn [mbind option_bind].
  cbn [bl_pad] in Hadded. rewrite set_pad_flags_drawn in Hadded.
  assert (Hb : existsb (fun d : TObject * string => holds_axes d.1) (drawn (bl_pad b))
               = true).
  { by rewrite Hadded, existsb_app, Hholds. }
  destruct (first_with_axes _ Hb) as (before & axisObject & after & Hl & Hfind & Hobj & Hbefore).
  assert (Haxis : find_axis_object (bl_pad b) = AxisOf axisObject.1).
  { rewrite find_axis_object_drawn, Hfind, Hl. by destruct before. }
  pose proof (FinalizeAxes_cases plot plotStyle padStyle (padID s) (bl_pad b) (bl_world b))
    as Hcases.
  rewrite Haxis in Hcases. destruct Hcases as (pad' & w' & Hfinal & _).
  exists (bl_pad b), (bl_world b), before, axisObject, after, pad', w'.
  rewrite Hfinal. cbn [mbind option_bind]. done.
Qed.

(** X22: a pad in which at least one series has data, when updating a pad
    does not change its list of primitives and every legend box of the pad
    has at least one column and a title without tokens. The loop over the
    boxes comes to its end, and the pad that reaches the settings of the
    axes is not empty and holds a histogram, a graph or a function: the
    turn is not left at the check for an empty pad and the object with the
    axes is not null; it is the first such primitive of the pad. The
    settings of the axes are made and the pad number moves on by one; only
    when [GetHistogram] hands out no histogram for a graph or a function
    does the number stay. *)
Theorem pad_with_data plot plotStyle availableData s padStyle :
  (forall w pad, drawn (PadUpdate w pad) = drawn pad) ->
  Exists (fun data => series_found availableData data = true)
         (Plot.GetData plot (padID s)) ->
  forallb legend_box_ok (Plot.GetBoxes plot (padID s)) = true ->
  exists pad w before axisObject after,
    pad_step gNameGroupSeparator plot plotStyle availableData s padStyle
    = (finalized ← FinalizeAxes plot plotStyle padStyle (padID s) pad w;
       let '(pad', w', completed) := (finalized : TPad * World * bool) in
       Some (mkPadLoop (pl_pads s ++ [pad'])%list
                       (if completed then padID s + 1 else padID s) w'))
    /\ find_axis_object pad = AxisOf axisObject.1
    /\ drawn pad = (before ++ axisObject :: after)%list
    /\ holds_axes axisObject.1 = true
    /\ Forall (fun d : TObject * string => holds_axes d.1 = false) before
    /\ exists pad' w',
         pad_step gNameGroupSeparator plot plotStyle availableData s padStyle
         = Some (mkPadLoop (pl_pads s ++ [pad'])%list
                           (if InheritsFrom "TH1" axisObject.1 || HasHistogram axisObject.1
                            then padID s + 1 else padID s) w').
Proof.
  intros Hupdate Hsome Hok.
  destruct (pad_step_with_data plot plotStyle availableData s padStyle Hupdate Hsome Hok)
    as (pad & w & before & axisObject & after & pad' & w'
        & Haxis & Hdrawn & Hobj & Hbefore & Hfinal & Hstep).
  exists pad, w, before, axisObject, after.
  split; [by rewrite Hstep, Hfinal|]. split; [exact Haxis|]. split; [exact Hdrawn|].
  split; [exact Hobj|]. split; [exact Hbefore|].
  exists pad', w'. rewrite Hstep. do 2 f_equal.
  unfold find_axisHist. unfold holds_axes in Hobj.
  destruct (InheritsFrom "TH1" axisObject.1); [done|].
  destruct (InheritsFrom "TGraph" axisObject.1); [done|].
  destruct (InheritsFrom "TF1" axisObject.1); [done|discriminate Hobj].
Qed.
End PadWithDataFacts.

Lemma pad_with_data_witness :
  exists pad' w',
    @pad_step test_backend "_IN_" plot_with_data test_style test_data
              (mkPadLoop [] 1 test_world) test_padStyle
    = Some (mkPadLoop [pad'] 2 w').
Proof.
  destruct (@pad_with_data test_backend "_IN_" plot_with_data
              test_style test_data (mkPadLoop [] 1 test_world) test_padStyle
              (fun _ _ => eq_refl))
    as (pad & w & before & axisObject & after & _ & _ & _ & _ & _ & pad' & w' & Hstep).
  { apply Exists_cons_tl, Exists_cons_hd. reflexivity. }
  { reflexivity. }
  exists pad', w'. rewrite Hstep. cbn [pl_pads padID app]. do 2 f_equal.
  destruct (InheritsFrom "TH1" axisObject.1); reflexivity.
Defined.

(** ** GeneratePlot: the canvas *)

Section CanvasFacts.
Context `{Backend}.
Variable gNameGroupSeparator : string.

Lemma pad_loop_cons plot plotStyle availableData padStyle padStyles s :
  pad_loop gNameGroupSeparator plot plotStyle availableData (padStyle :: padStyles) s
  = (s1 ← pad_step gNameGroupSeparator plot plotStyle availableData s padStyle;
     pad_loop gNameGroupSeparator plot plotStyle availableData padStyles s1).
Proof.
  unfold pad_loop. cbn [fold_left mbind option_bind].
  destruct (pad_step _ _ _ _ s padStyle); [done|]. apply fold_fault.
Qed.

(** One turn of the loop over the pad styles that comes to its end adds
    one pad, and the pad number moves on by one at most. *)
Lemma pad_step_pads plot plotStyle availableData s padStyle s1 :
  pad_step gNameGroupSeparator plot plotStyle availableData s padStyle = Some s1 ->
  length (pl_pads s1) = S (length (pl_pads s)) /\ padID s <= padID s1 <= padID s + 1.
Proof.
  unfold pad_step. intros Hstep.
  destruct (box_loop _ _ _ _ _ _) as [b|]; [|done]. cbn [mbind option_bind] in Hstep.
  destruct (FinalizeAxes _ _ _ _ _ _) as [[[pad w] completed]|]; [|done].
  cbn [mbind option_bind] in Hstep. injection Hstep as <-.
  cbn [pl_pads padID]. rewrite length_app. cbn [length].
  split; [lia|]. destruct completed; lia.
Qed.

Lemma pad_loop_pads plot plotStyle availableData padStyles :
  forall s s',
    pad_loop gNameGroupSeparator plot plotStyle availableData padStyles s = Some s' ->
    length (pl_pads s') = (length (pl_pads s) + length padStyles)%nat
    /\ padID s <= padID s' <= padID s + Z.of_nat (length padStyles).
Proof.
  induction padStyles as [|padStyle rest IH]; intros s s' Hloop.
  - injection Hloop as <-. simpl. lia.
  - rewrite pad_loop_cons in Hloop.
    destruct (pad_step _ _ _ _ s padStyle) as [s1|] eqn:Hstep; [|done].
    cbn [mbind option_bind] in Hloop.
    destruct (pad_step_pads _ _ _ _ _ _ Hstep) as [Hlen1 Hid1].
    destruct (IH s1 s' Hloop) as [Hlen Hid].
    rewrite Hlen, Hlen1. cbn [length]. lia.
Qed.

(** The loop over the pad styles comes to its end when every pad has a
    series with data and legend boxes with a column and a plain title. *)
Lemma pad_loop_returns plot plotStyle availableData padStyles :
  (forall w pad, drawn (PadUpdate w pad) = drawn pad) ->
  forall s,
    (forall padID',
        padID s <= padID' < padID s + Z.of_nat (length padStyles) ->
        Exists (fun data => series_found availableData data = true)
               (Plot.GetData plot padID')
        /\ forallb legend_box_ok (Plot.GetBoxes plot padID') = true) ->
    is_Some (pad_loop gNameGroupSeparator plot plotStyle availableData padStyles s).
Proof.
  intros Hupdate. induction padStyles as [|padStyle rest IH]; intros s Hpads.
  - by eexists.
  - rewrite pad_loop_cons.
    destruct (Hpads (padID s)) as [Hsome Hok]; [cbn [length]; lia|].
    destruct (pad_step_with_data gNameGroupSeparator plot plotStyle availableData s
                padStyle Hupdate Hsome Hok)
      as (pad & w & before & axisObject & after & pad' & w' & _ & _ & _ & _ & _ & Hstep).
    rewrite Hstep. cbn [mbind option_bind]. apply IH.
    intros padID' Hid. apply Hpads. cbn [padID length] in Hid |- *.
    destruct (find_axisHist axisObject.1 w).1; lia.
Qed.

(** X13: when the style has as many pads as the plot needs, a canvas that
    GeneratePlot returns has the unique name of the plot, the width of the
    style plus 4 and its height plus 28, no margins, and one pad for each
    pad style of the style, whatever number of pads the plot needs; it
    holds a time stamp (the date, in colour 16) exactly when the style asks
    for time stamps. What is returned is never the null pointer then. And
    GeneratePlot does return when updating a pad does not change its list
    of primitives and every pad that the loop can come to has a series
    with data and only legend boxes with at least one column and a title
    without tokens. *)
Theorem GeneratePlot_canvas plot plotStyle availableData w :
  Plot.GetNumRequiredPads plot <= PlotStyle.GetNPads plotStyle ->
  (forall result w',
      GeneratePlot gNameGroupSeparator plot plotStyle availableData w = Some (result, w') ->
      exists canvas,
        result = Some canvas
        /\ c_name canvas = Plot.GetUniqueName plot
        /\ c_width canvas = PlotStyle.GetWidth plotStyle + 4
        /\ c_height canvas = PlotStyle.GetHeight plotStyle + 28
        /\ Forall (fun side => c_att canvas !! side = Some 0%Q)
                  ["LeftMargin"; "RightMargin"; "TopMargin"; "BottomMargin"]
        /\ length (c_pads canvas) = length (PlotStyle.GetPadStyles plotStyle)
        /\ (if PlotStyle.IsDrawTimestamps plotStyle
            then exists stamp,
                   c_prims canvas = [ObjTLatex stamp]
                   /\ tl_text stamp = "#color[16]{" ++ to_string (today w') ++ "}"
                   /\ (tl_x stamp, tl_y stamp) = PlotStyle.GetTimestampPositon plotStyle
            else c_prims canvas = []))
  /\ ((forall w pad, drawn (PadUpdate w pad) = drawn pad) ->
      (forall padID',
          1 <= padID' <= Z.of_nat (length (PlotStyle.GetPadStyles plotStyle)) ->
          Exists (fun data => series_found availableData data = true)
                 (Plot.GetData plot padID')
          /\ forallb legend_box_ok (Plot.GetBoxes plot padID') = true) ->
      is_Some (GeneratePlot gNameGroupSeparator plot plotStyle availableData w)).
Proof.
  intros Hpads. unfold GeneratePlot.
  destruct (Z.ltb_spec (PlotStyle.GetNPads plotStyle) (Plot.GetNumRequiredPads plot));
    [lia|].
  split.
  - intros result w' Hresult.
    destruct (pad_loop _ _ _ _ _ _) as [s|] eqn:Hloop; [|done].
    cbn [mbind option_bind] in Hresult. injection Hresult as <- <-.
    eexists. split; [reflexivity|].
    cbn [c_name c_width c_height c_att c_pads c_prims].
    split; [done|]. split; [done|]. split; [done|]. split.
    { unfold set_reg. repeat constructor. }
    split.
    { by destruct (pad_loop_pads _ _ _ _ _ _ Hloop) as [-> _]. }
    destruct (PlotStyle.IsDrawTimestamps plotStyle); [|done].
    eexists. split; [reflexivity|]. split; [reflexivity|].
    by destruct (PlotStyle.GetTimestampPositon plotStyle).
  - intros Hupdate Hdata.
    destruct (pad_loop_returns plot plotStyle availableData
                (PlotStyle.GetPadStyles plotStyle) Hupdate
                (mkPadLoop [] 1 (style_set "OptStat" 0%Q w))) as [s ->].
    { intros padID' Hid. apply Hdata. cbn [padID] in Hid. lia. }
    by eexists.
Qed.
End CanvasFacts.

Lemma GeneratePlot_canvas_witness :
  exists canvas w',
    @GeneratePlot test_backend "_IN_" plot_with_data test_style test_data test_world
    = Some (Some canvas, w')
    /\ c_width canvas = 804 /\ c_height canvas = 628 /\ length (c_pads canvas) = 1%nat.
Proof.
  destruct (@GeneratePlot_canvas test_backend "_IN_" plot_with_data
              test_style test_data test_world) as [Hcanvas Hreturns].
  { simpl. lia. }
  destruct Hreturns as [[result w'] Hresult].
  { intros w pad. reflexivity. }
  { intros padID' _. split; [|reflexivity].
    apply Exists_cons_tl, Exists_cons_hd. reflexivity. }
  destruct (Hcanvas result w' Hresult)
    as (canvas & -> & _ & Hwidth & Hheight & _ & Hpads & _).
  exists canvas, w'. split; [exact Hresult|]. split; [exact Hwidth|].
  split; [exact Hheight|exact Hpads].
Defined.
